(** * Scheduling and assignment engine of the elementary-school database

    A shallow embedding of the four APIs that carry the conflict logic:
    [addClass], [fillClass], [requestTimeOff] and [suggestSubstitutes]
    (src/src/api/*.py).  Each API is a Python class whose [retrieveOutput]
    runs a fixed sequence of server-side prepared statements; the embedding
    gives every prepared statement as a function over the tables it reads
    (named as the statement is named in the source) and every
    [retrieveOutput] as a state-passing function over the database.

    Tables are lists of rows in scan order: [cursor.fetchone()] is the head
    of the result list, [cursor.fetchall()] the whole list.  The file that
    declares the tables (schema.sql) is not among the sources: a table
    carries the columns that the statements name, and the store takes
    every row that a statement inserts, so that the [except] branches of
    the [retrieveOutput] methods, which answer errors raised by the
    database driver, are not reached. *)

From Stdlib Require Import ZArith List String Ascii Bool Lia.
From Stdlib Require Import Permutation Sorted DecimalString OrderedTypeEx.
From Stdlib Require Import DecimalPos DecimalZ.
Import ListNotations.

Local Open Scope string_scope.
Local Open Scope list_scope.
Local Open Scope Z_scope.

(** ** Column types *)

(** A [date] column: the day number of the calendar day.  The statements
    only ever compare dates. *)
Definition Date := Z.

(** A [time] column: microseconds since midnight, between [0] and
    [USECS_PER_DAY]. *)
Definition TimeOfDay := Z.

(** An [interval] column, as far as [time + interval] reads it: its
    time field in microseconds. *)
Definition Interval := Z.

Definition USECS_PER_DAY : Z := 86400000000.

(** [time + interval] of PostgreSQL: the sum taken modulo one day. *)
Definition time_pl_interval (t : TimeOfDay) (d : Interval) : TimeOfDay :=
  (t + d) mod USECS_PER_DAY.

(** [hms h m s] is the time of day (or the span) written [HH:MM:SS]. *)
Definition hms (h m s : Z) : Z := ((h * 60 + m) * 60 + s) * 1000000.

(** [ymd y m d] is the day number of the calendar date [y-m-d], counted
    from 2000-01-01 by way of the Julian day; it serves to write the
    dates of the scenarios. *)
Definition date2j (y m d : Z) : Z :=
  let '(m', y') := if 2 <? m then (m + 1, y + 4800) else (m + 13, y + 4799) in
  let century := y' / 100 in
  y' * 365 - 32167 + (y' / 4 - century + century / 4) + (7834 * m' / 256 + d).

Definition ymd (y m d : Z) : Date := date2j y m d - 2451545.

(** ** Small SQL and Python vocabulary *)

(** [cursor.fetchone()]: the first row of the result, [None] when there
    is none. *)
Definition fetchone {A : Type} (rows : list A) : option A := hd_error rows.

(** [LEFT(s, 1)]. *)
Definition LEFT1 (s : string) : string :=
  match s with
  | EmptyString => EmptyString
  | String c _ => String c EmptyString
  end.

(** [s LIKE '%pat%'] for a pattern without wildcards of its own:
    [pat] occurs in [s]. *)
Fixpoint like_contains (pat s : string) : bool :=
  String.prefix pat s ||
  match s with
  | EmptyString => false
  | String _ s' => like_contains pat s'
  end.

(** Truth value of a Python string: the empty string is false. *)
Definition truthy (s : string) : bool :=
  match s with
  | EmptyString => false
  | String _ _ => true
  end.

(** ['C' || id]: the decimal text of an integer. *)
Definition text_of_int (n : Z) : string := NilZero.string_of_int (Z.to_int n).

(** [max(col)] over a table, [None] (SQL NULL) on the empty table. *)
Fixpoint sql_max (l : list Z) : option Z :=
  match l with
  | [] => None
  | x :: l' =>
      match sql_max l' with
      | None => Some x
      | Some m => Some (Z.max x m)
      end
  end.

Definition COALESCE (o : option Z) (d : Z) : Z :=
  match o with
  | Some v => v
  | None => d
  end.

(** ** Tables *)

Module Staff.
Record row := mk
  { ID : Z; Number : string; FirstName : string; LastName : string }.
End Staff.

Module Substitute.
Record row := mk
  { ID : Z; Number : string; FirstName : string; LastName : string;
    WorkEmail : string }.
End Substitute.

Module Availability.
Record row := mk
  { SubstituteID : Z; StartDate : Date; EndDate : Date }.
End Availability.

Module TimeOffRequest.
Record row := mk
  { ID : Z; StartDate : Date; EndDate : Date; Reason : string;
    StaffID : Z; SubstituteID : option Z }.
End TimeOffRequest.

Module ClassType.
Record row := mk { ID : string }.
End ClassType.

Module Class.
Record row := mk
  { ID : Z; Number : string; ClassTypeID : string; RoomNumber : string;
    StartTime : TimeOfDay; Duration : Interval }.
End Class.

Module Student.
Record row := mk { ID : Z; Number : string; Grade : string }.
End Student.

Module StudentToClass.
Record row := mk { StudentID : Z; ClassID : Z }.

Definition eqb (a b : row) : bool :=
  (StudentID a =? StudentID b) && (ClassID a =? ClassID b).
End StudentToClass.

Module StaffToClass.
Record row := mk { StaffID : Z; ClassID : Z }.

Definition eqb (a b : row) : bool :=
  (StaffID a =? StaffID b) && (ClassID a =? ClassID b).
End StaffToClass.

(** The database: the tables the four APIs touch, and the serial
    sequence behind [TimeOffRequest.ID]. *)
Record Db := mkDb
  { staff : list Staff.row;
    substitute : list Substitute.row;
    availability : list Availability.row;
    timeoffrequest : list TimeOffRequest.row;
    timeoffrequest_id_seq : Z;
    classtype : list ClassType.row;
    class : list Class.row;
    student : list Student.row;
    studenttoclass : list StudentToClass.row;
    stafftoclass : list StaffToClass.row }.

Definition with_class (db : Db) (t : list Class.row) : Db :=
  mkDb (staff db) (substitute db) (availability db) (timeoffrequest db)
       (timeoffrequest_id_seq db) (classtype db) t (student db)
       (studenttoclass db) (stafftoclass db).

Definition with_timeoffrequest (db : Db) (t : list TimeOffRequest.row)
    (seq : Z) : Db :=
  mkDb (staff db) (substitute db) (availability db) t seq (classtype db)
       (class db) (student db) (studenttoclass db) (stafftoclass db).

Definition with_studenttoclass (db : Db) (t : list StudentToClass.row) : Db :=
  mkDb (staff db) (substitute db) (availability db) (timeoffrequest db)
       (timeoffrequest_id_seq db) (classtype db) (class db) (student db)
       t (stafftoclass db).

Definition with_stafftoclass (db : Db) (t : list StaffToClass.row) : Db :=
  mkDb (staff db) (substitute db) (availability db) (timeoffrequest db)
       (timeoffrequest_id_seq db) (classtype db) (class db) (student db)
       (studenttoclass db) t.

Definition empty_db : Db := mkDb [] [] [] [] 1 [] [] [] [] [].

(** ** addClass.py *)

Module addClass.

(** The [WHERE] condition of [check_room_availability_plan] on one
    row: [$2 < (StartTime + Duration) AND StartTime < ($2 + $3)]. *)
Definition slot_condition (c : Class.row) (p2 : TimeOfDay) (p3 : Interval)
  : bool :=
  (p2 <? time_pl_interval (Class.StartTime c) (Class.Duration c)) &&
  (Class.StartTime c <? time_pl_interval p2 p3).

(** [check_room_availability_plan (varchar, time, interval)]: one row
    [1] per class of the room that meets the slot condition. *)
Definition check_room_availability_plan (db : Db) (p1 : string)
    (p2 : TimeOfDay) (p3 : Interval) : list Z :=
  map (fun _ => 1)
    (filter (fun c => (Class.RoomNumber c =? p1)%string && slot_condition c p2 p3)
       (class db)).

(** The sequence synchronisation that precedes the insert:
    [setval(seq, COALESCE(max(id), 0) + 1, false)], so that the
    following [nextval] is that value. *)
Definition synchronized_nextval (db : Db) : Z :=
  COALESCE (sql_max (map Class.ID (class db))) 0 + 1.

(** [insert_class_plan_v5 (varchar, varchar, time, interval)]: inserts
    the row with the new id and the number ['C' || id], and returns
    [Number, RoomNumber, StartTime, Duration]. *)
Definition insert_class_plan_v5 (db : Db) (p1 p2 : string) (p3 : TimeOfDay)
    (p4 : Interval) : Db * Class.row :=
  let new_id := synchronized_nextval db in
  let r := Class.mk new_id ("C" ++ text_of_int new_id)%string p1 p2 p3 p4 in
  (with_class db (class db ++ [r]), r).

(** What [retrieveOutput] leaves in the instance. *)
Record new_class_details := mk_details
  { number : string; room_number : string; start_time : TimeOfDay;
    duration : Interval }.

Inductive outcome :=
| RoomUnavailable          (* "Room ... is not available at the given time." *)
| Created (d : new_class_details).

Definition retrieveOutput (db : Db) (room_number class_type : string)
    (start_time : TimeOfDay) (duration : Interval) : Db * outcome :=
  match fetchone (check_room_availability_plan db room_number start_time duration) with
  | Some _ => (db, RoomUnavailable)
  | None =>
      let '(db', r) :=
        insert_class_plan_v5 db class_type room_number start_time duration in
      (db', Created (mk_details (Class.Number r) (Class.RoomNumber r)
                       (Class.StartTime r) (Class.Duration r)))
  end.

End addClass.

(** ** requestTimeOff.py *)

Module requestTimeOff.

(** [validate_staff_plan (text)]. *)
Definition validate_staff_plan (db : Db) (p1 : string)
  : list (Z * string * string) :=
  map (fun s => (Staff.ID s, Staff.FirstName s, Staff.LastName s))
    (filter (fun s => (Staff.Number s =? p1)%string) (staff db)).

(** [validate_substitute_plan (text)]. *)
Definition validate_substitute_plan (db : Db) (p1 : string)
  : list (Z * string * string) :=
  map (fun s => (Substitute.ID s, Substitute.FirstName s, Substitute.LastName s))
    (filter (fun s => (Substitute.Number s =? p1)%string) (substitute db)).

(** [check_substitute_availability_plan (integer, date, date)]: the
    [COUNT] of the substitute's rows with
    [StartDate <= $2 AND EndDate >= $3]. *)
Definition check_substitute_availability_plan (db : Db) (p1 : Z)
    (p2 p3 : Date) : Z :=
  Z.of_nat (List.length
    (filter (fun a => (Availability.SubstituteID a =? p1) &&
                      (Availability.StartDate a <=? p2) &&
                      (Availability.EndDate a >=? p3))
       (availability db))).

(** The test [retrieveOutput] makes on that count: the substitute is
    unavailable when [available_count == 0]. *)
Definition isAvailable (db : Db) (substitute_id : Z)
    (start_date end_date : Date) : bool :=
  negb (check_substitute_availability_plan db substitute_id
          start_date end_date =? 0).

(** [insert_time_off_request_plan (date, date, text, integer, integer)]:
    the row takes its [ID] from the serial sequence, which advances;
    [RETURNING ID]. *)
Definition insert_time_off_request_plan (db : Db) (p1 p2 : Date)
    (p3 : string) (p4 : Z) (p5 : option Z) : Db * Z :=
  let new_id := timeoffrequest_id_seq db in
  (with_timeoffrequest db
     (timeoffrequest db ++ [TimeOffRequest.mk new_id p1 p2 p3 p4 p5])
     (new_id + 1),
   new_id).

(** A row of [get_time_off_request_plan]; the three substitute columns
    are NULL when the [LEFT JOIN] finds no substitute. *)
Record request_details := mk_request_details
  { d_ID : Z; d_StartDate : Date; d_EndDate : Date; d_Reason : string;
    d_StaffNumber : string; d_StaffFirstName : string; d_StaffLastName : string;
    d_SubNumber : option string; d_SubFirstName : option string;
    d_SubLastName : option string }.

(** [LEFT JOIN Substitute sub ON t.SubstituteID = sub.ID] for one
    request and its staff member: a row per matching substitute, or
    one row with the substitute columns NULL. *)
Definition left_join_substitute (db : Db) (t : TimeOffRequest.row)
    (s : Staff.row) : list request_details :=
  let head := mk_request_details
    (TimeOffRequest.ID t) (TimeOffRequest.StartDate t)
    (TimeOffRequest.EndDate t) (TimeOffRequest.Reason t)
    (Staff.Number s) (Staff.FirstName s) (Staff.LastName s) in
  match filter (fun sub =>
          match TimeOffRequest.SubstituteID t with
          | Some i => i =? Substitute.ID sub
          | None => false
          end) (substitute db) with
  | [] => [head None None None]
  | subs =>
      map (fun sub => head (Some (Substitute.Number sub))
                           (Some (Substitute.FirstName sub))
                           (Some (Substitute.LastName sub))) subs
  end.

(** [get_time_off_request_plan (integer)]: the request joined with its
    staff member and left-joined with its substitute. *)
Definition get_time_off_request_plan (db : Db) (p1 : Z)
  : list request_details :=
  flat_map (fun t =>
    flat_map (left_join_substitute db t)
      (filter (fun s => TimeOffRequest.StaffID t =? Staff.ID s) (staff db)))
    (filter (fun t => TimeOffRequest.ID t =? p1) (timeoffrequest db)).

(** The fields [getInput] stores in the instance. *)
Record instance := mk_instance
  { staff_number : string; start_date : Date; end_date : Date;
    reason : string; substitute_number : option string }.

(** [getInput] when called with parameters: every one of staff number,
    start date, end date and reason has to be given and non-empty
    (a date that is given is a non-empty text), and then the values
    are stored as they are.  [None] stands for the other branch, the
    interactive prompt. *)
Definition getInput (staff_number : option string)
    (start_date end_date : option Date) (reason : option string)
    (substitute_number : option string) : option instance :=
  match staff_number, start_date, end_date, reason with
  | Some n, Some s, Some e, Some r =>
      if truthy n && truthy r
      then Some (mk_instance n s e r substitute_number)
      else None
  | _, _, _, _ => None
  end.

Record person := mk_person { number : string; name : string }.

Record confirmation := mk_confirmation
  { request_id : Z; c_start_date : Date; c_end_date : Date;
    c_reason : string; c_staff : person; c_substitute : option person }.

(** [self.request_result]. *)
Inductive request_result :=
| StaffNotFound            (* "Staff with number ... not found." *)
| SubstituteNotFound       (* "Substitute with number ... not found." *)
| SubstituteUnavailable    (* "Substitute is not available for the requested dates." *)
| DetailsNotRetrieved      (* "Failed to retrieve request details." *)
| Success (c : confirmation).

Definition full_name (first last : string) : string :=
  (first ++ " " ++ last)%string.

(** The confirmation built from the row read back. *)
Definition confirm (d : request_details) : confirmation :=
  mk_confirmation (d_ID d) (d_StartDate d) (d_EndDate d) (d_Reason d)
    (mk_person (d_StaffNumber d)
               (full_name (d_StaffFirstName d) (d_StaffLastName d)))
    match d_SubNumber d, d_SubFirstName d, d_SubLastName d with
    | Some n, Some f, Some l =>
        if truthy n then Some (mk_person n (full_name f l)) else None
    | _, _, _ => None
    end.

(** The insert and the read-back at the end of [retrieveOutput]. *)
Definition create_request (db : Db) (i : instance) (staff_id : Z)
    (substitute_id : option Z) : Db * request_result :=
  let '(db', rid) :=
    insert_time_off_request_plan db (start_date i) (end_date i) (reason i)
      staff_id substitute_id in
  match fetchone (get_time_off_request_plan db' rid) with
  | Some d => (db', Success (confirm d))
  | None => (db', DetailsNotRetrieved)
  end.

Definition retrieveOutput (db : Db) (i : instance) : Db * request_result :=
  match fetchone (validate_staff_plan db (staff_number i)) with
  | None => (db, StaffNotFound)
  | Some (staff_id, _, _) =>
      match substitute_number i with
      | Some n =>
          if truthy n then
            match fetchone (validate_substitute_plan db n) with
            | None => (db, SubstituteNotFound)
            | Some (substitute_id, _, _) =>
                if isAvailable db substitute_id (start_date i) (end_date i)
                then create_request db i staff_id (Some substitute_id)
                else (db, SubstituteUnavailable)
            end
          else create_request db i staff_id None
      | None => create_request db i staff_id None
      end
  end.

(** A call with all parameters supplied: [getInput] then
    [retrieveOutput].  [None]: the call would prompt instead. *)
Definition submitTimeOff (db : Db) (staff_number : string)
    (start_date end_date : Date) (reason : string)
    (substitute_number : option string) : option (Db * request_result) :=
  option_map (retrieveOutput db)
    (getInput (Some staff_number) (Some start_date) (Some end_date)
       (Some reason) substitute_number).

End requestTimeOff.

(** ** ORDER BY *)

(** [ORDER BY] as a stable insertion sort: rows that compare equal keep
    the order in which the underlying scan produced them. *)
Section OrderBy.
Context {A : Type} (leb : A -> A -> bool).

Fixpoint insert_sorted (x : A) (l : list A) : list A :=
  match l with
  | [] => [x]
  | y :: l' => if leb x y then x :: l else y :: insert_sorted x l'
  end.

Definition ORDER_BY (l : list A) : list A := fold_right insert_sorted [] l.
End OrderBy.

(** The order of two text columns compared in turn, each by the code
    points of its characters: [ORDER BY k1, k2] ascending. *)
Definition text_pair_leb (a b : string * string) : bool :=
  match String.compare (fst a) (fst b) with
  | Lt => true
  | Eq => String.leb (snd a) (snd b)
  | Gt => false
  end.

(** ** suggestSubstitutes.py *)

Module suggestSubstitutes.

(** [suggest_subs_validate_staff_plan (text)]. *)
Definition suggest_subs_validate_staff_plan (db : Db) (p1 : string)
  : list (Z * string * string) :=
  map (fun s => (Staff.ID s, Staff.FirstName s, Staff.LastName s))
    (filter (fun s => (Staff.Number s =? p1)%string) (staff db)).

(** The three-disjunct date condition that both
    [suggest_subs_timeoff_request_plan] and the sub-select of
    [suggest_subs_available_plan] put on the [StartDate] and [EndDate]
    of a TimeOffRequest row, with its six date parameters in the order
    of the statement. *)
Definition request_date_condition (StartDate EndDate : Date)
    (a b c d e f : Date) : bool :=
  ((StartDate <=? a) && (EndDate >=? b)) ||
  ((StartDate >=? c) && (StartDate <=? d)) ||
  ((EndDate >=? e) && (EndDate <=? f)).

(** The condition as [retrieveOutput] calls it, every pair of
    parameters bound to [(start_date, end_date)]. *)
Definition overlaps_request (StartDate EndDate : Date)
    (start_date end_date : Date) : bool :=
  request_date_condition StartDate EndDate
    start_date end_date start_date end_date start_date end_date.

(** [suggest_subs_timeoff_request_plan
     (integer, date, date, date, date, date, date)]. *)
Definition suggest_subs_timeoff_request_plan (db : Db) (p1 : Z)
    (p2 p3 p4 p5 p6 p7 : Date) : list (Z * Date * Date * option Z) :=
  map (fun t => (TimeOffRequest.ID t, TimeOffRequest.StartDate t,
                 TimeOffRequest.EndDate t, TimeOffRequest.SubstituteID t))
    (filter (fun t => (TimeOffRequest.StaffID t =? p1) &&
                      request_date_condition (TimeOffRequest.StartDate t)
                        (TimeOffRequest.EndDate t) p2 p3 p4 p5 p6 p7)
       (timeoffrequest db)).

(** A row of the two substitute statements. *)
Record sub_row := mk_sub_row
  { r_Number : string; r_FirstName : string; r_LastName : string;
    r_WorkEmail : string; r_StartDate : Date; r_EndDate : Date }.

Definition join_row (s : Substitute.row) (a : Availability.row) : sub_row :=
  mk_sub_row (Substitute.Number s) (Substitute.FirstName s)
    (Substitute.LastName s) (Substitute.WorkEmail s)
    (Availability.StartDate a) (Availability.EndDate a).

(** [Substitute s JOIN Availability a ON s.ID = a.SubstituteID], with a
    [WHERE] condition on the pair: substitutes in the outer loop. *)
Definition substitute_join_availability (db : Db)
    (cond : Substitute.row -> Availability.row -> bool) : list sub_row :=
  flat_map (fun s =>
    map (join_row s)
      (filter (fun a => (Substitute.ID s =? Availability.SubstituteID a) &&
                        cond s a)
         (availability db)))
    (substitute db).

(** [suggest_subs_assigned_plan (integer, date, date)]. *)
Definition suggest_subs_assigned_plan (db : Db) (p1 : Z) (p2 p3 : Date)
  : list sub_row :=
  substitute_join_availability db (fun s a =>
    (Substitute.ID s =? p1) &&
    ((Availability.StartDate a <=? p2) && (Availability.EndDate a >=? p3))).

(** The sub-select of [suggest_subs_available_plan]: the non-NULL
    [SubstituteID]s of the requests that meet the date condition. *)
Definition committed_substitutes (db : Db) (p3 p4 p5 p6 p7 p8 : Date)
  : list Z :=
  flat_map (fun t =>
    match TimeOffRequest.SubstituteID t with
    | Some i =>
        if request_date_condition (TimeOffRequest.StartDate t)
             (TimeOffRequest.EndDate t) p3 p4 p5 p6 p7 p8
        then [i] else []
    | None => []
    end)
    (timeoffrequest db).

Definition sub_row_leb (x y : sub_row) : bool :=
  text_pair_leb (r_LastName x, r_FirstName x) (r_LastName y, r_FirstName y).

(** [suggest_subs_available_plan
     (date, date, date, date, date, date, date, date)]. *)
Definition suggest_subs_available_plan (db : Db)
    (p1 p2 p3 p4 p5 p6 p7 p8 : Date) : list sub_row :=
  ORDER_BY sub_row_leb
    (substitute_join_availability db (fun s a =>
       ((Availability.StartDate a <=? p1) && (Availability.EndDate a >=? p2)) &&
       negb (existsb (Z.eqb (Substitute.ID s))
               (committed_substitutes db p3 p4 p5 p6 p7 p8)))).

(** An element of [self.substitutes]. *)
Record candidate := mk_candidate
  { number : string; first_name : string; last_name : string;
    work_email : string; availability_start : Date;
    availability_end : Date; already_assigned : bool }.

Definition candidate_of (flag : bool) (r : sub_row) : candidate :=
  mk_candidate (r_Number r) (r_FirstName r) (r_LastName r) (r_WorkEmail r)
    (r_StartDate r) (r_EndDate r) flag.

Record instance := mk_instance
  { staff_number : string; start_date : Date; end_date : Date }.

Inductive outcome :=
| StaffNotFound                      (* "Error: Staff with number ... not found." *)
| Substitutes (l : list candidate).  (* [self.substitutes] *)

(** The second half of [retrieveOutput]: the list built from
    [suggest_subs_available_plan]. *)
Definition listCandidates (db : Db) (start_date end_date : Date)
  : list candidate :=
  map (candidate_of false)
    (suggest_subs_available_plan db start_date end_date
       start_date end_date start_date end_date start_date end_date).

(** The first half: the request fetched for the staff member and, when
    it carries a substitute, the row fetched for that substitute. *)
Definition assigned_substitute (db : Db) (staff_id : Z)
    (start_date end_date : Date) : option sub_row :=
  match fetchone (suggest_subs_timeoff_request_plan db staff_id
                    start_date end_date start_date end_date
                    start_date end_date) with
  | Some (_, _, _, Some substitute_id) =>
      fetchone (suggest_subs_assigned_plan db substitute_id start_date end_date)
  | _ => None
  end.

(** [retrieveOutput] reads only; the database is returned as it was. *)
Definition retrieveOutput (db : Db) (i : instance) : Db * outcome :=
  match fetchone (suggest_subs_validate_staff_plan db (staff_number i)) with
  | None => (db, StaffNotFound)
  | Some (staff_id, _, _) =>
      match assigned_substitute db staff_id (start_date i) (end_date i) with
      | Some assigned_sub => (db, Substitutes [candidate_of true assigned_sub])
      | None => (db, Substitutes (listCandidates db (start_date i) (end_date i)))
      end
  end.

End suggestSubstitutes.

(** ** fillClass.py *)

Module fillClass.

(** [get_class_id_plan (varchar)]. *)
Definition get_class_id_plan (db : Db) (p1 : string) : list Z :=
  map Class.ID (filter (fun c => (Class.Number c =? p1)%string) (class db)).

(** [get_staff_id_plan (varchar)]. *)
Definition get_staff_id_plan (db : Db) (p1 : string) : list Z :=
  map Staff.ID (filter (fun s => (Staff.Number s =? p1)%string) (staff db)).

(** Modelled from the spec: the schema file (schema.sql) that declares
    the tables is not part of the sources, so the key against which
    [ON CONFLICT DO NOTHING] detects a conflict is taken from the
    spec's words for fillClass ("assigning the same staff twice is a
    no-op, not an error", "duplicates are silently skipped"): a link
    row conflicts with an equal row already stored.

    [insert_staff_plan (integer, integer)]. *)
Definition insert_staff_plan (db : Db) (p1 p2 : Z) : Db :=
  let r := StaffToClass.mk p1 p2 in
  if existsb (StaffToClass.eqb r) (stafftoclass db) then db
  else with_stafftoclass db (stafftoclass db ++ [r]).

(** Modelled from the spec: the conflict key of StudentToClass, absent
    with schema.sql like the one of StaffToClass above, is the whole
    link row.

    [insert_student_plan (integer, integer)]. *)
Definition insert_student_plan (db : Db) (p1 p2 : Z) : Db :=
  let r := StudentToClass.mk p1 p2 in
  if existsb (StudentToClass.eqb r) (studenttoclass db) then db
  else with_studenttoclass db (studenttoclass db ++ [r]).

(** [get_class_assignments_plan (varchar)]: the students of the class,
    then ([UNION ALL]) its staff, each with its type tag. *)
Definition get_class_assignments_plan (db : Db) (p1 : string)
  : list (string * string) :=
  flat_map (fun s =>
    flat_map (fun stc =>
      map (fun _ => (Student.Number s, "student"))
        (filter (fun c => (StudentToClass.ClassID stc =? Class.ID c) &&
                          (Class.Number c =? p1)%string)
           (class db)))
      (filter (fun stc => Student.ID s =? StudentToClass.StudentID stc)
         (studenttoclass db)))
    (student db)
  ++
  flat_map (fun st =>
    flat_map (fun stf =>
      map (fun _ => (Staff.Number st, "staff"))
        (filter (fun c => (StaffToClass.ClassID stf =? Class.ID c) &&
                          (Class.Number c =? p1)%string)
           (class db)))
      (filter (fun stf => Staff.ID st =? StaffToClass.StaffID stf)
         (stafftoclass db)))
    (staff db).

(** [get_class_details_plan (varchar)]: [StartTime], [Duration] and
    [LEFT(ct.ID, 1) AS grade] of the class joined with its class type. *)
Definition get_class_details_plan (db : Db) (p1 : string)
  : list (TimeOfDay * Interval * string) :=
  flat_map (fun c =>
    map (fun ct => (Class.StartTime c, Class.Duration c, LEFT1 (ClassType.ID ct)))
      (filter (fun ct => (Class.ClassTypeID c =? ClassType.ID ct)%string)
         (classtype db)))
    (filter (fun c => (Class.Number c =? p1)%string) (class db)).

(** The [NOT EXISTS] sub-select of [get_eligible_students_plan] for
    one student: a link of the student to a class whose [ClassTypeID]
    is [LIKE '%HR%'] and whose [Number] is not [$2]. *)
Definition has_other_homeroom (db : Db) (s : Student.row) (p2 : string)
  : bool :=
  existsb (fun stc =>
    (Student.ID s =? StudentToClass.StudentID stc) &&
    existsb (fun c =>
      (StudentToClass.ClassID stc =? Class.ID c) &&
      like_contains "HR" (Class.ClassTypeID c) &&
      negb (Class.Number c =? p2)%string)
      (class db))
    (studenttoclass db).

(** [get_eligible_students_plan (varchar, varchar)]. *)
Definition get_eligible_students_plan (db : Db) (p1 p2 : string)
  : list string :=
  map Student.Number
    (filter (fun s => (Student.Grade s =? p1)%string &&
                      negb (has_other_homeroom db s p2))
       (student db)).

(** [get_student_id_plan (varchar)]. *)
Definition get_student_id_plan (db : Db) (p1 : string) : list Z :=
  map Student.ID (filter (fun s => (Student.Number s =? p1)%string) (student db)).

(** An element of [self.assignments]. *)
Record assignment := mk_assignment { number : string; type : string }.

Inductive outcome :=
| ClassNotFound            (* "Class with number ... not found." *)
| StaffNotFound            (* "Staff with number ... not found." *)
| DetailsNotRetrieved      (* "Could not retrieve details for class ...." *)
| Assignments (l : list assignment).

(** Step 6 of [retrieveOutput], one turn of the loop: the student's
    internal id is looked up and, when found, linked to the class. *)
Definition enroll (class_id : Z) (db : Db) (student_number : string) : Db :=
  match fetchone (get_student_id_plan db student_number) with
  | Some student_id => insert_student_plan db student_id class_id
  | None => db
  end.

Definition retrieveOutput (db : Db) (class_number staff_number : string)
  : Db * outcome :=
  match fetchone (get_class_id_plan db class_number) with
  | None => (db, ClassNotFound)
  | Some class_id =>
      match fetchone (get_staff_id_plan db staff_number) with
      | None => (db, StaffNotFound)
      | Some staff_id =>
          let db1 := insert_staff_plan db staff_id class_id in
          match fetchone (get_class_details_plan db1 class_number) with
          | None => (db1, DetailsNotRetrieved)
          | Some (_, _, class_grade) =>
              let eligible_students :=
                get_eligible_students_plan db1 class_grade class_number in
              let db2 := fold_left (enroll class_id) eligible_students db1 in
              (db2,
               Assignments
                 (map (fun row => mk_assignment (fst row) (snd row))
                    (get_class_assignments_plan db2 class_number)))
          end
      end
  end.

End fillClass.

(** ** listAllRooms.py *)

(** The Room table, with the columns that [list_all_rooms_plan] names;
    it is read by this API alone and is passed to it as such. *)
Module Room.
Record row := mk
  { Number : string; Capacity : Z; PhoneNumber : option string }.
End Room.

Module listAllRooms.

Definition room_leb (x y : Room.row) : bool :=
  String.leb (Room.Number x) (Room.Number y).

(** [list_all_rooms_plan(integer)]: the rooms with
    [$1 IS NULL OR Capacity >= $1], [ORDER BY Number]. *)
Definition list_all_rooms_plan (room : list Room.row) (p1 : option Z)
  : list (string * Z * option string) :=
  map (fun r => (Room.Number r, Room.Capacity r, Room.PhoneNumber r))
    (ORDER_BY room_leb
       (filter (fun r => match p1 with
                         | None => true
                         | Some n => Room.Capacity r >=? n
                         end) room)).

(** An element of [self.rooms]. *)
Record room_entry := mk_room_entry
  { number : string; capacity : Z; phone_number : option string }.

Definition retrieveOutput (room : list Room.row) (filter_capacity : option Z)
  : list room_entry :=
  map (fun row => mk_room_entry (fst (fst row)) (snd (fst row)) (snd row))
    (list_all_rooms_plan room filter_capacity).

End listAllRooms.

(** ** extract_schema.py *)

Module extract_schema.

(** [len(s)]. *)
Definition len (s : string) : Z := Z.of_nat (String.length s).

(** The start index of [str.find] after adjustment: a negative index
    counts from the end and is clamped at [0]. *)
Definition adjust_start (n i : Z) : Z :=
  if i <? 0 then Z.max (i + n) 0 else i.

(** [s.find(sub, start)]: the lowest index at or after [start] where
    [sub] occurs in [s], [-1] when there is none. *)
Definition find (s sub : string) (start : Z) : Z :=
  let start' := adjust_start (len s) start in
  if len s - start' <? len sub then -1
  else match String.index (Z.to_nat start') sub s with
       | Some k => Z.of_nat k
       | None => -1
       end.

(** A bound of a slice after adjustment: a negative index counts from
    the end, and the result is clamped to [0 .. len]. *)
Definition adjust_slice (n i : Z) : Z :=
  if i <? 0 then Z.max (i + n) 0 else Z.min i n.

(** [s[a:b]]. *)
Definition slice (s : string) (a b : Z) : string :=
  let a' := adjust_slice (len s) a in
  let b' := adjust_slice (len s) b in
  String.substring (Z.to_nat a') (Z.to_nat (b' - a')) s.

(** The text that [extract_schema] writes for the content it has read:
    [content[schema_start:schema_end]], from the first ['BEGIN;'] to
    the end of the first ['COMMIT;'] found from there. *)
Definition schema_sql (content : string) : string :=
  let schema_start := find content "BEGIN;" 0 in
  let schema_end := find content "COMMIT;" schema_start + len "COMMIT;" in
  slice content schema_start schema_end.

End extract_schema.

(** ** API_Interaction.py and driver.py *)

Module API_Interaction.

(** The keys of [self.api_classes]. *)
Definition api_classes : list string :=
  ["listStudentsInClass"; "listStudentGuardianInfo"; "requestTimeOff";
   "suggestSubstitutes"; "addClass"; "fillClass"; "listStudentClasses";
   "listAllClasses"; "findStudentNumber"; "findStaffNumber";
   "findGuardianNumber"; "listAllRooms"].

(** [execute_api]: the API that runs, [None] for
    "Error: API ... not found." *)
Definition execute_api (api_name : string) : option string :=
  if existsb (String.eqb api_name) api_classes then Some api_name else None.

End API_Interaction.

Module driver.

Definition available_apis : list string :=
  ["listAllRooms"; "listAllClasses"; "findStaffNumber"; "fillClass";
   "listStudentsInClass"; "findStudentNumber"; "listStudentGuardianInfo";
   "requestTimeOff"; "suggestSubstitutes"; "addClass"; "listStudentClasses";
   "findGuardianNumber"].

(** One turn of the menu of [main] on a choice that reads as the
    integer [choice] and is not "0": the API that is executed, [None]
    for "Invalid choice" or an API that is not found. *)
Definition choose (choice : Z) : option string :=
  if (1 <=? choice) && (choice <=? Z.of_nat (List.length available_apis))
  then match nth_error available_apis (Z.to_nat (choice - 1)) with
       | Some selected_api => API_Interaction.execute_api selected_api
       | None => None
       end
  else None.

End driver.

(** ** The interval predicates in the words of the specification *)

(** [timeOverlaps]: [startA < endB AND startB < endA] where
    [endX = startX + durationX], the plain sum of the start and the
    duration.  The statement of [addClass] computes its ends with the
    sum of the [time] type instead ([addClass.slot_condition]); the
    two agree on slots that end within the day they start. *)
Definition timeOverlaps (startA : TimeOfDay) (durationA : Interval)
    (startB : TimeOfDay) (durationB : Interval) : bool :=
  (startA <? startB + durationB) &&
  (startB <? startA + durationA).

(** [dateRangeOverlaps]: [startA <= endB AND startB <= endA]. *)
Definition dateRangeOverlaps (startA endA startB endB : Date) : bool :=
  (startA <=? endB) && (startB <=? endA).

(** [dateRangeCovers]: [coveringStart <= targetStart AND
    coveringEnd >= targetEnd]. *)
Definition dateRangeCovers (coveringStart coveringEnd targetStart targetEnd : Date)
  : bool :=
  (coveringStart <=? targetStart) && (coveringEnd >=? targetEnd).

(** ** Scenarios

    The concrete databases of the scenarios that the properties below
    are tried on. *)

Module Scenario.

(** Room "R100" after the first class (09:00, one hour) was created on
    an empty schedule. *)
Definition room_R100 : Db :=
  fst (addClass.retrieveOutput empty_db "R100" "1HR" (hms 9 0 0) (hms 1 0 0)).

Definition staffA : Staff.row := Staff.mk 1 "T001" "Ada" "Abbott".
Definition staffB : Staff.row := Staff.mk 2 "T002" "Ben" "Brooks".
Definition Sub1 : Substitute.row :=
  Substitute.mk 10 "SUB1" "Sam" "Stone" "sam.stone@nee.example".
Definition Sub2 : Substitute.row :=
  Substitute.mk 11 "SUB2" "Pat" "Moore" "pat.moore@nee.example".

(** Sub1 available over [2025-01-01, 2025-01-10]; Sub2 over the two
    adjoining intervals [2025-01-01, 2025-01-10] and
    [2025-01-11, 2025-01-20]. *)
Definition january : Db :=
  mkDb [staffA; staffB] [Sub1; Sub2]
    [Availability.mk 10 (ymd 2025 1 1) (ymd 2025 1 10);
     Availability.mk 11 (ymd 2025 1 1) (ymd 2025 1 10);
     Availability.mk 11 (ymd 2025 1 11) (ymd 2025 1 20)]
    [] 1 [] [] [] [] [].

(** Sub1 available over [2025-01-15, 2025-02-28], no request yet. *)
Definition february : Db :=
  mkDb [staffA; staffB] [Sub1]
    [Availability.mk 10 (ymd 2025 1 15) (ymd 2025 2 28)]
    [] 1 [] [] [] [] [].

(** [february] after staff A's request over [2025-02-01, 2025-02-03]
    with Sub1. *)
Definition february_committed : Db :=
  match requestTimeOff.submitTimeOff february "T001"
          (ymd 2025 2 1) (ymd 2025 2 3) "leave" (Some "SUB1") with
  | Some (db, _) => db
  | None => february
  end.

(** Sub1 with two Availability rows, [2025-01-01, 2025-01-31] and
    [2025-01-05, 2025-01-20], that overlap each other. *)
Definition two_rows : Db :=
  mkDb [staffA] [Sub1; Sub2]
    [Availability.mk 10 (ymd 2025 1 1) (ymd 2025 1 31);
     Availability.mk 11 (ymd 2025 1 1) (ymd 2025 1 10);
     Availability.mk 10 (ymd 2025 1 5) (ymd 2025 1 20)]
    [] 1 [] [] [] [] [].

(** [february] after two requests of staff A: first over
    [2025-02-01, 2025-02-03] without a substitute, then over
    [2025-02-02, 2025-02-04] with Sub1. *)
Definition two_requests : Db :=
  match requestTimeOff.submitTimeOff february "T001"
          (ymd 2025 2 1) (ymd 2025 2 3) "leave" None with
  | Some (db, _) =>
      match requestTimeOff.submitTimeOff db "T001"
              (ymd 2025 2 2) (ymd 2025 2 4) "training" (Some "SUB1") with
      | Some (db', _) => db'
      | None => db
      end
  | None => february
  end.

(** Room "R100" with one class from 23:00 for two hours, created on an
    empty schedule: the class runs past midnight. *)
Definition night_class : Db :=
  fst (addClass.retrieveOutput empty_db "R100" "1HR" (hms 23 0 0) (hms 2 0 0)).

(** Room "R100" after the classes 09:00 for one hour and 10:00 for
    half an hour were created, in this order. *)
Definition two_classes : Db :=
  fst (addClass.retrieveOutput room_R100 "R100" "2HR" (hms 10 0 0) (hms 0 30 0)).

(** A class table whose ids are not consecutive: two classes, with
    the ids 3 and 7. *)
Definition sparse_ids : Db :=
  with_class empty_db
    [Class.mk 3 "C3" "1HR" "R100" (hms 8 0 0) (hms 1 0 0);
     Class.mk 7 "C7" "2HR" "R101" (hms 8 0 0) (hms 1 0 0)].

(** Two grade-3 homeroom classes C1 and C2; student S1 (grade 3) is
    enrolled in C1, S2 (grade 3) and S3 (grade 4) are in no class. *)
Definition C1 : Class.row :=
  Class.mk 1 "C1" "3HR" "R100" (hms 8 0 0) (hms 1 0 0).
Definition C2 : Class.row :=
  Class.mk 2 "C2" "3HR" "R101" (hms 8 0 0) (hms 1 0 0).
Definition S1 : Student.row := Student.mk 101 "ST101" "3".
Definition S2 : Student.row := Student.mk 102 "ST102" "3".
Definition S3 : Student.row := Student.mk 103 "ST103" "4".

Definition grade3 : Db :=
  mkDb [staffA; staffB] [] [] [] 1
    [ClassType.mk "3HR"; ClassType.mk "4HR"]
    [C1; C2] [S1; S2; S3]
    [StudentToClass.mk 101 1] [].

End Scenario.

(** ** The vocabulary of the properties *)

(** [(k1, k2)] precedes or equals [(k1', k2')] in the ascending order
    of the pair: [k1] is smaller, or they are equal and [k2] is not
    greater. *)
Definition name_le (x y : string * string) : Prop :=
  String.compare (fst x) (fst y) = Lt \/
  (fst x = fst y /\ String.compare (snd x) (snd y) <> Gt).

Definition candidate_name_le (x y : suggestSubstitutes.candidate) : Prop :=
  name_le (suggestSubstitutes.last_name x, suggestSubstitutes.first_name x)
          (suggestSubstitutes.last_name y, suggestSubstitutes.first_name y).

(** A request of the staff member that overlaps the asked range, by
    the condition of the statement. *)
Definition request_matches (staff_id : Z) (start_date end_date : Date)
    (t : TimeOffRequest.row) : Prop :=
  TimeOffRequest.StaffID t = staff_id /\
  suggestSubstitutes.overlaps_request (TimeOffRequest.StartDate t)
    (TimeOffRequest.EndDate t) start_date end_date = true.

(** [t] is the first such request in the order of the table. *)
Definition first_overlapping_request (db : Db) (staff_id : Z)
    (start_date end_date : Date) (t : TimeOffRequest.row) : Prop :=
  exists before after,
    timeoffrequest db = before ++ t :: after /\
    request_matches staff_id start_date end_date t /\
    forall t', In t' before -> ~ request_matches staff_id start_date end_date t'.

(** [sub] is the substitute [substitute_id] and [a] one of its
    Availability rows that covers the asked range. *)
Definition covering_pair (db : Db) (substitute_id : Z)
    (start_date end_date : Date) (sub : Substitute.row)
    (a : Availability.row) : Prop :=
  In sub (substitute db) /\ Substitute.ID sub = substitute_id /\
  In a (availability db) /\ Availability.SubstituteID a = substitute_id /\
  Availability.StartDate a <= start_date /\
  Availability.EndDate a >= end_date.

(** The substitute is not committed to any request that overlaps the
    asked range. *)
Definition uncommitted (db : Db) (substitute_id : Z)
    (start_date end_date : Date) : Prop :=
  forall t, In t (timeoffrequest db) ->
    TimeOffRequest.SubstituteID t = Some substitute_id ->
    suggestSubstitutes.overlaps_request (TimeOffRequest.StartDate t)
      (TimeOffRequest.EndDate t) start_date end_date = false.

(** The first branch of [suggestSubstitutes] read for any request of
    the staff member: some overlapping request carries a substitute
    with a covering row, and then the result is a single entry marked
    as already assigned. *)
Definition any_request_short_circuits (db : Db) (staff_id : Z)
    (i : suggestSubstitutes.instance) : Prop :=
  (exists t substitute_id sub a,
     In t (timeoffrequest db) /\
     request_matches staff_id (suggestSubstitutes.start_date i)
       (suggestSubstitutes.end_date i) t /\
     TimeOffRequest.SubstituteID t = Some substitute_id /\
     covering_pair db substitute_id (suggestSubstitutes.start_date i)
       (suggestSubstitutes.end_date i) sub a) ->
  exists c,
    snd (suggestSubstitutes.retrieveOutput db i) =
      suggestSubstitutes.Substitutes [c] /\
    suggestSubstitutes.already_assigned c = true.

(** The first branch as the code takes it: the first overlapping
    request of the staff member carries a substitute with a covering
    row. *)
Definition first_request_assigned (db : Db) (staff_id : Z)
    (start_date end_date : Date) (sub : Substitute.row)
    (a : Availability.row) : Prop :=
  exists t substitute_id,
    first_overlapping_request db staff_id start_date end_date t /\
    TimeOffRequest.SubstituteID t = Some substitute_id /\
    covering_pair db substitute_id start_date end_date sub a.

(** The student holds a link to the class. *)
Definition enrolled (db : Db) (s : Student.row) (c : Class.row) : Prop :=
  In (StudentToClass.mk (Student.ID s) (Class.ID c)) (studenttoclass db).

(** A homeroom-flagged class: the marker "HR" occurs in its class type
    identifier. *)
Definition homeroom (c : Class.row) : Prop :=
  exists pre post, Class.ClassTypeID c = (pre ++ "HR" ++ post)%string.

(** The derived grade of a class: the first character of its class type
    identifier. *)
Definition derived_grade (c : Class.row) : string := LEFT1 (Class.ClassTypeID c).

(** The student has the grade of class [C] and is enrolled in no
    homeroom class other than [C]. *)
Definition eligible (db : Db) (C : Class.row) (s : Student.row) : Prop :=
  Student.Grade s = derived_grade C /\
  ~ exists c, In c (class db) /\ homeroom c /\ c <> C /\ enrolled db s c.

(** ** Invariants of the stored data *)

(** Every stored request has an id below the next value of the serial
    sequence. *)
Definition request_ids_below_seq (db : Db) : Prop :=
  Forall (fun t => TimeOffRequest.ID t < timeoffrequest_id_seq db)
    (timeoffrequest db).

(** A slot that ends within the day it starts: the plain sum of start
    and duration is a time of that day. *)
Definition ends_same_day (start : TimeOfDay) (duration : Interval) : Prop :=
  0 <= start + duration < USECS_PER_DAY.

Definition classes_end_same_day (db : Db) : Prop :=
  Forall (fun c => ends_same_day (Class.StartTime c) (Class.Duration c))
    (class db).

(** Two classes of one room do not overlap in time, in the sense of
    [timeOverlaps]. *)
Definition no_clash (c1 c2 : Class.row) : Prop :=
  Class.RoomNumber c1 = Class.RoomNumber c2 ->
  timeOverlaps (Class.StartTime c1) (Class.Duration c1)
    (Class.StartTime c2) (Class.Duration c2) = false.

(** No room is double-booked: the classes of the table are pairwise
    without clash. *)
Definition rooms_not_double_booked (db : Db) : Prop :=
  ForallOrdPairs no_clash (class db).

(** Every class carries the number that [insert_class_plan_v5] derives
    from its id. *)
Definition numbered_by_id (db : Db) : Prop :=
  forall c, In c (class db) ->
    Class.Number c = ("C" ++ text_of_int (Class.ID c))%string.

(** No student id is linked to two different homeroom classes. *)
Definition one_homeroom_each (db : Db) : Prop :=
  forall student_id c1 c2,
    In c1 (class db) -> In c2 (class db) -> homeroom c1 -> homeroom c2 ->
    In (StudentToClass.mk student_id (Class.ID c1)) (studenttoclass db) ->
    In (StudentToClass.mk student_id (Class.ID c2)) (studenttoclass db) ->
    c1 = c2.

(** The database after [create_request]: the request appended under
    the next id of the sequence, and the sequence advanced. *)
Definition appended_request (db : Db) (i : requestTimeOff.instance)
    (staff_id : Z) (substitute_id : option Z) : Db :=
  with_timeoffrequest db
    (timeoffrequest db ++
     [TimeOffRequest.mk (timeoffrequest_id_seq db)
        (requestTimeOff.start_date i) (requestTimeOff.end_date i)
        (requestTimeOff.reason i) staff_id substitute_id])
    (timeoffrequest_id_seq db + 1).

(** The substitute number that [retrieveOutput] acts on: a number that
    is given and not empty. *)
Definition named_substitute (i : requestTimeOff.instance) : option string :=
  match requestTimeOff.substitute_number i with
  | Some n => if truthy n then Some n else None
  | None => None
  end.

(** ** Further scenarios *)

Module Edge.

(** The database [Scenario.grade3] with one more class, C3, whose class
    type "5HR" is not in the class type table. *)
Definition C3 : Class.row :=
  Class.mk 3 "C3" "5HR" "R102" (hms 8 0 0) (hms 1 0 0).

Definition untyped_class : Db :=
  with_class Scenario.grade3 [Scenario.C1; Scenario.C2; C3].

End Edge.

(** [sub] occurs in [s] at position [p]. *)
Definition occurs_at (sub s : string) (p : nat) : Prop :=
  String.substring p (String.length sub) s = sub.

(** [p] is the first position at or after [n] where [sub] occurs in [s]. *)
Definition first_at_or_after (sub s : string) (n p : nat) : Prop :=
  (n <= p)%nat /\ occurs_at sub s p /\
  forall q, (n <= q)%nat -> (q < p)%nat -> ~ occurs_at sub s q.

(** * Properties *)

(** ** Reading results *)

Lemma fetchone_nil_iff {A : Type} (l : list A) : fetchone l = None <-> l = [].
Proof.
  destruct l; simpl; split; intro H; try reflexivity; discriminate H.
Qed.

Lemma filter_nil_iff {A : Type} (p : A -> bool) (l : list A) :
  filter p l = [] <-> forall x, In x l -> p x = false.
Proof.
  induction l as [|y l IH]; simpl.
  - split; [intros _ x [] | reflexivity].
  - destruct (p y) eqn:Hy.
    + split; [discriminate |].
      intros H. specialize (H y (or_introl eq_refl)). congruence.
    + rewrite IH. split.
      * intros H x [<- | Hx]; auto.
      * intros H x Hx. apply H. now right.
Qed.

Lemma fetchone_map_filter_none {A B : Type} (f : A -> B) (p : A -> bool) l :
  fetchone (map f (filter p l)) = None <-> forall x, In x l -> p x = false.
Proof.
  rewrite fetchone_nil_iff, <- filter_nil_iff.
  destruct (filter p l); simpl; split; congruence.
Qed.

Lemma fetchone_map_filter_some {A B : Type} (f : A -> B) (p : A -> bool) l y :
  fetchone (map f (filter p l)) = Some y ->
  exists x, In x l /\ p x = true /\ y = f x.
Proof.
  destruct (filter p l) as [|x l'] eqn:E; simpl; [discriminate |].
  intros [= <-]. exists x.
  assert (In x (filter p l)) as Hin by (rewrite E; now left).
  apply filter_In in Hin. tauto.
Qed.

(** ** Time-of-day slots *)


Lemma time_pl_interval_same_day start duration :
  ends_same_day start duration ->
  time_pl_interval start duration = start + duration.
Proof. intros H. unfold time_pl_interval. now apply Z.mod_small. Qed.

(** On slots that end within the day the condition of the statement
    is [timeOverlaps] of the proposed slot against the stored one. *)
Lemma slot_condition_timeOverlaps c start duration :
  ends_same_day start duration ->
  ends_same_day (Class.StartTime c) (Class.Duration c) ->
  addClass.slot_condition c start duration =
  timeOverlaps start duration (Class.StartTime c) (Class.Duration c).
Proof.
  intros H1 H2. unfold addClass.slot_condition, timeOverlaps.
  now rewrite !time_pl_interval_same_day.
Qed.

Lemma room_check_none_iff db room start duration :
  fetchone (addClass.check_room_availability_plan db room start duration) = None <->
  forall c, In c (class db) -> Class.RoomNumber c = room ->
            addClass.slot_condition c start duration = false.
Proof.
  unfold addClass.check_room_availability_plan.
  rewrite fetchone_map_filter_none. split; intros H c Hin.
  - intros Hroom. specialize (H c Hin).
    apply String.eqb_eq in Hroom. rewrite Hroom in H. exact H.
  - destruct (String.eqb_spec (Class.RoomNumber c) room) as [Hroom | Hroom].
    + simpl. now apply H.
    + reflexivity.
Qed.




(** ** Date ranges *)

Lemma covering_row_count_pos db substitute_id start_date end_date :
  (requestTimeOff.check_substitute_availability_plan db substitute_id
     start_date end_date =? 0) = false <->
  exists a, In a (availability db) /\
    Availability.SubstituteID a = substitute_id /\
    Availability.StartDate a <= start_date /\
    Availability.EndDate a >= end_date.
Proof.
  unfold requestTimeOff.check_substitute_availability_plan.
  set (p := fun a : Availability.row => _).
  assert (Hp : forall a, p a = true <->
            Availability.SubstituteID a = substitute_id /\
            Availability.StartDate a <= start_date /\
            Availability.EndDate a >= end_date).
  { intros a. unfold p.
    rewrite !andb_true_iff, Z.eqb_eq, Z.leb_le, Z.geb_le. lia. }
  rewrite Z.eqb_neq. split.
  - intros Hne. destruct (filter p (availability db)) as [|a l] eqn:E.
    + simpl in Hne. lia.
    + exists a.
      assert (In a (filter p (availability db))) as Hin by (rewrite E; now left).
      apply filter_In in Hin. destruct Hin as [Hin Hpa].
      apply Hp in Hpa. tauto.
  - intros (a & Hin & Ha).
    assert (In a (filter p (availability db))) as Hf.
    { apply filter_In. split; [exact Hin | now apply Hp]. }
    destruct (filter p (availability db)); [destruct Hf | simpl; lia].
Qed.

(** C4. [isAvailable] holds exactly when one single Availability row of
    the substitute has [StartDate <= start] and [EndDate >= end].  With
    availability [2025-01-01, 2025-01-10] the substitute is available
    for [2025-01-05, 2025-01-08] and not for [2025-01-08, 2025-01-12];
    two adjoining rows that cover the target only together do not
    count; and the candidate list of [suggestSubstitutes] takes and
    leaves Sub1 for the same two targets. *)
Theorem isAvailable_iff_single_covering_row :
  (forall db substitute_id start_date end_date,
     requestTimeOff.isAvailable db substitute_id start_date end_date = true <->
     exists a, In a (availability db) /\
       Availability.SubstituteID a = substitute_id /\
       Availability.StartDate a <= start_date /\
       Availability.EndDate a >= end_date)
  /\ requestTimeOff.isAvailable Scenario.january 10
       (ymd 2025 1 5) (ymd 2025 1 8) = true
  /\ requestTimeOff.isAvailable Scenario.january 10
       (ymd 2025 1 8) (ymd 2025 1 12) = false
  /\ requestTimeOff.isAvailable Scenario.january 11
       (ymd 2025 1 8) (ymd 2025 1 12) = false
  /\ map suggestSubstitutes.number
       (suggestSubstitutes.listCandidates Scenario.january
          (ymd 2025 1 5) (ymd 2025 1 8)) = ["SUB2"; "SUB1"]%string
  /\ suggestSubstitutes.listCandidates Scenario.january
       (ymd 2025 1 8) (ymd 2025 1 12) = [].
Proof.
  split; [| repeat split; vm_compute; reflexivity].
  intros db substitute_id start_date end_date.
  unfold requestTimeOff.isAvailable.
  rewrite negb_true_iff. apply covering_row_count_pos.
Qed.

(** C8. On well-formed closed ranges ([start <= end] on both sides) the
    three-disjunct condition of the matcher equals the closed-interval
    formula [startA <= endB /\ startB <= endA], and so gives the same
    answer when the two ranges are exchanged. *)
Theorem overlaps_request_closed_interval_symmetric :
  forall startA endA startB endB : Date,
    startA <= endA -> startB <= endB ->
    suggestSubstitutes.overlaps_request startA endA startB endB =
      dateRangeOverlaps startA endA startB endB
    /\ suggestSubstitutes.overlaps_request startA endA startB endB =
       suggestSubstitutes.overlaps_request startB endB startA endA.
Proof.
  intros startA endA startB endB HA HB.
  unfold suggestSubstitutes.overlaps_request,
    suggestSubstitutes.request_date_condition, dateRangeOverlaps.
  split.
  - apply eq_true_iff_eq.
    rewrite !orb_true_iff, !andb_true_iff, !Z.geb_le, !Z.leb_le. lia.
  - apply eq_true_iff_eq.
    rewrite !orb_true_iff, !andb_true_iff, !Z.geb_le, !Z.leb_le. lia.
Qed.

Lemma overlaps_request_closed_interval_symmetric_witness :
  suggestSubstitutes.overlaps_request
    (ymd 2025 2 1) (ymd 2025 2 3) (ymd 2025 2 3) (ymd 2025 2 4) = true
  /\ suggestSubstitutes.overlaps_request
       (ymd 2025 2 3) (ymd 2025 2 4) (ymd 2025 2 1) (ymd 2025 2 3) = true.
Proof.
  destruct (overlaps_request_closed_interval_symmetric
              (ymd 2025 2 1) (ymd 2025 2 3) (ymd 2025 2 3) (ymd 2025 2 4))
    as [Hclosed Hsym].
  - vm_compute. discriminate.
  - vm_compute. discriminate.
  - split.
    + rewrite Hclosed. reflexivity.
    + rewrite <- Hsym, Hclosed. reflexivity.
Defined.

(** ** Time-off requests *)

Lemma fetchone_In {A : Type} (l : list A) (x : A) :
  In x l -> exists y, fetchone l = Some y.
Proof.
  destruct l as [|y l]; [intros [] | intros _; now exists y].
Qed.

Lemma validate_staff_found db staff_number :
  (exists s, In s (staff db) /\ Staff.Number s = staff_number) ->
  exists s, In s (staff db) /\ Staff.Number s = staff_number /\
    fetchone (requestTimeOff.validate_staff_plan db staff_number) =
      Some (Staff.ID s, Staff.FirstName s, Staff.LastName s).
Proof.
  intros (s0 & Hin0 & Hn0).
  unfold requestTimeOff.validate_staff_plan.
  destruct (fetchone_In
              (map (fun s => (Staff.ID s, Staff.FirstName s, Staff.LastName s))
                 (filter (fun s => (Staff.Number s =? staff_number)%string)
                    (staff db)))
              (Staff.ID s0, Staff.FirstName s0, Staff.LastName s0)) as [y Hy].
  { apply in_map_iff. exists s0. split; [reflexivity |].
    apply filter_In. split; [exact Hin0 | now apply String.eqb_eq]. }
  destruct (fetchone_map_filter_some _ _ _ _ Hy) as (s & Hin & Hp & ->).
  apply String.eqb_eq in Hp. exists s. auto.
Qed.

(** The row just inserted for a staff member of the Staff table is read
    back by [get_time_off_request_plan]. *)
Lemma created_request_read_back db i s substitute_id :
  In s (staff db) ->
  exists d,
    requestTimeOff.create_request db i (Staff.ID s) substitute_id =
    (with_timeoffrequest db
       (timeoffrequest db ++
        [TimeOffRequest.mk (timeoffrequest_id_seq db)
           (requestTimeOff.start_date i) (requestTimeOff.end_date i)
           (requestTimeOff.reason i) (Staff.ID s) substitute_id])
       (timeoffrequest_id_seq db + 1),
     requestTimeOff.Success (requestTimeOff.confirm d)).
Proof.
  intros Hin. unfold requestTimeOff.create_request,
    requestTimeOff.insert_time_off_request_plan.
  set (t := TimeOffRequest.mk _ _ _ _ _ _).
  set (db' := with_timeoffrequest _ _ _).
  assert (exists d, In d (requestTimeOff.get_time_off_request_plan db'
                            (timeoffrequest_id_seq db))) as [d Hd].
  { unfold requestTimeOff.get_time_off_request_plan.
    assert (exists d, In d (requestTimeOff.left_join_substitute db' t s))
      as [d Hd].
    { unfold requestTimeOff.left_join_substitute.
      destruct (filter _ (substitute db')) as [|sub l].
      - eexists. now left.
      - eexists. now left. }
    exists d. apply in_flat_map. exists t. split.
    - apply filter_In. split.
      + simpl. apply in_or_app. right. now left.
      + simpl. apply Z.eqb_refl.
    - apply in_flat_map. exists s. split; [| exact Hd].
      apply filter_In. split; [exact Hin | simpl; apply Z.eqb_refl]. }
  destruct (fetchone_In _ _ Hd) as [d' Hd'].
  exists d'. rewrite Hd'. reflexivity.
Qed.

(** C10. [submitTimeOff] makes no check that the start date is not after
    the end date: called with all parameters, for a staff number that
    resolves and without a substitute, a request whose end date lies
    before its start date is inserted as given and reported as a
    success. *)
Theorem submitTimeOff_persists_inverted_range :
  forall db staff_number start_date end_date reason,
    truthy staff_number = true ->
    truthy reason = true ->
    (exists s, In s (staff db) /\ Staff.Number s = staff_number) ->
    end_date < start_date ->
    exists s c,
      In s (staff db) /\ Staff.Number s = staff_number /\
      requestTimeOff.submitTimeOff db staff_number start_date end_date
        reason None =
      Some (with_timeoffrequest db
              (timeoffrequest db ++
               [TimeOffRequest.mk (timeoffrequest_id_seq db) start_date
                  end_date reason (Staff.ID s) None])
              (timeoffrequest_id_seq db + 1),
            requestTimeOff.Success c).
Proof.
  intros db staff_number start_date end_date reason Hn Hr Hstaff _.
  destruct (validate_staff_found db staff_number Hstaff)
    as (s & Hin & Hnum & Hfetch).
  unfold requestTimeOff.submitTimeOff, requestTimeOff.getInput.
  rewrite Hn, Hr. simpl.
  unfold requestTimeOff.retrieveOutput. simpl. rewrite Hfetch.
  destruct (created_request_read_back db
              (requestTimeOff.mk_instance staff_number start_date end_date
                 reason None) s None Hin) as [d Hd].
  exists s, (requestTimeOff.confirm d). rewrite Hd. auto.
Qed.

Lemma submitTimeOff_persists_inverted_range_witness :
  exists s c,
    In s (staff Scenario.february) /\ Staff.Number s = "T001"%string /\
    requestTimeOff.submitTimeOff Scenario.february "T001"
      (ymd 2025 2 10) (ymd 2025 2 1) "leave" None =
    Some (with_timeoffrequest Scenario.february
            [TimeOffRequest.mk 1 (ymd 2025 2 10) (ymd 2025 2 1) "leave"
               (Staff.ID s) None] 2,
          requestTimeOff.Success c).
Proof.
  apply (submitTimeOff_persists_inverted_range Scenario.february "T001"
           (ymd 2025 2 10) (ymd 2025 2 1) "leave").
  - reflexivity.
  - reflexivity.
  - exists Scenario.staffA. split; [now left | reflexivity].
  - vm_compute. reflexivity.
Defined.

(** C1, on the code.  After staff A's request over
    [2025-02-01, 2025-02-03] with Sub1 is stored, staff B's request over
    [2025-02-02, 2025-02-04] naming Sub1 is not answered
    [SubstituteUnavailable]: only the Availability rows are counted, the
    request succeeds and a second row committing Sub1 is stored. *)
Theorem submitTimeOff_commits_substitute_twice :
  timeoffrequest Scenario.february_committed =
    [TimeOffRequest.mk 1 (ymd 2025 2 1) (ymd 2025 2 3) "leave" 1 (Some 10)]
  /\ exists c,
      requestTimeOff.submitTimeOff Scenario.february_committed "T002"
        (ymd 2025 2 2) (ymd 2025 2 4) "leave" (Some "SUB1"%string) =
      Some (with_timeoffrequest Scenario.february_committed
              [TimeOffRequest.mk 1 (ymd 2025 2 1) (ymd 2025 2 3) "leave" 1 (Some 10);
               TimeOffRequest.mk 2 (ymd 2025 2 2) (ymd 2025 2 4) "leave" 2 (Some 10)]
              3,
            requestTimeOff.Success c)
      /\ requestTimeOff.c_substitute c =
           Some (requestTimeOff.mk_person "SUB1" "Sam Stone").
Proof.
  split; [vm_compute; reflexivity |].
  eexists. split; vm_compute; reflexivity.
Qed.

(** ** Ordered results *)

Section OrderByFacts.
Context {A : Type} (leb : A -> A -> bool).
Hypothesis leb_total : forall x y, leb x y = false -> leb y x = true.

Let le (x y : A) : Prop := leb x y = true.

Lemma insert_sorted_perm (x : A) (l : list A) :
  Permutation (insert_sorted leb x l) (x :: l).
Proof.
  induction l as [|y l IH]; simpl.
  - apply Permutation_refl.
  - destruct (leb x y).
    + apply Permutation_refl.
    + eapply perm_trans; [apply perm_skip, IH | apply perm_swap].
Qed.

Lemma ORDER_BY_perm (l : list A) : Permutation (ORDER_BY leb l) l.
Proof.
  induction l as [|x l IH]; simpl.
  - apply perm_nil.
  - eapply perm_trans; [apply insert_sorted_perm | now apply perm_skip].
Qed.

Lemma insert_sorted_HdRel (a x : A) (l : list A) :
  le a x -> HdRel le a l -> HdRel le a (insert_sorted leb x l).
Proof.
  intros Hax Hal. destruct l as [|y l]; simpl.
  - now constructor.
  - destruct (leb x y); constructor; [exact Hax |].
    now apply HdRel_inv in Hal.
Qed.

Lemma insert_sorted_Sorted (x : A) (l : list A) :
  Sorted le l -> Sorted le (insert_sorted leb x l).
Proof.
  induction l as [|y l IH]; simpl; intros Hs.
  - repeat constructor.
  - destruct (leb x y) eqn:E.
    + constructor; [exact Hs | now constructor].
    + apply Sorted_inv in Hs. destruct Hs as [Hs Hhd].
      constructor; [now apply IH |].
      apply insert_sorted_HdRel; [now apply leb_total | exact Hhd].
Qed.

Lemma ORDER_BY_Sorted (l : list A) : Sorted le (ORDER_BY leb l).
Proof.
  induction l as [|x l IH]; simpl.
  - constructor.
  - now apply insert_sorted_Sorted.
Qed.

End OrderByFacts.

Lemma Permutation_filter {A : Type} (p : A -> bool) (l l' : list A) :
  Permutation l l' -> Permutation (filter p l) (filter p l').
Proof.
  induction 1 as [| x l l' _ IH | x y l | l l' l'' _ IH1 _ IH2]; simpl.
  - apply perm_nil.
  - destruct (p x); [now apply perm_skip | exact IH].
  - destruct (p x), (p y); try apply Permutation_refl. apply perm_swap.
  - eapply perm_trans; eassumption.
Qed.

Lemma filter_map_swap {A B : Type} (f : A -> B) (p : B -> bool) (l : list A) :
  filter p (map f l) = map f (filter (fun x => p (f x)) l).
Proof.
  induction l as [|x l IH]; simpl; [reflexivity |].
  destruct (p (f x)); simpl; now rewrite IH.
Qed.

Lemma StronglySorted_map {A B : Type} (R : B -> B -> Prop) (f : A -> B) l :
  StronglySorted (fun x y => R (f x) (f y)) l -> StronglySorted R (map f l).
Proof.
  induction 1 as [| x l _ IH Hall]; simpl; constructor.
  - exact IH.
  - apply Forall_map. exact Hall.
Qed.

(** *** The order of names *)

Lemma compare_refl (s : string) : String.compare s s = Eq.
Proof. now apply String_as_OT.cmp_eq. Qed.

Lemma compare_Lt_trans (a b c : string) :
  String.compare a b = Lt -> String.compare b c = Lt -> String.compare a c = Lt.
Proof.
  intros H1 H2. apply String_as_OT.cmp_lt in H1. apply String_as_OT.cmp_lt in H2.
  apply String_as_OT.cmp_lt. eapply String_as_OT.lt_trans; eassumption.
Qed.

Lemma compare_not_Gt_trans (a b c : string) :
  String.compare a b <> Gt -> String.compare b c <> Gt ->
  String.compare a c <> Gt.
Proof.
  intros H1 H2.
  destruct (String.compare a b) eqn:Eab; [| | congruence].
  - apply String.compare_eq_iff in Eab. now subst.
  - destruct (String.compare b c) eqn:Ebc; [| | congruence].
    + apply String.compare_eq_iff in Ebc. subst. rewrite Eab. discriminate.
    + rewrite (compare_Lt_trans a b c Eab Ebc). discriminate.
Qed.

Lemma text_pair_leb_iff (x y : string * string) :
  text_pair_leb x y = true <-> name_le x y.
Proof.
  unfold text_pair_leb, name_le, String.leb.
  destruct (String.compare (fst x) (fst y)) eqn:E.
  - apply String.compare_eq_iff in E.
    destruct (String.compare (snd x) (snd y)); split; intros H;
      try discriminate; try reflexivity; try (right; split; congruence);
      destruct H as [H | [_ H]]; congruence.
  - split; auto.
  - split; [discriminate |]. intros [H | [H _]]; [discriminate |].
    rewrite H, compare_refl in E. discriminate.
Qed.

Lemma text_pair_leb_total (x y : string * string) :
  text_pair_leb x y = false -> text_pair_leb y x = true.
Proof.
  unfold text_pair_leb, String.leb.
  rewrite (String.compare_antisym (fst y) (fst x)).
  rewrite (String.compare_antisym (snd y) (snd x)).
  destruct (String.compare (fst x) (fst y)); simpl; try congruence.
  destruct (String.compare (snd x) (snd y)); simpl; congruence.
Qed.

Lemma name_le_trans (x y z : string * string) :
  name_le x y -> name_le y z -> name_le x z.
Proof.
  unfold name_le. intros [H1 | [E1 H1]] [H2 | [E2 H2]].
  - left. eapply compare_Lt_trans; eassumption.
  - left. now rewrite <- E2.
  - left. now rewrite E1.
  - right. split; [congruence |].
    eapply compare_not_Gt_trans; eassumption.
Qed.

Lemma Sorted_weaken {A : Type} (R R' : A -> A -> Prop) (l : list A) :
  (forall x y, R x y -> R' x y) -> Sorted R l -> Sorted R' l.
Proof.
  intros HR. induction 1 as [| x l _ IH Hhd]; constructor.
  - exact IH.
  - destruct Hhd; constructor. now apply HR.
Qed.

Lemma suggest_subs_available_plan_sorted db p1 p2 p3 p4 p5 p6 p7 p8 :
  StronglySorted
    (fun x y => name_le
       (suggestSubstitutes.r_LastName x, suggestSubstitutes.r_FirstName x)
       (suggestSubstitutes.r_LastName y, suggestSubstitutes.r_FirstName y))
    (suggestSubstitutes.suggest_subs_available_plan db p1 p2 p3 p4 p5 p6 p7 p8).
Proof.
  unfold suggestSubstitutes.suggest_subs_available_plan.
  apply Sorted_StronglySorted.
  - intros x y z. apply name_le_trans.
  - eapply Sorted_weaken; [| apply ORDER_BY_Sorted].
    + intros x y H. apply text_pair_leb_iff. exact H.
    + intros x y. apply text_pair_leb_total.
Qed.

(** C7. The candidate list of the second branch of [suggestSubstitutes]
    is in ascending order of (last name, first name): every entry
    precedes or equals, in that order, each entry after it.  A call
    leaves the database as it found it, so that a repeated call on the
    same state returns the same list in the same order. *)
Theorem listCandidates_sorted_by_name_and_repeatable :
  forall db start_date end_date,
    StronglySorted candidate_name_le
      (suggestSubstitutes.listCandidates db start_date end_date)
    /\ forall staff_number,
         let i := suggestSubstitutes.mk_instance staff_number start_date end_date in
         let r := suggestSubstitutes.retrieveOutput db i in
         fst r = db /\ suggestSubstitutes.retrieveOutput (fst r) i = r.
Proof.
  intros db start_date end_date. split.
  - unfold suggestSubstitutes.listCandidates.
    apply StronglySorted_map. unfold candidate_name_le. simpl.
    apply suggest_subs_available_plan_sorted.
  - intros staff_number i r.
    assert (fst r = db) as Hdb.
    { subst r. unfold suggestSubstitutes.retrieveOutput.
      destruct (fetchone _) as [[[staff_id ?] ?]|]; [| reflexivity].
      destruct (suggestSubstitutes.assigned_substitute _ _ _ _); reflexivity. }
    split; [exact Hdb | now rewrite Hdb].
Qed.

(** ** One entry per covering row *)

Lemma filter_flat_map_none {A B : Type} (g : A -> list B) (q : B -> bool) l :
  (forall x y, In x l -> In y (g x) -> q y = false) ->
  filter q (flat_map g l) = [].
Proof.
  intros H. apply filter_nil_iff. intros y Hy.
  apply in_flat_map in Hy. destruct Hy as (x & Hx & Hy). eauto.
Qed.

Lemma filter_all {A : Type} (q : A -> bool) (l : list A) :
  (forall x, In x l -> q x = true) -> filter q l = l.
Proof.
  induction l as [|x l IH]; simpl; intros H; [reflexivity |].
  rewrite (H x (or_introl eq_refl)). f_equal. apply IH. intros y Hy.
  apply H. now right.
Qed.

(** In the join, the rows that carry the number of [s] are the rows of
    [s], when numbers are not shared. *)
Lemma join_rows_of_number db cond (s : Substitute.row) :
  In s (substitute db) ->
  NoDup (map Substitute.Number (substitute db)) ->
  filter (fun r => (suggestSubstitutes.r_Number r =? Substitute.Number s)%string)
    (suggestSubstitutes.substitute_join_availability db cond) =
  map (suggestSubstitutes.join_row s)
    (filter (fun a => (Substitute.ID s =? Availability.SubstituteID a) && cond s a)
       (availability db)).
Proof.
  unfold suggestSubstitutes.substitute_join_availability.
  set (g := fun s0 : Substitute.row => map (suggestSubstitutes.join_row s0) _).
  set (q := fun r : suggestSubstitutes.sub_row => _).
  assert (Hother : forall s', Substitute.Number s' <> Substitute.Number s ->
            forall y, In y (g s') -> q y = false).
  { intros s' Hne y Hy. unfold g in Hy. apply in_map_iff in Hy.
    destruct Hy as (a & <- & _). unfold q. simpl. now apply String.eqb_neq. }
  assert (Hself : filter q (g s) = g s).
  { apply filter_all. intros y Hy. unfold g in Hy. apply in_map_iff in Hy.
    destruct Hy as (a & <- & _). unfold q. simpl. apply String.eqb_refl. }
  induction (substitute db) as [|s' l IH]; simpl; intros Hin Hnd.
  - destruct Hin.
  - inversion Hnd as [| ? ? Hnotin Hnd']; subst.
    rewrite filter_app. destruct Hin as [-> | Hin].
    + rewrite Hself, filter_flat_map_none; [apply app_nil_r |].
      intros x y Hx. apply Hother. intros Heq. apply Hnotin.
      rewrite <- Heq. now apply in_map.
    + rewrite (proj2 (filter_nil_iff q (g s'))), IH; auto.
      apply Hother. intros Heq. apply Hnotin. rewrite Heq. now apply in_map.
Qed.

Lemma committed_substitutes_In db p3 p4 p5 p6 p7 p8 (i : Z) :
  In i (suggestSubstitutes.committed_substitutes db p3 p4 p5 p6 p7 p8) <->
  exists t, In t (timeoffrequest db) /\
    TimeOffRequest.SubstituteID t = Some i /\
    suggestSubstitutes.request_date_condition (TimeOffRequest.StartDate t)
      (TimeOffRequest.EndDate t) p3 p4 p5 p6 p7 p8 = true.
Proof.
  unfold suggestSubstitutes.committed_substitutes. rewrite in_flat_map.
  split.
  - intros (t & Hin & Hi). exists t. split; [exact Hin |].
    destruct (TimeOffRequest.SubstituteID t) as [j|]; [| destruct Hi].
    destruct (suggestSubstitutes.request_date_condition _ _ _ _ _ _ _ _);
      [| destruct Hi].
    destruct Hi as [-> | []]. auto.
  - intros (t & Hin & Hsub & Hcond). exists t. split; [exact Hin |].
    rewrite Hsub, Hcond. now left.
Qed.

Lemma not_committed_existsb db p3 p4 p5 p6 p7 p8 (i : Z) :
  existsb (Z.eqb i) (suggestSubstitutes.committed_substitutes db p3 p4 p5 p6 p7 p8)
    = false <->
  forall t, In t (timeoffrequest db) ->
    TimeOffRequest.SubstituteID t = Some i ->
    suggestSubstitutes.request_date_condition (TimeOffRequest.StartDate t)
      (TimeOffRequest.EndDate t) p3 p4 p5 p6 p7 p8 = false.
Proof.
  rewrite <- not_true_iff_false, existsb_exists. split.
  - intros H t Hin Hsub. apply not_true_iff_false. intros Hc. apply H.
    exists i. split; [| apply Z.eqb_refl].
    apply committed_substitutes_In. eauto.
  - intros H (j & Hj & Heq). apply Z.eqb_eq in Heq. subst j.
    apply committed_substitutes_In in Hj. destruct Hj as (t & Hin & Hsub & Hc).
    rewrite (H t Hin Hsub) in Hc. discriminate.
Qed.

(** In the list built from [suggest_subs_available_plan], the entries
    of a substitute that is not committed to an overlapping request
    are, up to order, the images of its covering Availability rows. *)
Lemma listCandidates_entries_of_substitute :
  forall db start_date end_date (s : Substitute.row),
    In s (substitute db) ->
    NoDup (map Substitute.Number (substitute db)) ->
    uncommitted db (Substitute.ID s) start_date end_date ->
    let entries :=
      filter (fun c => (suggestSubstitutes.number c =? Substitute.Number s)%string)
        (suggestSubstitutes.listCandidates db start_date end_date) in
    let covering :=
      filter (fun a => (Availability.SubstituteID a =? Substitute.ID s) &&
                       (Availability.StartDate a <=? start_date) &&
                       (Availability.EndDate a >=? end_date))
        (availability db) in
    Permutation entries
      (map (fun a => suggestSubstitutes.candidate_of false
                       (suggestSubstitutes.join_row s a)) covering)
    /\ List.length entries = List.length covering.
Proof.
  intros db start_date end_date s Hin Hnd Hfree entries covering.
  assert (Permutation entries
            (map (fun a => suggestSubstitutes.candidate_of false
                             (suggestSubstitutes.join_row s a)) covering)) as HP.
  { subst entries covering. unfold suggestSubstitutes.listCandidates.
    rewrite filter_map_swap. simpl.
    rewrite <- (map_map (suggestSubstitutes.join_row s)
                        (suggestSubstitutes.candidate_of false)).
    apply Permutation_map.
    unfold suggestSubstitutes.suggest_subs_available_plan.
    eapply perm_trans; [apply Permutation_filter, ORDER_BY_perm |].
    rewrite (join_rows_of_number db _ s Hin Hnd).
    apply Permutation_map.
    erewrite filter_ext; [apply Permutation_refl |].
    intros a. simpl.
    rewrite (proj2 (not_committed_existsb db _ _ _ _ _ _ (Substitute.ID s)) Hfree).
    rewrite Z.eqb_sym. simpl. rewrite andb_true_r, andb_assoc. reflexivity. }
  split; [exact HP |].
  rewrite (Permutation_length HP). apply length_map.
Qed.

(** C9. In the candidate branch of [suggestSubstitutes], that is when
    [retrieveOutput] finds the staff member and no assigned substitute,
    a substitute that is not committed to an overlapping request
    appears in the returned list once per covering Availability row:
    its entries in the list returned are, up to order, the images of
    its covering rows, so with [k] such rows the list holds [k] entries
    for it and not a single one. *)
Theorem suggestSubstitutes_one_entry_per_covering_row :
  forall db i staff_id first last (s : Substitute.row),
    fetchone (suggestSubstitutes.suggest_subs_validate_staff_plan db
                (suggestSubstitutes.staff_number i)) =
      Some (staff_id, first, last) ->
    suggestSubstitutes.assigned_substitute db staff_id
      (suggestSubstitutes.start_date i) (suggestSubstitutes.end_date i) = None ->
    In s (substitute db) ->
    NoDup (map Substitute.Number (substitute db)) ->
    uncommitted db (Substitute.ID s)
      (suggestSubstitutes.start_date i) (suggestSubstitutes.end_date i) ->
    exists returned,
      snd (suggestSubstitutes.retrieveOutput db i) =
        suggestSubstitutes.Substitutes returned /\
      let entries :=
        filter (fun c => (suggestSubstitutes.number c =? Substitute.Number s)%string)
          returned in
      let covering :=
        filter (fun a => (Availability.SubstituteID a =? Substitute.ID s) &&
                         (Availability.StartDate a <=? suggestSubstitutes.start_date i) &&
                         (Availability.EndDate a >=? suggestSubstitutes.end_date i))
          (availability db) in
      Permutation entries
        (map (fun a => suggestSubstitutes.candidate_of false
                         (suggestSubstitutes.join_row s a)) covering)
      /\ List.length entries = List.length covering.
Proof.
  intros db i staff_id first last s Hstaff Hnone Hin Hnd Hfree.
  exists (suggestSubstitutes.listCandidates db
            (suggestSubstitutes.start_date i) (suggestSubstitutes.end_date i)).
  split.
  - unfold suggestSubstitutes.retrieveOutput. rewrite Hstaff, Hnone. reflexivity.
  - exact (listCandidates_entries_of_substitute db _ _ s Hin Hnd Hfree).
Qed.

Lemma suggestSubstitutes_one_entry_per_covering_row_witness :
  exists returned,
    snd (suggestSubstitutes.retrieveOutput Scenario.two_rows
           (suggestSubstitutes.mk_instance "T001"
              (ymd 2025 1 10) (ymd 2025 1 12))) =
      suggestSubstitutes.Substitutes returned
    /\ List.length
         (filter (fun c => (suggestSubstitutes.number c =? "SUB1")%string)
            returned) = 2%nat.
Proof.
  destruct (suggestSubstitutes_one_entry_per_covering_row Scenario.two_rows
              (suggestSubstitutes.mk_instance "T001"
                 (ymd 2025 1 10) (ymd 2025 1 12))
              1 "Ada" "Abbott" Scenario.Sub1)
    as (returned & Hret & _ & Hlen).
  - reflexivity.
  - reflexivity.
  - simpl. now left.
  - repeat constructor; simpl; intuition discriminate.
  - intros t [].
  - exists returned. split; [exact Hret | exact Hlen].
Defined.

(** ** The two branches of suggestSubstitutes *)

Lemma filter_head_split {A : Type} (p : A -> bool) (l : list A) x rest :
  filter p l = x :: rest ->
  exists before after, l = before ++ x :: after /\ p x = true /\
    forall y, In y before -> p y = false.
Proof.
  induction l as [|y l IH]; simpl; [discriminate |].
  destruct (p y) eqn:Hy.
  - intros [= -> <-]. exists [], l. repeat split; auto. intros ? [].
  - intros H. destruct (IH H) as (before & after & -> & Hx & Hb).
    exists (y :: before), after. repeat split; auto.
    intros z [<- | Hz]; auto.
Qed.

Lemma filter_skip_prefix {A : Type} (p : A -> bool) (before after : list A) x :
  p x = true -> (forall y, In y before -> p y = false) ->
  filter p (before ++ x :: after) = x :: filter p after.
Proof.
  intros Hx Hb. rewrite filter_app.
  rewrite (proj2 (filter_nil_iff p before) Hb). simpl. now rewrite Hx.
Qed.

Lemma request_matches_iff staff_id start_date end_date t :
  (TimeOffRequest.StaffID t =? staff_id) &&
  suggestSubstitutes.request_date_condition (TimeOffRequest.StartDate t)
    (TimeOffRequest.EndDate t) start_date end_date start_date end_date
    start_date end_date = true <->
  request_matches staff_id start_date end_date t.
Proof.
  unfold request_matches, suggestSubstitutes.overlaps_request.
  rewrite andb_true_iff, Z.eqb_eq. tauto.
Qed.

(** The request the statement returns first is the first overlapping
    request of the table. *)
Lemma timeoff_request_fetch_iff db staff_id start_date end_date row :
  fetchone (suggestSubstitutes.suggest_subs_timeoff_request_plan db staff_id
              start_date end_date start_date end_date start_date end_date)
    = Some row <->
  exists t, first_overlapping_request db staff_id start_date end_date t /\
    row = (TimeOffRequest.ID t, TimeOffRequest.StartDate t,
           TimeOffRequest.EndDate t, TimeOffRequest.SubstituteID t).
Proof.
  unfold suggestSubstitutes.suggest_subs_timeoff_request_plan,
    first_overlapping_request.
  set (p := fun t : TimeOffRequest.row => _ && _).
  assert (Hp : forall t, p t = true <->
            request_matches staff_id start_date end_date t)
    by (intros t; apply request_matches_iff).
  split.
  - destruct (filter p (timeoffrequest db)) as [|t rest] eqn:E; simpl;
      [discriminate |].
    intros [= <-]. exists t. split; [| reflexivity].
    destruct (filter_head_split p _ _ _ E) as (before & after & Hl & Ht & Hb).
    exists before, after. split; [exact Hl |]. split; [now apply Hp |].
    intros t' Hin Hm. apply Hp in Hm. rewrite (Hb t' Hin) in Hm. discriminate.
  - intros (t & (before & after & Hl & Ht & Hb) & ->).
    rewrite Hl, filter_skip_prefix; [reflexivity | now apply Hp |].
    intros y Hy. apply not_true_iff_false. intros Hpy. apply Hp in Hpy.
    exact (Hb y Hy Hpy).
Qed.

Lemma join_In db cond r :
  In r (suggestSubstitutes.substitute_join_availability db cond) <->
  exists sub a, In sub (substitute db) /\ In a (availability db) /\
    Availability.SubstituteID a = Substitute.ID sub /\ cond sub a = true /\
    r = suggestSubstitutes.join_row sub a.
Proof.
  unfold suggestSubstitutes.substitute_join_availability.
  rewrite in_flat_map. split.
  - intros (sub & Hsub & Hr). apply in_map_iff in Hr.
    destruct Hr as (a & <- & Ha). apply filter_In in Ha.
    destruct Ha as [Ha Hc]. apply andb_true_iff in Hc. destruct Hc as [Hid Hc].
    apply Z.eqb_eq in Hid. exists sub, a. auto.
  - intros (sub & a & Hsub & Ha & Hid & Hc & ->). exists sub. split; [exact Hsub |].
    apply in_map, filter_In. split; [exact Ha |].
    apply andb_true_iff. split; [apply Z.eqb_eq; congruence | exact Hc].
Qed.

Lemma covers_iff (a : Availability.row) (start_date end_date : Date) :
  (Availability.StartDate a <=? start_date) &&
  (Availability.EndDate a >=? end_date) = true <->
  Availability.StartDate a <= start_date /\ Availability.EndDate a >= end_date.
Proof. rewrite andb_true_iff, Z.leb_le, Z.geb_le. lia. Qed.

Lemma assigned_plan_In db substitute_id start_date end_date r :
  In r (suggestSubstitutes.suggest_subs_assigned_plan db substitute_id
          start_date end_date) <->
  exists sub a, covering_pair db substitute_id start_date end_date sub a /\
    r = suggestSubstitutes.join_row sub a.
Proof.
  unfold suggestSubstitutes.suggest_subs_assigned_plan, covering_pair.
  rewrite join_In. split.
  - intros (sub & a & Hsub & Ha & Hid & Hc & ->).
    apply andb_true_iff in Hc. destruct Hc as [Hs Hc].
    apply Z.eqb_eq in Hs. apply covers_iff in Hc.
    exists sub, a. repeat split; try tauto; congruence.
  - intros (sub & a & (Hsub & Hs & Ha & Hid & Hc) & ->).
    exists sub, a. repeat split; auto; [congruence |].
    apply andb_true_iff. split; [now apply Z.eqb_eq | now apply covers_iff].
Qed.

Lemma assigned_substitute_Some db staff_id start_date end_date r :
  suggestSubstitutes.assigned_substitute db staff_id start_date end_date = Some r ->
  exists sub a, first_request_assigned db staff_id start_date end_date sub a /\
    r = suggestSubstitutes.join_row sub a.
Proof.
  unfold suggestSubstitutes.assigned_substitute, first_request_assigned.
  destruct (fetchone (suggestSubstitutes.suggest_subs_timeoff_request_plan _ _ _ _ _ _ _ _))
    as [[[[rid rs] re] [sid|]]|] eqn:E; try discriminate.
  apply timeoff_request_fetch_iff in E.
  destruct E as (t & Hfirst & [= _ _ _ Hsub]).
  intros Hr.
  assert (Hin : In r (suggestSubstitutes.suggest_subs_assigned_plan db sid
                        start_date end_date)).
  { destruct (suggestSubstitutes.suggest_subs_assigned_plan db sid start_date end_date);
      [discriminate | injection Hr as ->; now left]. }
  apply assigned_plan_In in Hin. destruct Hin as (sub & a & Hpair & ->).
  exists sub, a. split; [| reflexivity]. exists t, sid. auto.
Qed.

Lemma assigned_substitute_exists db staff_id start_date end_date sub a :
  first_request_assigned db staff_id start_date end_date sub a ->
  exists r, suggestSubstitutes.assigned_substitute db staff_id
              start_date end_date = Some r.
Proof.
  intros (t & sid & Hfirst & Hsub & Hpair).
  unfold suggestSubstitutes.assigned_substitute.
  rewrite (proj2 (timeoff_request_fetch_iff db staff_id start_date end_date _)
             (ex_intro _ t (conj Hfirst eq_refl))).
  rewrite Hsub.
  apply fetchone_In with (x := suggestSubstitutes.join_row sub a).
  apply assigned_plan_In. eauto.
Qed.

Lemma listCandidates_In db start_date end_date c :
  In c (suggestSubstitutes.listCandidates db start_date end_date) <->
  exists sub a,
    In sub (substitute db) /\ In a (availability db) /\
    Availability.SubstituteID a = Substitute.ID sub /\
    Availability.StartDate a <= start_date /\
    Availability.EndDate a >= end_date /\
    uncommitted db (Substitute.ID sub) start_date end_date /\
    c = suggestSubstitutes.candidate_of false (suggestSubstitutes.join_row sub a).
Proof.
  unfold suggestSubstitutes.listCandidates,
    suggestSubstitutes.suggest_subs_available_plan.
  rewrite in_map_iff. split.
  - intros (r & <- & Hr).
    apply (Permutation_in _ (ORDER_BY_perm _ _)) in Hr.
    apply join_In in Hr. destruct Hr as (sub & a & Hsub & Ha & Hid & Hc & ->).
    apply andb_true_iff in Hc. destruct Hc as [Hcov Hfree].
    apply covers_iff in Hcov. apply negb_true_iff in Hfree.
    pose proof (proj1 (not_committed_existsb _ _ _ _ _ _ _ _) Hfree) as Hun.
    exists sub, a. tauto.
  - intros (sub & a & Hsub & Ha & Hid & Hs & He & Hfree & ->).
    exists (suggestSubstitutes.join_row sub a). split; [reflexivity |].
    apply (Permutation_in _ (Permutation_sym (ORDER_BY_perm _ _))).
    apply join_In. exists sub, a. repeat split; auto.
    apply andb_true_iff. split; [apply covers_iff; auto |].
    apply negb_true_iff. apply (proj2 (not_committed_existsb _ _ _ _ _ _ _ _)).
    exact Hfree.
Qed.

(** C5, as the code has it.  For a staff number that resolves: when the
    first overlapping request of the staff member carries a substitute
    that has an Availability row covering the asked range, the result
    is the single entry of that substitute, marked as already assigned;
    otherwise it is the list of the entries, each marked as not
    assigned, of every substitute with a covering row that is not
    committed to any overlapping request. *)
Theorem suggestSubstitutes_first_request_decides :
  forall db staff_number start_date end_date staff_id first last,
    fetchone (suggestSubstitutes.suggest_subs_validate_staff_plan db staff_number)
      = Some (staff_id, first, last) ->
    let result :=
      snd (suggestSubstitutes.retrieveOutput db
             (suggestSubstitutes.mk_instance staff_number start_date end_date)) in
    ((exists sub a,
        first_request_assigned db staff_id start_date end_date sub a) ->
     exists sub a,
       first_request_assigned db staff_id start_date end_date sub a /\
       result = suggestSubstitutes.Substitutes
                  [suggestSubstitutes.candidate_of true
                     (suggestSubstitutes.join_row sub a)])
    /\ (~ (exists sub a,
             first_request_assigned db staff_id start_date end_date sub a) ->
        exists l,
          result = suggestSubstitutes.Substitutes l /\
          Forall (fun c => suggestSubstitutes.already_assigned c = false) l /\
          forall c, In c l <->
            exists sub a,
              In sub (substitute db) /\ In a (availability db) /\
              Availability.SubstituteID a = Substitute.ID sub /\
              Availability.StartDate a <= start_date /\
              Availability.EndDate a >= end_date /\
              uncommitted db (Substitute.ID sub) start_date end_date /\
              c = suggestSubstitutes.candidate_of false
                    (suggestSubstitutes.join_row sub a)).
Proof.
  intros db staff_number start_date end_date staff_id first last Hstaff result.
  subst result. unfold suggestSubstitutes.retrieveOutput. simpl.
  rewrite Hstaff. split.
  - intros (sub & a & Hfirst).
    destruct (assigned_substitute_exists _ _ _ _ _ _ Hfirst) as [r Hr].
    rewrite Hr. simpl.
    destruct (assigned_substitute_Some _ _ _ _ _ Hr) as (sub' & a' & Hfirst' & ->).
    exists sub', a'. auto.
  - intros Hnone.
    destruct (suggestSubstitutes.assigned_substitute db staff_id start_date end_date)
      as [r|] eqn:Hr.
    + exfalso. apply Hnone.
      destruct (assigned_substitute_Some _ _ _ _ _ Hr) as (sub & a & Hfirst & _).
      eauto.
    + simpl. eexists. split; [reflexivity |]. split.
      * apply Forall_forall. intros c Hc.
        unfold suggestSubstitutes.listCandidates in Hc.
        apply in_map_iff in Hc. destruct Hc as (r & <- & _). reflexivity.
      * apply listCandidates_In.
Qed.

Lemma suggestSubstitutes_first_request_decides_witness :
  exists sub a,
    first_request_assigned Scenario.february_committed 1
      (ymd 2025 2 1) (ymd 2025 2 2) sub a /\
    snd (suggestSubstitutes.retrieveOutput Scenario.february_committed
           (suggestSubstitutes.mk_instance "T001" (ymd 2025 2 1) (ymd 2025 2 2)))
    = suggestSubstitutes.Substitutes
        [suggestSubstitutes.candidate_of true
           (suggestSubstitutes.join_row sub a)].
Proof.
  apply (proj1 (suggestSubstitutes_first_request_decides
                  Scenario.february_committed "T001"
                  (ymd 2025 2 1) (ymd 2025 2 2) 1 "Ada" "Abbott" eq_refl)).
  exists Scenario.Sub1, (Availability.mk 10 (ymd 2025 1 15) (ymd 2025 2 28)).
  exists (TimeOffRequest.mk 1 (ymd 2025 2 1) (ymd 2025 2 3) "leave" 1 (Some 10)), 10.
  split; [| split; [reflexivity |]].
  - exists [], []. split; [reflexivity |]. split; [| intros t' []].
    split; reflexivity.
  - unfold covering_pair. simpl.
    repeat split; auto; vm_compute; discriminate.
Defined.

(** C5, as stated, fails on the code: staff A holds two overlapping
    requests, the first without a substitute and the second committed
    to Sub1, whose availability covers [2025-02-02, 2025-02-03]; only
    the first request is read and the result is the candidate list
    (empty, Sub1 being committed), not the entry of Sub1. *)
Lemma suggestSubstitutes_later_request_counterexample :
  ~ any_request_short_circuits Scenario.two_requests 1
      (suggestSubstitutes.mk_instance "T001" (ymd 2025 2 2) (ymd 2025 2 3)).
Proof.
  intros H. destruct H as (c & Hc & _).
  - exists (TimeOffRequest.mk 2 (ymd 2025 2 2) (ymd 2025 2 4) "training" 1 (Some 10)),
      10, Scenario.Sub1, (Availability.mk 10 (ymd 2025 1 15) (ymd 2025 2 28)).
    split; [right; now left |]. split; [split; reflexivity |].
    split; [reflexivity |].
    unfold covering_pair. simpl. repeat split; auto; vm_compute; discriminate.
  - vm_compute in Hc. discriminate Hc.
Qed.

(** ** Class rosters *)

Lemma prefix_iff (p s : string) :
  String.prefix p s = true <-> exists post, s = (p ++ post)%string.
Proof.
  revert s. induction p as [|a p IH]; intros s.
  - simpl. destruct s; split; eauto.
  - destruct s as [|b s]; simpl.
    + split; [discriminate | intros [post H]; discriminate H].
    + destruct (Ascii.ascii_dec a b) as [-> | Hne].
      * rewrite IH. split; intros [post H]; exists post; congruence.
      * split; [discriminate |]. intros [post [= H _]]. congruence.
Qed.

Lemma like_contains_unfold (pat s : string) :
  like_contains pat s =
  String.prefix pat s ||
  match s with
  | EmptyString => false
  | String _ s' => like_contains pat s'
  end.
Proof. destruct s; reflexivity. Qed.

Lemma like_contains_iff (pat s : string) :
  like_contains pat s = true <->
  exists pre post, s = (pre ++ pat ++ post)%string.
Proof.
  induction s as [|b s IH]; rewrite like_contains_unfold.
  - rewrite orb_false_r, prefix_iff. split.
    + intros [post H]. exists EmptyString, post. exact H.
    + intros (pre & post & H). destruct pre; [eauto | discriminate H].
  - rewrite orb_true_iff, prefix_iff, IH. split.
    + intros [[post H] | (pre & post & H)].
      * exists EmptyString, post. exact H.
      * exists (String b pre), post. simpl. now rewrite H.
    + intros (pre & post & H). destruct pre as [|c pre]; simpl in H.
      * left. eauto.
      * right. injection H as _ H. eauto.
Qed.

Lemma NoDup_map_inj_In {A B : Type} (f : A -> B) (l : list A) x y :
  NoDup (map f l) -> In x l -> In y l -> f x = f y -> x = y.
Proof.
  induction l as [|z l IH]; simpl; [intros _ [] |].
  intros Hnd Hx Hy Heq. inversion Hnd as [| ? ? Hnotin Hnd']; subst.
  destruct Hx as [-> | Hx], Hy as [-> | Hy]; auto.
  - exfalso. apply Hnotin. rewrite Heq. now apply in_map.
  - exfalso. apply Hnotin. rewrite <- Heq. now apply in_map.
Qed.

Lemma filter_key_unique {A : Type} (key : A -> string) (l : list A) x :
  In x l -> NoDup (map key l) ->
  filter (fun y => (key y =? key x)%string) l = [x].
Proof.
  induction l as [|z l IH]; simpl; [intros [] |].
  intros Hin Hnd. inversion Hnd as [| ? ? Hnotin Hnd']; subst.
  destruct Hin as [-> | Hin].
  - rewrite String.eqb_refl. f_equal. apply filter_nil_iff.
    intros y Hy. apply String.eqb_neq. intros Heq. apply Hnotin.
    rewrite <- Heq. now apply in_map.
  - rewrite (IH Hin Hnd').
    destruct (String.eqb_spec (key z) (key x)) as [Heq | _]; [| reflexivity].
    exfalso. apply Hnotin. rewrite Heq. now apply in_map.
Qed.

Lemma StudentToClass_eqb_eq (a b : StudentToClass.row) :
  StudentToClass.eqb a b = true <-> a = b.
Proof.
  destruct a as [a1 a2], b as [b1 b2]. unfold StudentToClass.eqb. simpl.
  rewrite andb_true_iff, !Z.eqb_eq. split; [intros [-> ->] | intros [= -> ->]]; auto.
Qed.

Lemma StaffToClass_eqb_eq (a b : StaffToClass.row) :
  StaffToClass.eqb a b = true <-> a = b.
Proof.
  destruct a as [a1 a2], b as [b1 b2]. unfold StaffToClass.eqb. simpl.
  rewrite andb_true_iff, !Z.eqb_eq. split; [intros [-> ->] | intros [= -> ->]]; auto.
Qed.

Lemma student_link_stored db r :
  existsb (StudentToClass.eqb r) (studenttoclass db) = true <->
  In r (studenttoclass db).
Proof.
  rewrite existsb_exists. split.
  - intros (x & Hin & Heq). apply StudentToClass_eqb_eq in Heq. now subst.
  - intros Hin. exists r. split; [exact Hin | now apply StudentToClass_eqb_eq].
Qed.

Lemma staff_link_stored db r :
  existsb (StaffToClass.eqb r) (stafftoclass db) = true <->
  In r (stafftoclass db).
Proof.
  rewrite existsb_exists. split.
  - intros (x & Hin & Heq). apply StaffToClass_eqb_eq in Heq. now subst.
  - intros Hin. exists r. split; [exact Hin | now apply StaffToClass_eqb_eq].
Qed.

(** What the two inserts leave untouched. *)
Lemma insert_staff_plan_frame db a b :
  let db' := fillClass.insert_staff_plan db a b in
  staff db' = staff db /\ class db' = class db /\
  classtype db' = classtype db /\ student db' = student db /\
  studenttoclass db' = studenttoclass db.
Proof.
  unfold fillClass.insert_staff_plan. simpl.
  destruct (existsb _ _); simpl; auto.
Qed.

Lemma insert_student_plan_frame db a b :
  let db' := fillClass.insert_student_plan db a b in
  staff db' = staff db /\ class db' = class db /\
  classtype db' = classtype db /\ student db' = student db /\
  stafftoclass db' = stafftoclass db.
Proof.
  unfold fillClass.insert_student_plan. simpl.
  destruct (existsb _ _); simpl; auto.
Qed.

Lemma insert_student_plan_In db a b r :
  In r (studenttoclass (fillClass.insert_student_plan db a b)) <->
  In r (studenttoclass db) \/ r = StudentToClass.mk a b.
Proof.
  unfold fillClass.insert_student_plan. simpl.
  destruct (existsb _ _) eqn:E; simpl.
  - apply student_link_stored in E. split; [auto | intros [H | ->]; auto].
  - rewrite in_app_iff. simpl. intuition.
Qed.

Lemma enroll_frame class_id db n :
  let db' := fillClass.enroll class_id db n in
  staff db' = staff db /\ class db' = class db /\
  classtype db' = classtype db /\ student db' = student db /\
  stafftoclass db' = stafftoclass db.
Proof.
  unfold fillClass.enroll. destruct (fetchone _); [| simpl; auto].
  apply insert_student_plan_frame.
Qed.

Lemma fold_enroll_frame class_id ns db :
  let db' := fold_left (fillClass.enroll class_id) ns db in
  staff db' = staff db /\ class db' = class db /\
  classtype db' = classtype db /\ student db' = student db /\
  stafftoclass db' = stafftoclass db.
Proof.
  revert db. induction ns as [|n ns IH]; intros db; simpl; [auto |].
  destruct (IH (fillClass.enroll class_id db n)) as (H1 & H2 & H3 & H4 & H5).
  destruct (enroll_frame class_id db n) as (G1 & G2 & G3 & G4 & G5).
  simpl in *. repeat split; congruence.
Qed.

(** The links after the loop: the old ones, and one to the class for
    every listed number whose student id is found. *)
Lemma fold_enroll_In class_id ns db r :
  In r (studenttoclass (fold_left (fillClass.enroll class_id) ns db)) <->
  In r (studenttoclass db) \/
  exists n student_id, In n ns /\
    fetchone (fillClass.get_student_id_plan db n) = Some student_id /\
    r = StudentToClass.mk student_id class_id.
Proof.
  revert db. induction ns as [|n ns IH]; intros db; simpl.
  - split; [auto | intros [H | (n & sid & [] & _)]; exact H].
  - rewrite IH.
    assert (Hlookup : forall m,
              fillClass.get_student_id_plan (fillClass.enroll class_id db n) m =
              fillClass.get_student_id_plan db m).
    { intros m. unfold fillClass.get_student_id_plan.
      destruct (enroll_frame class_id db n) as (_ & _ & _ & -> & _). reflexivity. }
    assert (Hstep : In r (studenttoclass (fillClass.enroll class_id db n)) <->
              In r (studenttoclass db) \/
              exists student_id,
                fetchone (fillClass.get_student_id_plan db n) = Some student_id /\
                r = StudentToClass.mk student_id class_id).
    { unfold fillClass.enroll.
      destruct (fetchone (fillClass.get_student_id_plan db n)) as [sid|].
      - rewrite insert_student_plan_In. split; intros [H | H]; auto.
        + right. eauto.
        + destruct H as (sid' & [= <-] & ->). auto.
      - split; [auto | intros [H | (sid' & H & _)]; [exact H | discriminate H]]. }
    rewrite Hstep. split.
    + intros [[H | (sid & Hs & ->)] | (m & sid & Hm & Hs & ->)]; auto.
      * right. exists n, sid. auto.
      * right. exists m, sid. rewrite Hlookup in Hs. auto.
    + intros [H | (m & sid & [<- | Hm] & Hs & ->)]; auto.
      * left. right. eauto.
      * right. exists m, sid. rewrite Hlookup. auto.
Qed.

Lemma class_id_resolves db (C : Class.row) :
  In C (class db) -> NoDup (map Class.Number (class db)) ->
  fetchone (fillClass.get_class_id_plan db (Class.Number C)) = Some (Class.ID C).
Proof.
  intros Hin Hnd. unfold fillClass.get_class_id_plan.
  now rewrite (filter_key_unique Class.Number _ C Hin Hnd).
Qed.

Lemma student_id_resolves db (s : Student.row) :
  In s (student db) -> NoDup (map Student.Number (student db)) ->
  fetchone (fillClass.get_student_id_plan db (Student.Number s)) =
    Some (Student.ID s).
Proof.
  intros Hin Hnd. unfold fillClass.get_student_id_plan.
  now rewrite (filter_key_unique Student.Number _ s Hin Hnd).
Qed.

Lemma staff_id_resolves db staff_number :
  (exists st, In st (staff db) /\ Staff.Number st = staff_number) ->
  exists staff_id,
    fetchone (fillClass.get_staff_id_plan db staff_number) = Some staff_id.
Proof.
  intros (st & Hin & Hn). apply fetchone_In with (x := Staff.ID st).
  unfold fillClass.get_staff_id_plan. apply in_map, filter_In.
  split; [exact Hin | now apply String.eqb_eq].
Qed.

Lemma class_details_resolve db (C : Class.row) :
  In C (class db) -> NoDup (map Class.Number (class db)) ->
  (exists ct, In ct (classtype db) /\ ClassType.ID ct = Class.ClassTypeID C) ->
  fetchone (fillClass.get_class_details_plan db (Class.Number C)) =
    Some (Class.StartTime C, Class.Duration C, derived_grade C).
Proof.
  intros Hin Hnd (ct & Hct & Hid). unfold fillClass.get_class_details_plan.
  rewrite (filter_key_unique Class.Number _ C Hin Hnd). simpl.
  rewrite app_nil_r.
  destruct (filter (fun ct0 => (Class.ClassTypeID C =? ClassType.ID ct0)%string)
              (classtype db)) as [|ct' l] eqn:E.
  - exfalso.
    assert (In ct (filter (fun ct0 => (Class.ClassTypeID C =? ClassType.ID ct0)%string)
                     (classtype db))) as Hf.
    { apply filter_In. split; [exact Hct | apply String.eqb_eq; congruence]. }
    rewrite E in Hf. destruct Hf.
  - assert (In ct' (filter (fun ct0 => (Class.ClassTypeID C =? ClassType.ID ct0)%string)
                      (classtype db))) as Hf by (rewrite E; now left).
    apply filter_In in Hf. destruct Hf as [_ Heq]. apply String.eqb_eq in Heq.
    simpl. unfold derived_grade. now rewrite Heq.
Qed.

Lemma has_other_homeroom_iff db (s : Student.row) (C : Class.row) :
  In C (class db) -> NoDup (map Class.Number (class db)) ->
  fillClass.has_other_homeroom db s (Class.Number C) = true <->
  exists c, In c (class db) /\ homeroom c /\ c <> C /\ enrolled db s c.
Proof.
  intros HC Hnd. unfold fillClass.has_other_homeroom, homeroom, enrolled.
  rewrite existsb_exists. split.
  - intros (stc & Hstc & H). apply andb_true_iff in H. destruct H as [Hsid H].
    apply existsb_exists in H. destruct H as (c & Hc & H).
    rewrite !andb_true_iff, negb_true_iff in H. destruct H as [[Hcid Hhr] Hne].
    apply Z.eqb_eq in Hsid, Hcid. apply like_contains_iff in Hhr.
    apply String.eqb_neq in Hne.
    exists c. repeat split; auto; [congruence |].
    destruct stc as [sid cid]. simpl in *. now subst.
  - intros (c & Hc & Hhr & Hne & Hin).
    exists (StudentToClass.mk (Student.ID s) (Class.ID c)). split; [exact Hin |].
    simpl. rewrite Z.eqb_refl. simpl. apply existsb_exists. exists c.
    split; [exact Hc |]. rewrite Z.eqb_refl. simpl.
    apply andb_true_iff. split; [now apply like_contains_iff |].
    apply negb_true_iff, String.eqb_neq. intros Heq. apply Hne.
    exact (NoDup_map_inj_In Class.Number _ c C Hnd Hc HC Heq).
Qed.

Lemma eligible_selected db (s : Student.row) (C : Class.row) :
  In C (class db) -> NoDup (map Class.Number (class db)) ->
  (Student.Grade s =? derived_grade C)%string &&
  negb (fillClass.has_other_homeroom db s (Class.Number C)) = true <->
  eligible db C s.
Proof.
  intros HC Hnd. unfold eligible.
  rewrite andb_true_iff, String.eqb_eq, negb_true_iff, <- not_true_iff_false,
    (has_other_homeroom_iff db s C HC Hnd).
  tauto.
Qed.

(** C3. For a class [C] of the class table and a staff number that
    resolves, [fillClass] adds to the enrollment links exactly the links
    to [C] of the students whose grade is the first character of the
    class type identifier of [C] and who are enrolled in no homeroom
    class (one whose class type identifier contains "HR") other than
    [C]; and a student enrolled in a homeroom class [H1] is not among
    the eligible students of a different class [C].  Class numbers and
    student numbers are unique, and the class type of [C] is in the
    class type table. *)
Theorem fillClass_enrolls_exactly_the_eligible :
  forall db (C : Class.row) staff_number,
    In C (class db) ->
    NoDup (map Class.Number (class db)) ->
    NoDup (map Student.Number (student db)) ->
    (exists st, In st (staff db) /\ Staff.Number st = staff_number) ->
    (exists ct, In ct (classtype db) /\ ClassType.ID ct = Class.ClassTypeID C) ->
    let db' := fst (fillClass.retrieveOutput db (Class.Number C) staff_number) in
    (forall r,
       In r (studenttoclass db') <->
       In r (studenttoclass db) \/
       (StudentToClass.ClassID r = Class.ID C /\
        exists s, In s (student db) /\ Student.ID s = StudentToClass.StudentID r /\
                  eligible db C s))
    /\ (forall (H1 : Class.row) (s : Student.row) (grade : string),
          In H1 (class db) -> homeroom H1 -> H1 <> C ->
          In s (student db) -> enrolled db s H1 ->
          ~ eligible db C s /\
          ~ In (Student.Number s)
              (fillClass.get_eligible_students_plan db grade (Class.Number C))).
Proof.
  intros db C staff_number HC Hcn Hsn Hstaff Hct db'.
  assert (Hsel : forall s, In (Student.Number s)
              (fillClass.get_eligible_students_plan db (derived_grade C)
                 (Class.Number C)) /\ In s (student db) <->
            In s (student db) /\ eligible db C s).
  { intros s. unfold fillClass.get_eligible_students_plan. rewrite in_map_iff.
    split.
    - intros [(s' & Hnum & Hs') Hs]. split; [exact Hs |].
      apply filter_In in Hs'. destruct Hs' as [Hin' Hel].
      assert (s' = s) as -> by
        exact (NoDup_map_inj_In Student.Number _ s' s Hsn Hin' Hs Hnum).
      now apply eligible_selected in Hel.
    - intros [Hs Hel]. split; [| exact Hs]. exists s. split; [reflexivity |].
      apply filter_In. split; [exact Hs | now apply eligible_selected]. }
  split.
  - intros r. subst db'. unfold fillClass.retrieveOutput.
    rewrite (class_id_resolves db C HC Hcn).
    destruct (staff_id_resolves db staff_number Hstaff) as [staff_id ->].
    set (db1 := fillClass.insert_staff_plan db staff_id (Class.ID C)).
    destruct (insert_staff_plan_frame db staff_id (Class.ID C))
      as (E1 & E2 & E3 & E4 & E5). fold db1 in E1, E2, E3, E4, E5.
    assert (Hdet : fetchone (fillClass.get_class_details_plan db1 (Class.Number C)) =
              Some (Class.StartTime C, Class.Duration C, derived_grade C)).
    { apply class_details_resolve; rewrite ?E2, ?E3; auto. }
    rewrite Hdet. simpl fst.
    assert (Hplan : fillClass.get_eligible_students_plan db1 (derived_grade C)
                      (Class.Number C) =
                    fillClass.get_eligible_students_plan db (derived_grade C)
                      (Class.Number C)).
    { unfold fillClass.get_eligible_students_plan, fillClass.has_other_homeroom.
      now rewrite E2, E4, E5. }
    rewrite Hplan, fold_enroll_In, E5. split.
    + intros [H | (n & sid & Hn & Hsid & ->)]; [now left | right].
      simpl. split; [reflexivity |].
      unfold fillClass.get_eligible_students_plan in Hn.
      apply in_map_iff in Hn. destruct Hn as (s & <- & Hs).
      apply filter_In in Hs. destruct Hs as [Hs Hel].
      apply eligible_selected in Hel; auto.
      unfold fillClass.get_student_id_plan in Hsid. rewrite E4 in Hsid.
      fold (fillClass.get_student_id_plan db (Student.Number s)) in Hsid.
      rewrite (student_id_resolves db s Hs Hsn) in Hsid.
      injection Hsid as <-. eauto.
    + intros [H | (Hcid & s & Hs & Hsid & Hel)]; [now left | right].
      exists (Student.Number s), (Student.ID s). split; [| split].
      * apply (Hsel s). auto.
      * unfold fillClass.get_student_id_plan. rewrite E4.
        apply (student_id_resolves db s Hs Hsn).
      * destruct r as [rs rc]. simpl in *. congruence.
  - intros H1 s grade HH1 Hhr Hne Hs Henr.
    assert (exists c, In c (class db) /\ homeroom c /\ c <> C /\ enrolled db s c)
      as Hother by (exists H1; auto).
    split; [intros [_ Hel]; exact (Hel Hother) |].
    unfold fillClass.get_eligible_students_plan. rewrite in_map_iff.
    intros (s' & Hnum & Hs'). apply filter_In in Hs'. destruct Hs' as [Hin' Hel].
    assert (s' = s) as -> by
      exact (NoDup_map_inj_In Student.Number _ s' s Hsn Hin' Hs Hnum).
    apply andb_true_iff in Hel. destruct Hel as [_ Hel].
    apply negb_true_iff in Hel.
    apply (has_other_homeroom_iff db s C HC Hcn) in Hother. congruence.
Qed.

Lemma fillClass_enrolls_exactly_the_eligible_witness :
  ~ eligible Scenario.grade3 Scenario.C2 Scenario.S1 /\
  ~ In "ST101"%string
      (fillClass.get_eligible_students_plan Scenario.grade3 "3" "C2").
Proof.
  apply (proj2 (fillClass_enrolls_exactly_the_eligible Scenario.grade3
                  Scenario.C2 "T001"
                  (or_intror (or_introl eq_refl))
                  ltac:(repeat constructor; simpl; intuition discriminate)
                  ltac:(repeat constructor; simpl; intuition discriminate)
                  (ex_intro _ Scenario.staffA (conj (or_introl eq_refl) eq_refl))
                  (ex_intro _ (ClassType.mk "3HR") (conj (or_introl eq_refl) eq_refl)))
          Scenario.C1 Scenario.S1 "3"%string).
  - now left.
  - exists "3"%string, EmptyString. reflexivity.
  - discriminate.
  - now left.
  - now left.
Defined.

(** ** Running fillClass again *)

Lemma insert_staff_plan_stored db a b :
  In (StaffToClass.mk a b) (stafftoclass db) ->
  fillClass.insert_staff_plan db a b = db.
Proof.
  intros Hin. unfold fillClass.insert_staff_plan.
  now rewrite (proj2 (staff_link_stored db _) Hin).
Qed.

Lemma insert_student_plan_stored db a b :
  In (StudentToClass.mk a b) (studenttoclass db) ->
  fillClass.insert_student_plan db a b = db.
Proof.
  intros Hin. unfold fillClass.insert_student_plan.
  now rewrite (proj2 (student_link_stored db _) Hin).
Qed.

Lemma insert_staff_plan_In db a b :
  In (StaffToClass.mk a b) (stafftoclass (fillClass.insert_staff_plan db a b)).
Proof.
  unfold fillClass.insert_staff_plan.
  destruct (existsb _ _) eqn:E; simpl.
  - now apply staff_link_stored.
  - apply in_or_app. right. now left.
Qed.

Lemma fold_enroll_noop class_id ns db :
  (forall n student_id, In n ns ->
     fetchone (fillClass.get_student_id_plan db n) = Some student_id ->
     In (StudentToClass.mk student_id class_id) (studenttoclass db)) ->
  fold_left (fillClass.enroll class_id) ns db = db.
Proof.
  induction ns as [|n ns IH]; simpl; intros H; [reflexivity |].
  assert (fillClass.enroll class_id db n = db) as ->.
  { unfold fillClass.enroll.
    destruct (fetchone (fillClass.get_student_id_plan db n)) as [sid|] eqn:E;
      [| reflexivity].
    apply insert_student_plan_stored. apply (H n sid); auto. }
  apply IH. intros m sid Hm. apply H. now right.
Qed.

(** More links never make a student eligible. *)
Lemma has_other_homeroom_mono db db' s n :
  class db' = class db ->
  incl (studenttoclass db) (studenttoclass db') ->
  fillClass.has_other_homeroom db s n = true ->
  fillClass.has_other_homeroom db' s n = true.
Proof.
  intros Hc Hincl. unfold fillClass.has_other_homeroom.
  rewrite !existsb_exists, Hc. intros (stc & Hin & H).
  exists stc. split; [now apply Hincl | exact H].
Qed.

Lemma get_eligible_students_plan_mono db db' g n x :
  class db' = class db -> student db' = student db ->
  incl (studenttoclass db) (studenttoclass db') ->
  In x (fillClass.get_eligible_students_plan db' g n) ->
  In x (fillClass.get_eligible_students_plan db g n).
Proof.
  intros Hc Hs Hincl. unfold fillClass.get_eligible_students_plan.
  rewrite !in_map_iff, Hs. intros (s & Hx & Hin). exists s. split; [exact Hx |].
  apply filter_In in Hin. destruct Hin as [Hin H]. apply filter_In.
  split; [exact Hin |]. apply andb_true_iff in H. destruct H as [Hg Hno].
  apply andb_true_iff. split; [exact Hg |].
  apply negb_true_iff in Hno. apply negb_true_iff, not_true_iff_false.
  intros Hyes. apply (has_other_homeroom_mono db db' s n Hc Hincl) in Hyes.
  congruence.
Qed.

(** C6. Running [fillClass] a second time with the same inputs returns
    the same roster and leaves the database as the first run left it;
    the insert of the staff link and the insert of a student link do
    nothing when the link is already stored. *)
Theorem fillClass_idempotent :
  forall db class_number staff_number,
    let r := fillClass.retrieveOutput db class_number staff_number in
    fillClass.retrieveOutput (fst r) class_number staff_number = r
    /\ (forall a b, In (StaffToClass.mk a b) (stafftoclass db) ->
          fillClass.insert_staff_plan db a b = db)
    /\ (forall a b, In (StudentToClass.mk a b) (studenttoclass db) ->
          fillClass.insert_student_plan db a b = db).
Proof.
  intros db class_number staff_number r.
  split; [| split; intros a b;
              [apply insert_staff_plan_stored | apply insert_student_plan_stored]].
  subst r.
  destruct (fetchone (fillClass.get_class_id_plan db class_number))
    as [class_id|] eqn:Eclass.
  2:{ assert (Hr : fillClass.retrieveOutput db class_number staff_number =
                   (db, fillClass.ClassNotFound))
        by (unfold fillClass.retrieveOutput; now rewrite Eclass).
      rewrite Hr. exact Hr. }
  destruct (fetchone (fillClass.get_staff_id_plan db staff_number))
    as [staff_id|] eqn:Estaff.
  2:{ assert (Hr : fillClass.retrieveOutput db class_number staff_number =
                   (db, fillClass.StaffNotFound))
        by (unfold fillClass.retrieveOutput; now rewrite Eclass, Estaff).
      rewrite Hr. exact Hr. }
  set (db1 := fillClass.insert_staff_plan db staff_id class_id).
  destruct (insert_staff_plan_frame db staff_id class_id)
    as (E1 & E2 & E3 & E4 & E5). fold db1 in E1, E2, E3, E4, E5.
  assert (Hstored1 : In (StaffToClass.mk staff_id class_id) (stafftoclass db1))
    by apply insert_staff_plan_In.
  destruct (fetchone (fillClass.get_class_details_plan db1 class_number))
    as [[[st du] class_grade]|] eqn:Edet.
  - set (elig := fillClass.get_eligible_students_plan db1 class_grade class_number).
    set (db2 := fold_left (fillClass.enroll class_id) elig db1).
    destruct (fold_enroll_frame class_id elig db1) as (F1 & F2 & F3 & F4 & F5).
    fold db2 in F1, F2, F3, F4, F5.
    assert (Hr : fillClass.retrieveOutput db class_number staff_number =
                 (db2,
                  fillClass.Assignments
                    (map (fun row => fillClass.mk_assignment (fst row) (snd row))
                       (fillClass.get_class_assignments_plan db2 class_number)))).
    { unfold fillClass.retrieveOutput. rewrite Eclass, Estaff.
      fold db1. rewrite Edet. reflexivity. }
    rewrite Hr. simpl fst.
    unfold fillClass.retrieveOutput.
    assert (fillClass.get_class_id_plan db2 class_number =
            fillClass.get_class_id_plan db class_number) as ->
      by (unfold fillClass.get_class_id_plan; now rewrite F2, E2).
    assert (fillClass.get_staff_id_plan db2 staff_number =
            fillClass.get_staff_id_plan db staff_number) as ->
      by (unfold fillClass.get_staff_id_plan; now rewrite F1, E1).
    rewrite Eclass, Estaff.
    assert (fillClass.insert_staff_plan db2 staff_id class_id = db2) as ->
      by (apply insert_staff_plan_stored; now rewrite F5).
    assert (fillClass.get_class_details_plan db2 class_number =
            fillClass.get_class_details_plan db1 class_number) as ->
      by (unfold fillClass.get_class_details_plan; now rewrite F2, F3).
    rewrite Edet.
    assert (fold_left (fillClass.enroll class_id)
              (fillClass.get_eligible_students_plan db2 class_grade class_number)
              db2 = db2) as ->; [| reflexivity].
    apply fold_enroll_noop. intros n sid Hn Hsid.
    apply (fold_enroll_In class_id elig db1). right. exists n, sid.
    split; [| split; [| reflexivity]].
    + apply (get_eligible_students_plan_mono db1 db2 class_grade class_number n F2 F4);
        [| exact Hn].
      intros x Hx. apply (fold_enroll_In class_id elig db1). now left.
    + unfold fillClass.get_student_id_plan in *. now rewrite <- F4.
  - assert (Hr : fillClass.retrieveOutput db class_number staff_number =
                 (db1, fillClass.DetailsNotRetrieved)).
    { unfold fillClass.retrieveOutput. rewrite Eclass, Estaff.
      fold db1. now rewrite Edet. }
    rewrite Hr. simpl fst. unfold fillClass.retrieveOutput.
    assert (fillClass.get_class_id_plan db1 class_number =
            fillClass.get_class_id_plan db class_number) as ->
      by (unfold fillClass.get_class_id_plan; now rewrite E2).
    assert (fillClass.get_staff_id_plan db1 staff_number =
            fillClass.get_staff_id_plan db staff_number) as ->
      by (unfold fillClass.get_staff_id_plan; now rewrite E1).
    rewrite Eclass, Estaff.
    rewrite (insert_staff_plan_stored db1 staff_id class_id Hstored1).
    now rewrite Edet.
Qed.

Lemma fillClass_idempotent_witness :
  snd (fillClass.retrieveOutput Scenario.grade3 "C2" "T001") =
    fillClass.Assignments
      [fillClass.mk_assignment "ST102" "student";
       fillClass.mk_assignment "T001" "staff"]
  /\ fillClass.retrieveOutput
       (fst (fillClass.retrieveOutput Scenario.grade3 "C2" "T001")) "C2" "T001" =
     fillClass.retrieveOutput Scenario.grade3 "C2" "T001".
Proof.
  split.
  - vm_compute. reflexivity.
  - exact (proj1 (fillClass_idempotent Scenario.grade3 "C2" "T001")).
Defined.

(** * Further properties of the four APIs *)

(** ** requestTimeOff: outcomes and effects *)

Lemma staff_fetch_row db staff_number staff_id first last :
  fetchone (requestTimeOff.validate_staff_plan db staff_number) =
    Some (staff_id, first, last) ->
  exists s, In s (staff db) /\ Staff.Number s = staff_number /\
    Staff.ID s = staff_id.
Proof.
  intros H. apply fetchone_map_filter_some in H.
  destruct H as (s & Hin & Hp & [= -> _ _]). apply String.eqb_eq in Hp. eauto.
Qed.

Lemma substitute_fetch_row db n substitute_id first last :
  fetchone (requestTimeOff.validate_substitute_plan db n) =
    Some (substitute_id, first, last) ->
  exists sub, In sub (substitute db) /\ Substitute.Number sub = n /\
    Substitute.ID sub = substitute_id.
Proof.
  intros H. apply fetchone_map_filter_some in H.
  destruct H as (s & Hin & Hp & [= -> _ _]). apply String.eqb_eq in Hp. eauto.
Qed.

Lemma create_request_success db i (s : Staff.row) substitute_id :
  In s (staff db) ->
  exists d,
    requestTimeOff.create_request db i (Staff.ID s) substitute_id =
    (appended_request db i (Staff.ID s) substitute_id,
     requestTimeOff.Success (requestTimeOff.confirm d)).
Proof. apply created_request_read_back. Qed.

(** The four ways [retrieveOutput] ends. *)
Lemma requestTimeOff_cases db i :
  (requestTimeOff.retrieveOutput db i = (db, requestTimeOff.StaffNotFound) /\
   forall s, In s (staff db) -> Staff.Number s <> requestTimeOff.staff_number i)
  \/
  (exists s, In s (staff db) /\
     Staff.Number s = requestTimeOff.staff_number i /\
     ((named_substitute i = None /\
       requestTimeOff.retrieveOutput db i =
         requestTimeOff.create_request db i (Staff.ID s) None)
      \/
      (exists n, named_substitute i = Some n /\
         ((requestTimeOff.retrieveOutput db i =
             (db, requestTimeOff.SubstituteNotFound) /\
           forall sub, In sub (substitute db) -> Substitute.Number sub <> n)
          \/
          (exists sub first last,
             In sub (substitute db) /\ Substitute.Number sub = n /\
             fetchone (requestTimeOff.validate_substitute_plan db n) =
               Some (Substitute.ID sub, first, last) /\
             ((requestTimeOff.isAvailable db (Substitute.ID sub)
                 (requestTimeOff.start_date i) (requestTimeOff.end_date i) = false /\
               requestTimeOff.retrieveOutput db i =
                 (db, requestTimeOff.SubstituteUnavailable))
              \/
              (requestTimeOff.isAvailable db (Substitute.ID sub)
                 (requestTimeOff.start_date i) (requestTimeOff.end_date i) = true /\
               requestTimeOff.retrieveOutput db i =
                 requestTimeOff.create_request db i (Staff.ID s)
                   (Some (Substitute.ID sub))))))))).
Proof.
  unfold requestTimeOff.retrieveOutput, named_substitute.
  destruct (fetchone (requestTimeOff.validate_staff_plan db
                        (requestTimeOff.staff_number i)))
    as [[[staff_id sf] sl]|] eqn:Estaff.
  2:{ left. split; [reflexivity |]. intros s Hin Hn.
      pose proof (proj1 (fetchone_map_filter_none _ _ _) Estaff s Hin) as H.
      simpl in H. apply String.eqb_neq in H. contradiction. }
  right. destruct (staff_fetch_row _ _ _ _ _ Estaff) as (s & Hin & Hnum & <-).
  exists s. split; [exact Hin |]. split; [exact Hnum |].
  destruct (requestTimeOff.substitute_number i) as [n|].
  2:{ left. split; reflexivity. }
  destruct (truthy n).
  2:{ left. split; reflexivity. }
  right. exists n. split; [reflexivity |].
  destruct (fetchone (requestTimeOff.validate_substitute_plan db n))
    as [[[substitute_id bf] bl]|] eqn:Esub.
  2:{ left. split; [reflexivity |]. intros sub Hsub Hn.
      pose proof (proj1 (fetchone_map_filter_none _ _ _) Esub sub Hsub) as H.
      simpl in H. apply String.eqb_neq in H. contradiction. }
  right. destruct (substitute_fetch_row _ _ _ _ _ Esub) as (sub & Hsub & Hn & <-).
  exists sub, bf, bl. repeat split; auto.
  destruct (requestTimeOff.isAvailable db (Substitute.ID sub) _ _).
  - right. split; reflexivity.
  - left. split; reflexivity.
Qed.

(** X1. [retrieveOutput] never ends with "Failed to retrieve request
    details"; every rejection leaves the database as it was; a success
    appends exactly one request, with the dates and the reason as
    given, under the next id of the sequence. *)
Theorem requestTimeOff_rejects_without_effect :
  forall db i,
    let r := requestTimeOff.retrieveOutput db i in
    snd r <> requestTimeOff.DetailsNotRetrieved
    /\ (forall c, snd r = requestTimeOff.Success c ->
         exists staff_id substitute_id,
           fst r = appended_request db i staff_id substitute_id)
    /\ ((forall c, snd r <> requestTimeOff.Success c) -> fst r = db).
Proof.
  intros db i r. subst r.
  destruct (requestTimeOff_cases db i)
    as [[-> _] | (s & Hin & _ & [[_ ->] | (n & _ & [[-> _] | (sub & bf & bl & _ & _ & _ & [[_ ->] | [_ ->]])])])];
    simpl;
    try (destruct (create_request_success db i s None Hin) as [d ->]);
    try (destruct (create_request_success db i s (Some (Substitute.ID sub)) Hin)
           as [d ->]);
    simpl; (split; [discriminate |]); split;
    try discriminate; try reflexivity; eauto.
  - intros H. exfalso. exact (H _ eq_refl).
  - intros H. exfalso. exact (H _ eq_refl).
Qed.

Lemma requestTimeOff_rejects_without_effect_witness :
  fst (requestTimeOff.retrieveOutput Scenario.february
         (requestTimeOff.mk_instance "T999" (ymd 2025 2 1) (ymd 2025 2 3)
            "leave" None)) = Scenario.february.
Proof.
  apply (proj2 (proj2 (requestTimeOff_rejects_without_effect Scenario.february
           (requestTimeOff.mk_instance "T999" (ymd 2025 2 1) (ymd 2025 2 3)
              "leave" None)))).
  intros c. vm_compute. discriminate.
Defined.

(** X2. The two "not found" answers of [requestTimeOff]: the staff
    member is reported missing exactly when no staff row carries the
    number, whatever substitute is named; the substitute is reported
    missing exactly when the staff number resolves, a non-empty
    substitute number is given and no substitute row carries it. *)
Theorem requestTimeOff_not_found_iff :
  forall db i,
    let r := requestTimeOff.retrieveOutput db i in
    (snd r = requestTimeOff.StaffNotFound <->
     forall s, In s (staff db) -> Staff.Number s <> requestTimeOff.staff_number i)
    /\ (snd r = requestTimeOff.SubstituteNotFound <->
        (exists s, In s (staff db) /\
           Staff.Number s = requestTimeOff.staff_number i) /\
        exists n, named_substitute i = Some n /\
          forall sub, In sub (substitute db) -> Substitute.Number sub <> n).
Proof.
  intros db i r. subst r.
  destruct (requestTimeOff_cases db i)
    as [[Hr Hno] | (s & Hin & Hnum & Hcases)].
  - rewrite Hr. simpl. split; [tauto |]. split; [discriminate |].
    intros [(s & Hin & Hn) _]. exfalso. exact (Hno s Hin Hn).
  - assert (Hstaff : ~ forall s0, In s0 (staff db) ->
                       Staff.Number s0 <> requestTimeOff.staff_number i)
      by (intros H; exact (H s Hin Hnum)).
    destruct Hcases as [[Hnone Hr] | (n & Hsome & [[Hr Hnosub] | (sub & bf & bl & Hsub & Hn & _ & [[_ Hr] | [_ Hr]])])];
      rewrite Hr;
      try (destruct (create_request_success db i s None Hin) as [d ->]);
      try (destruct (create_request_success db i s (Some (Substitute.ID sub)) Hin)
             as [d ->]);
      simpl; (split; [split; [discriminate | intros H; contradiction] |]).
    + split; [discriminate |]. intros [_ (n & Hn & _)]. congruence.
    + split; [| reflexivity]. intros _. split; [eauto |]. eauto.
    + split; [discriminate |]. intros [_ (n' & Hn' & Hnosub)].
      assert (n' = n) as -> by congruence. exfalso. exact (Hnosub sub Hsub Hn).
    + split; [discriminate |]. intros [_ (n' & Hn' & Hnosub)].
      assert (n' = n) as -> by congruence. exfalso. exact (Hnosub sub Hsub Hn).
Qed.

Lemma isAvailable_true_iff db substitute_id start_date end_date :
  requestTimeOff.isAvailable db substitute_id start_date end_date = true <->
  exists a, In a (availability db) /\
    Availability.SubstituteID a = substitute_id /\
    Availability.StartDate a <= start_date /\
    Availability.EndDate a >= end_date.
Proof.
  unfold requestTimeOff.isAvailable. rewrite negb_true_iff.
  apply covering_row_count_pos.
Qed.

(** X3. The gate on a named substitute.  For a staff number that
    resolves and a substitute row [sub] carrying the non-empty number
    that is given (substitute numbers being unique): if one
    Availability row of [sub] covers the dates, the request is stored
    with [sub] as its substitute; if none does, the answer is
    [SubstituteUnavailable] and nothing is stored. *)
Theorem requestTimeOff_substitute_gate :
  forall db i n (sub : Substitute.row),
    (exists s, In s (staff db) /\
       Staff.Number s = requestTimeOff.staff_number i) ->
    named_substitute i = Some n ->
    In sub (substitute db) -> Substitute.Number sub = n ->
    NoDup (map Substitute.Number (substitute db)) ->
    let covered :=
      exists a, In a (availability db) /\
        Availability.SubstituteID a = Substitute.ID sub /\
        Availability.StartDate a <= requestTimeOff.start_date i /\
        Availability.EndDate a >= requestTimeOff.end_date i in
    (covered ->
     exists staff_id c,
       requestTimeOff.retrieveOutput db i =
       (appended_request db i staff_id (Some (Substitute.ID sub)),
        requestTimeOff.Success c))
    /\ (~ covered ->
        requestTimeOff.retrieveOutput db i =
        (db, requestTimeOff.SubstituteUnavailable)).
Proof.
  intros db i n sub (s0 & Hin0 & Hnum0) Hnamed Hsub Hn Hnd covered.
  destruct (requestTimeOff_cases db i)
    as [[_ Hno] | (s & Hin & Hnum & Hcases)];
    [exfalso; exact (Hno s0 Hin0 Hnum0) |].
  destruct Hcases as [[Hnone _] | (n' & Hsome & Hcases)]; [congruence |].
  assert (n' = n) as -> by congruence.
  destruct Hcases as [[_ Hnosub] | (sub' & bf & bl & Hsub' & Hn' & _ & Hcases)];
    [exfalso; exact (Hnosub sub Hsub Hn) |].
  assert (sub' = sub) as ->.
  { apply (NoDup_map_inj_In Substitute.Number (substitute db)); auto; congruence. }
  destruct Hcases as [[Hav Hr] | [Hav Hr]].
  - split; [| intros _; exact Hr].
    intros Hcov. apply isAvailable_true_iff in Hcov. congruence.
  - split.
    + intros _. rewrite Hr.
      destruct (create_request_success db i s (Some (Substitute.ID sub)) Hin)
        as [d ->]. eauto.
    + intros Hncov. exfalso. apply Hncov. now apply isAvailable_true_iff.
Qed.

Lemma requestTimeOff_substitute_gate_witness :
  requestTimeOff.retrieveOutput Scenario.january
    (requestTimeOff.mk_instance "T001" (ymd 2025 1 8) (ymd 2025 1 12)
       "leave" (Some "SUB1"%string)) =
  (Scenario.january, requestTimeOff.SubstituteUnavailable).
Proof.
  apply (proj2 (requestTimeOff_substitute_gate Scenario.january
           (requestTimeOff.mk_instance "T001" (ymd 2025 1 8) (ymd 2025 1 12)
              "leave" (Some "SUB1"%string)) "SUB1" Scenario.Sub1
           (ex_intro _ Scenario.staffA (conj (or_introl eq_refl) eq_refl))
           eq_refl (or_introl eq_refl) eq_refl
           ltac:(repeat constructor; simpl; intuition discriminate))).
  intros (a & Hin & Hid & Hs & He). simpl in Hin.
  destruct Hin as [<- | [<- | [<- | []]]]; vm_compute in Hid, He;
    try discriminate Hid. apply He. reflexivity.
Defined.

(** ** requestTimeOff: the confirmation and the request ids *)

Lemma filter_id_unique {A : Type} (key : A -> Z) (l : list A) x :
  In x l -> NoDup (map key l) ->
  filter (fun y => key x =? key y) l = [x].
Proof.
  induction l as [|z l IH]; simpl; [intros [] |].
  intros Hin Hnd. inversion Hnd as [| ? ? Hnotin Hnd']; subst.
  destruct Hin as [-> | Hin].
  - rewrite Z.eqb_refl. f_equal. apply filter_nil_iff.
    intros y Hy. apply Z.eqb_neq. intros Heq. apply Hnotin.
    rewrite Heq. now apply in_map.
  - rewrite (IH Hin Hnd').
    destruct (Z.eqb_spec (key x) (key z)) as [Heq | _]; [| reflexivity].
    exfalso. apply Hnotin. rewrite <- Heq. now apply in_map.
Qed.

Lemma requestTimeOff_effect db i :
  fst (requestTimeOff.retrieveOutput db i) = db \/
  exists staff_id substitute_id,
    fst (requestTimeOff.retrieveOutput db i) =
    appended_request db i staff_id substitute_id.
Proof.
  destruct (requestTimeOff_cases db i)
    as [[-> _] | (s & Hin & _ & [[_ ->] | (n & _ & [[-> _] | (sub & bf & bl & _ & _ & _ & [[_ ->] | [_ ->]])])])];
    try (left; reflexivity); right.
  - destruct (create_request_success db i s None Hin) as [d ->]. simpl. eauto.
  - destruct (create_request_success db i s (Some (Substitute.ID sub)) Hin)
      as [d ->]. simpl. eauto.
Qed.

(** With ids unique and the sequence ahead of the stored ids, the read
    back after the insert is the one row of the new request. *)
Lemma read_back_exact db i (s : Staff.row) (osub : option Substitute.row) :
  In s (staff db) ->
  (forall sub, osub = Some sub -> In sub (substitute db)) ->
  NoDup (map Staff.ID (staff db)) ->
  NoDup (map Substitute.ID (substitute db)) ->
  request_ids_below_seq db ->
  requestTimeOff.get_time_off_request_plan
    (appended_request db i (Staff.ID s) (option_map Substitute.ID osub))
    (timeoffrequest_id_seq db) =
  [requestTimeOff.mk_request_details (timeoffrequest_id_seq db)
     (requestTimeOff.start_date i) (requestTimeOff.end_date i)
     (requestTimeOff.reason i)
     (Staff.Number s) (Staff.FirstName s) (Staff.LastName s)
     (option_map Substitute.Number osub)
     (option_map Substitute.FirstName osub)
     (option_map Substitute.LastName osub)].
Proof.
  intros Hin Hsub Hstaff Hsubs Hbelow.
  unfold requestTimeOff.get_time_off_request_plan, appended_request. simpl.
  rewrite filter_app. simpl. rewrite Z.eqb_refl.
  rewrite (proj2 (filter_nil_iff _ (timeoffrequest db))).
  2:{ intros t Ht. apply Z.eqb_neq.
      unfold request_ids_below_seq in Hbelow. rewrite Forall_forall in Hbelow.
      specialize (Hbelow t Ht). lia. }
  simpl. rewrite app_nil_r.
  rewrite (filter_id_unique Staff.ID (staff db) s Hin Hstaff). simpl.
  rewrite app_nil_r. unfold requestTimeOff.left_join_substitute. simpl.
  destruct osub as [sub|]; simpl.
  - rewrite (filter_id_unique Substitute.ID (substitute db) sub
               (Hsub sub eq_refl) Hsubs).
    reflexivity.
  - rewrite (proj2 (filter_nil_iff _ (substitute db))); [reflexivity |].
    reflexivity.
Qed.

Lemma create_request_exact db i (s : Staff.row) (osub : option Substitute.row) :
  In s (staff db) ->
  (forall sub, osub = Some sub -> In sub (substitute db)) ->
  NoDup (map Staff.ID (staff db)) ->
  NoDup (map Substitute.ID (substitute db)) ->
  request_ids_below_seq db ->
  requestTimeOff.create_request db i (Staff.ID s)
    (option_map Substitute.ID osub) =
  (appended_request db i (Staff.ID s) (option_map Substitute.ID osub),
   requestTimeOff.Success
     (requestTimeOff.confirm
        (requestTimeOff.mk_request_details (timeoffrequest_id_seq db)
           (requestTimeOff.start_date i) (requestTimeOff.end_date i)
           (requestTimeOff.reason i)
           (Staff.Number s) (Staff.FirstName s) (Staff.LastName s)
           (option_map Substitute.Number osub)
           (option_map Substitute.FirstName osub)
           (option_map Substitute.LastName osub)))).
Proof.
  intros Hin Hsub Hstaff Hsubs Hbelow.
  pose proof (read_back_exact db i s osub Hin Hsub Hstaff Hsubs Hbelow) as H.
  unfold requestTimeOff.create_request,
    requestTimeOff.insert_time_off_request_plan.
  unfold appended_request in *. rewrite H. reflexivity.
Qed.

(** X4. The confirmation echoes the request.  With staff ids and
    substitute ids unique and every stored request id below the
    sequence, a successful [requestTimeOff] returns the id it assigned,
    the dates and the reason as given, the staff number as given with
    the name of the staff member who carries that number and for whom
    the request is stored, and the substitute number as given with the
    name of the substitute who carries that number and whose id is
    stored on the request (or no substitute when none was named). *)
Theorem requestTimeOff_confirmation_echoes_request :
  forall db i db' c,
    NoDup (map Staff.ID (staff db)) ->
    NoDup (map Substitute.ID (substitute db)) ->
    request_ids_below_seq db ->
    requestTimeOff.retrieveOutput db i = (db', requestTimeOff.Success c) ->
    requestTimeOff.request_id c = timeoffrequest_id_seq db
    /\ requestTimeOff.c_start_date c = requestTimeOff.start_date i
    /\ requestTimeOff.c_end_date c = requestTimeOff.end_date i
    /\ requestTimeOff.c_reason c = requestTimeOff.reason i
    /\ exists s, In s (staff db) /\
          Staff.Number s = requestTimeOff.staff_number i /\
          requestTimeOff.c_staff c =
            requestTimeOff.mk_person (requestTimeOff.staff_number i)
              (requestTimeOff.full_name (Staff.FirstName s) (Staff.LastName s)) /\
          match named_substitute i with
          | None =>
              db' = appended_request db i (Staff.ID s) None /\
              requestTimeOff.c_substitute c = None
          | Some n =>
              exists sub, In sub (substitute db) /\
                Substitute.Number sub = n /\
                db' = appended_request db i (Staff.ID s)
                        (Some (Substitute.ID sub)) /\
                requestTimeOff.c_substitute c =
                  Some (requestTimeOff.mk_person n
                          (requestTimeOff.full_name (Substitute.FirstName sub)
                             (Substitute.LastName sub)))
          end.
Proof.
  intros db i db' c Hstaff Hsubs Hbelow Hr.
  destruct (requestTimeOff_cases db i)
    as [[Hr' _] | (s & Hin & Hnum & [[Hnone Hr'] | (n & Hsome & [[Hr' _] | (sub & bf & bl & Hsub & Hn & _ & [[_ Hr'] | [_ Hr']])])])];
    rewrite Hr' in Hr; try discriminate Hr.
  - pose proof (create_request_exact db i s None Hin
                  ltac:(discriminate) Hstaff Hsubs Hbelow) as H.
    cbn [option_map] in H. rewrite H in Hr.
    injection Hr as <- <-. rewrite Hnone. simpl.
    repeat split; auto. exists s. rewrite Hnum. auto.
  - assert (Hsub' : forall sub', Some sub = Some sub' -> In sub' (substitute db))
      by (intros sub' [= <-]; exact Hsub).
    pose proof (create_request_exact db i s (Some sub) Hin
                  Hsub' Hstaff Hsubs Hbelow) as H.
    cbn [option_map] in H. rewrite H in Hr.
    injection Hr as <- <-. rewrite Hsome.
    assert (truthy n = true) as Htruthy.
    { unfold named_substitute in Hsome.
      destruct (requestTimeOff.substitute_number i) as [m|]; [| discriminate].
      destruct (truthy m) eqn:E; [| discriminate]. congruence. }
    unfold requestTimeOff.confirm. simpl. rewrite Hn, Htruthy.
    repeat split; auto.
    exists s. rewrite Hnum. repeat split; auto.
    exists sub. auto.
Qed.

Lemma requestTimeOff_confirmation_echoes_request_witness :
  exists db' c,
    requestTimeOff.retrieveOutput Scenario.february
      (requestTimeOff.mk_instance "T002" (ymd 2025 2 5) (ymd 2025 2 6)
         "training" (Some "SUB1"%string)) = (db', requestTimeOff.Success c)
    /\ requestTimeOff.request_id c = 1
    /\ requestTimeOff.c_start_date c = ymd 2025 2 5
    /\ requestTimeOff.c_end_date c = ymd 2025 2 6
    /\ requestTimeOff.c_reason c = "training"%string
    /\ requestTimeOff.c_staff c =
         requestTimeOff.mk_person "T002" "Ben Brooks"
    /\ requestTimeOff.c_substitute c =
         Some (requestTimeOff.mk_person "SUB1" "Sam Stone")
    /\ db' = appended_request Scenario.february
               (requestTimeOff.mk_instance "T002" (ymd 2025 2 5) (ymd 2025 2 6)
                  "training" (Some "SUB1"%string)) 2 (Some 10).
Proof.
  eexists. eexists. split; [vm_compute; reflexivity |].
  match goal with
  | |- requestTimeOff.request_id ?c = _ /\ _ =>
      destruct (requestTimeOff_confirmation_echoes_request Scenario.february
                  (requestTimeOff.mk_instance "T002" (ymd 2025 2 5) (ymd 2025 2 6)
                     "training" (Some "SUB1"%string)) _ c
                  ltac:(repeat constructor; simpl; intuition discriminate)
                  ltac:(repeat constructor; simpl; intuition discriminate)
                  ltac:(constructor)
                  ltac:(vm_compute; reflexivity))
        as (H1 & H2 & H3 & H4 & s & Hs & Hnum & Hstaff & sub & Hsub & Hn & Hdb & Hc)
  end.
  assert (s = Scenario.staffB) as ->
    by (destruct Hs as [<- | [<- | []]]; [discriminate Hnum | reflexivity]).
  assert (sub = Scenario.Sub1) as ->
    by (destruct Hsub as [<- | []]; reflexivity).
  repeat split; try assumption.
Defined.

(** X5. The request ids stay below the sequence: [requestTimeOff]
    keeps that invariant, never moves the sequence backwards, and with
    it keeps the stored request ids free of duplicates. *)
Theorem requestTimeOff_keeps_request_ids_fresh :
  forall db i,
    request_ids_below_seq db ->
    let db' := fst (requestTimeOff.retrieveOutput db i) in
    request_ids_below_seq db'
    /\ timeoffrequest_id_seq db <= timeoffrequest_id_seq db'
    /\ (NoDup (map TimeOffRequest.ID (timeoffrequest db)) ->
        NoDup (map TimeOffRequest.ID (timeoffrequest db'))).
Proof.
  intros db i Hbelow db'. subst db'.
  destruct (requestTimeOff_effect db i) as [-> | (staff_id & osub & ->)].
  - repeat split; auto. lia.
  - unfold request_ids_below_seq, appended_request in *. simpl.
    rewrite Forall_forall in Hbelow. split; [| split].
    + apply Forall_forall. intros t Ht. apply in_app_or in Ht.
      destruct Ht as [Ht | [<- | []]]; [specialize (Hbelow t Ht) |]; simpl; lia.
    + lia.
    + intros Hnd. rewrite map_app. simpl.
      apply NoDup_app_remove_l with (l := []). simpl.
      apply (Permutation_NoDup (l := timeoffrequest_id_seq db ::
                                       map TimeOffRequest.ID (timeoffrequest db))).
      * apply Permutation_cons_append.
      * constructor; [| exact Hnd]. intros Hin. apply in_map_iff in Hin.
        destruct Hin as (t & Hid & Ht). specialize (Hbelow t Ht). lia.
Qed.

Lemma requestTimeOff_keeps_request_ids_fresh_witness :
  request_ids_below_seq Scenario.february_committed.
Proof.
  apply (proj1 (requestTimeOff_keeps_request_ids_fresh Scenario.february
                  (requestTimeOff.mk_instance "T001" (ymd 2025 2 1) (ymd 2025 2 3)
                     "leave" (Some "SUB1"%string))
                  ltac:(constructor))).
Defined.

(** ** Suggesting a substitute and booking one *)

Lemma overlaps_request_of_closed (startA endA startB endB : Date) :
  startA <= endA -> startB <= endB -> startA <= endB -> startB <= endA ->
  suggestSubstitutes.overlaps_request startA endA startB endB = true.
Proof.
  intros HA HB H1 H2.
  unfold suggestSubstitutes.overlaps_request,
    suggestSubstitutes.request_date_condition.
  rewrite !orb_true_iff, !andb_true_iff, !Z.geb_le, !Z.leb_le. lia.
Qed.

Lemma named_substitute_truthy i n :
  named_substitute i = Some n ->
  requestTimeOff.substitute_number i = Some n /\ truthy n = true.
Proof.
  unfold named_substitute.
  destruct (requestTimeOff.substitute_number i) as [m|]; [| discriminate].
  destruct (truthy m) eqn:E; [| discriminate]. intros [= ->]. auto.
Qed.

(** A success that names a substitute stores the request with the
    substitute row that carries the number. *)
Lemma requestTimeOff_success_with_substitute db i n db' conf :
  named_substitute i = Some n ->
  requestTimeOff.retrieveOutput db i = (db', requestTimeOff.Success conf) ->
  exists staff_id sub,
    In sub (substitute db) /\ Substitute.Number sub = n /\
    db' = appended_request db i staff_id (Some (Substitute.ID sub)).
Proof.
  intros Hnamed Hr.
  destruct (requestTimeOff_cases db i)
    as [[Hr' _] | (s & Hin & Hnum & [[Hnone Hr'] | (n' & Hsome & [[Hr' _] | (sub & bf & bl & Hsub & Hn & _ & [[_ Hr'] | [_ Hr']])])])];
    rewrite Hr' in Hr; try discriminate Hr; try congruence.
  destruct (create_request_success db i s (Some (Substitute.ID sub)) Hin)
    as [d Hd].
  rewrite Hd in Hr. injection Hr as <- _.
  exists (Staff.ID s), sub. repeat split; auto. congruence.
Qed.

(** X6. What [suggestSubstitutes] lists, [requestTimeOff] accepts: for
    a staff number that resolves and unique substitute numbers, every
    candidate of the list for a range, named by its (non-empty) number
    in a request over the same range, passes the availability gate and
    is stored as the substitute of the request. *)
Theorem suggested_candidate_is_accepted :
  forall db staff_number start_date end_date reason c,
    (exists s, In s (staff db) /\ Staff.Number s = staff_number) ->
    NoDup (map Substitute.Number (substitute db)) ->
    In c (suggestSubstitutes.listCandidates db start_date end_date) ->
    truthy (suggestSubstitutes.number c) = true ->
    let i := requestTimeOff.mk_instance staff_number start_date end_date
               reason (Some (suggestSubstitutes.number c)) in
    exists staff_id sub conf,
      In sub (substitute db) /\
      Substitute.Number sub = suggestSubstitutes.number c /\
      requestTimeOff.retrieveOutput db i =
      (appended_request db i staff_id (Some (Substitute.ID sub)),
       requestTimeOff.Success conf).
Proof.
  intros db staff_number start_date end_date reason c
    (s0 & Hin0 & Hnum0) Hnd Hc Htruthy i.
  apply listCandidates_In in Hc.
  destruct Hc as (sub & a & Hsub & Ha & Hid & Hs & He & _ & ->). simpl in *.
  assert (Hnamed : named_substitute i = Some (Substitute.Number sub))
    by (unfold named_substitute; simpl; now rewrite Htruthy).
  destruct (requestTimeOff_cases db i)
    as [[_ Hno] | (s & Hin & Hnum & Hcases)];
    [exfalso; exact (Hno s0 Hin0 Hnum0) |].
  destruct Hcases as [[Hnone _] | (n' & Hsome & Hcases)]; [congruence |].
  assert (n' = Substitute.Number sub) as -> by congruence.
  destruct Hcases as [[_ Hnosub] | (sub' & bf & bl & Hsub' & Hn' & _ & Hcases)];
    [exfalso; exact (Hnosub sub Hsub eq_refl) |].
  assert (sub' = sub) as ->
    by (apply (NoDup_map_inj_In Substitute.Number (substitute db)); auto).
  destruct Hcases as [[Hav _] | [_ Hr]].
  - exfalso.
    assert (requestTimeOff.isAvailable db (Substitute.ID sub)
              start_date end_date = true) as Hyes
      by (apply isAvailable_true_iff; exists a; auto).
    simpl in Hav. congruence.
  - destruct (create_request_success db i s (Some (Substitute.ID sub)) Hin)
      as [d Hd].
    exists (Staff.ID s), sub, (requestTimeOff.confirm d).
    repeat split; auto. now rewrite Hr.
Qed.

Lemma suggested_candidate_is_accepted_witness :
  exists staff_id sub conf,
    In sub (substitute Scenario.january) /\
    Substitute.Number sub = "SUB1"%string /\
    requestTimeOff.retrieveOutput Scenario.january
      (requestTimeOff.mk_instance "T001" (ymd 2025 1 5) (ymd 2025 1 8)
         "leave" (Some "SUB1"%string)) =
    (appended_request Scenario.january
       (requestTimeOff.mk_instance "T001" (ymd 2025 1 5) (ymd 2025 1 8)
          "leave" (Some "SUB1"%string)) staff_id (Some (Substitute.ID sub)),
     requestTimeOff.Success conf).
Proof.
  apply (suggested_candidate_is_accepted Scenario.january "T001"
           (ymd 2025 1 5) (ymd 2025 1 8) "leave"
           (suggestSubstitutes.candidate_of false
              (suggestSubstitutes.join_row Scenario.Sub1
                 (Availability.mk 10 (ymd 2025 1 1) (ymd 2025 1 10))))).
  - exists Scenario.staffA. split; [now left | reflexivity].
  - repeat constructor; simpl; intuition discriminate.
  - vm_compute. right. now left.
  - reflexivity.
Defined.

(** X7. A substitute that [requestTimeOff] has committed is no longer
    offered.  After a successful request over a well-formed range that
    names a substitute (substitute numbers being unique), no list that
    [suggestSubstitutes] returns for a well-formed range sharing a day
    with the request holds an entry of that substitute other than the
    one marked as already assigned. *)
Theorem committed_substitute_is_not_suggested :
  forall db i n db' conf staff_number start_date end_date,
    named_substitute i = Some n ->
    requestTimeOff.retrieveOutput db i = (db', requestTimeOff.Success conf) ->
    NoDup (map Substitute.Number (substitute db)) ->
    requestTimeOff.start_date i <= requestTimeOff.end_date i ->
    start_date <= end_date ->
    requestTimeOff.start_date i <= end_date ->
    start_date <= requestTimeOff.end_date i ->
    (forall c, In c (suggestSubstitutes.listCandidates db' start_date end_date) ->
       suggestSubstitutes.number c <> n)
    /\ (forall l c,
          snd (suggestSubstitutes.retrieveOutput db'
                 (suggestSubstitutes.mk_instance staff_number start_date end_date))
            = suggestSubstitutes.Substitutes l ->
          In c l -> suggestSubstitutes.number c = n ->
          suggestSubstitutes.already_assigned c = true).
Proof.
  intros db i n db' conf staff_number start_date end_date
    Hnamed Hr Hnd Hwf Hwf' Ho1 Ho2.
  destruct (requestTimeOff_success_with_substitute db i n db' conf Hnamed Hr)
    as (staff_id & sub & Hsub & Hn & ->).
  assert (Hlist : forall c,
            In c (suggestSubstitutes.listCandidates
                    (appended_request db i staff_id (Some (Substitute.ID sub)))
                    start_date end_date) ->
            suggestSubstitutes.number c <> n).
  { intros c Hc Heq. apply listCandidates_In in Hc.
    destruct Hc as (sub' & a & Hsub' & _ & _ & _ & _ & Hfree & ->).
    simpl in Heq, Hsub'.
    assert (sub' = sub) as ->
      by (apply (NoDup_map_inj_In Substitute.Number (substitute db)); auto;
          congruence).
    specialize (Hfree (TimeOffRequest.mk (timeoffrequest_id_seq db)
                         (requestTimeOff.start_date i) (requestTimeOff.end_date i)
                         (requestTimeOff.reason i) staff_id
                         (Some (Substitute.ID sub)))).
    simpl in Hfree.
    rewrite overlaps_request_of_closed in Hfree; auto.
    assert (true = false) as Habs; [| discriminate Habs].
    apply Hfree; [| reflexivity]. apply in_or_app. right. now left. }
  split; [exact Hlist |].
  intros l c Hres Hc Heq.
  unfold suggestSubstitutes.retrieveOutput in Hres. simpl in Hres.
  destruct (fetchone _) as [[[sid ?] ?]|]; [| discriminate Hres].
  destruct (suggestSubstitutes.assigned_substitute _ _ _ _) as [r|];
    simpl in Hres; injection Hres as <-.
  - destruct Hc as [<- | []]. reflexivity.
  - exfalso. exact (Hlist c Hc Heq).
Qed.

Lemma committed_substitute_is_not_suggested_witness :
  ~ In (suggestSubstitutes.candidate_of false
          (suggestSubstitutes.join_row Scenario.Sub1
             (Availability.mk 10 (ymd 2025 1 15) (ymd 2025 2 28))))
       (suggestSubstitutes.listCandidates Scenario.february_committed
          (ymd 2025 2 3) (ymd 2025 2 4)).
Proof.
  intros Hin.
  apply (proj1 (committed_substitute_is_not_suggested Scenario.february
           (requestTimeOff.mk_instance "T001" (ymd 2025 2 1) (ymd 2025 2 3)
              "leave" (Some "SUB1"%string))
           "SUB1" Scenario.february_committed
           (requestTimeOff.confirm
              (requestTimeOff.mk_request_details 1 (ymd 2025 2 1) (ymd 2025 2 3)
                 "leave" "T001" "Ada" "Abbott"
                 (Some "SUB1"%string) (Some "Sam"%string) (Some "Stone"%string)))
           "T002" (ymd 2025 2 3) (ymd 2025 2 4)
           eq_refl
           ltac:(vm_compute; reflexivity)
           ltac:(repeat constructor; simpl; intuition discriminate)
           ltac:(vm_compute; discriminate) ltac:(vm_compute; discriminate)
           ltac:(vm_compute; discriminate) ltac:(vm_compute; discriminate))
          _ Hin).
  reflexivity.
Defined.

(** ** suggestSubstitutes: narrowing the range, and the missing staff *)

Lemma overlaps_request_widen (StartDate EndDate start_date end_date
    start_date' end_date' : Date) :
  start_date <= start_date' -> start_date' <= end_date' ->
  end_date' <= end_date ->
  suggestSubstitutes.overlaps_request StartDate EndDate start_date' end_date'
    = true ->
  suggestSubstitutes.overlaps_request StartDate EndDate start_date end_date
    = true.
Proof.
  intros H1 H2 H3.
  unfold suggestSubstitutes.overlaps_request,
    suggestSubstitutes.request_date_condition.
  rewrite !orb_true_iff, !andb_true_iff, !Z.geb_le, !Z.leb_le. lia.
Qed.

(** X8. Narrowing the range loses no candidate: an entry of the
    candidate list for a range is an entry of the candidate list for
    every well-formed range inside it. *)
Theorem listCandidates_narrowing :
  forall db start_date end_date start_date' end_date' c,
    start_date <= start_date' -> start_date' <= end_date' ->
    end_date' <= end_date ->
    In c (suggestSubstitutes.listCandidates db start_date end_date) ->
    In c (suggestSubstitutes.listCandidates db start_date' end_date').
Proof.
  intros db start_date end_date start_date' end_date' c H1 H2 H3 Hc.
  apply listCandidates_In in Hc.
  destruct Hc as (sub & a & Hsub & Ha & Hid & Hs & He & Hfree & ->).
  apply listCandidates_In. exists sub, a. repeat split; auto; try lia.
  intros t Ht Hcommitted. specialize (Hfree t Ht Hcommitted).
  apply not_true_iff_false. intros Hov.
  apply (overlaps_request_widen _ _ start_date end_date) in Hov; auto.
  congruence.
Qed.

Lemma listCandidates_narrowing_witness :
  In (suggestSubstitutes.candidate_of false
        (suggestSubstitutes.join_row Scenario.Sub1
           (Availability.mk 10 (ymd 2025 1 1) (ymd 2025 1 10))))
     (suggestSubstitutes.listCandidates Scenario.january
        (ymd 2025 1 6) (ymd 2025 1 7)).
Proof.
  apply (listCandidates_narrowing Scenario.january
           (ymd 2025 1 5) (ymd 2025 1 8) (ymd 2025 1 6) (ymd 2025 1 7)).
  - vm_compute. discriminate.
  - vm_compute. discriminate.
  - vm_compute. discriminate.
  - vm_compute. right. now left.
Defined.

(** X9. [suggestSubstitutes] reports the staff member missing exactly
    when no staff row carries the number; otherwise it returns a list,
    which is either the single entry of an assigned substitute or
    holds only entries marked as not assigned. *)
Theorem suggestSubstitutes_not_found_iff :
  forall db i,
    let r := snd (suggestSubstitutes.retrieveOutput db i) in
    (r = suggestSubstitutes.StaffNotFound <->
     forall s, In s (staff db) ->
       Staff.Number s <> suggestSubstitutes.staff_number i)
    /\ (forall l, r = suggestSubstitutes.Substitutes l ->
          (exists c, l = [c] /\ suggestSubstitutes.already_assigned c = true) \/
          Forall (fun c => suggestSubstitutes.already_assigned c = false) l).
Proof.
  intros db i r. subst r. unfold suggestSubstitutes.retrieveOutput.
  destruct (fetchone (suggestSubstitutes.suggest_subs_validate_staff_plan db
                        (suggestSubstitutes.staff_number i)))
    as [[[staff_id sf] sl]|] eqn:E.
  - apply fetchone_map_filter_some in E. destruct E as (s & Hs & Hn & _).
    apply String.eqb_eq in Hn.
    destruct (suggestSubstitutes.assigned_substitute db staff_id _ _) as [row|];
      simpl.
    + split.
      * split; [discriminate |]. intros H. exfalso. exact (H s Hs Hn).
      * intros l [= <-]. left. eexists. split; reflexivity.
    + split.
      * split; [discriminate |]. intros H. exfalso. exact (H s Hs Hn).
      * intros l [= <-]. right. apply Forall_forall. intros c Hc.
        unfold suggestSubstitutes.listCandidates in Hc.
        apply in_map_iff in Hc. destruct Hc as (x & <- & _). reflexivity.
  - simpl. split; [| discriminate]. split; [| reflexivity].
    intros _ s Hs Hn.
    pose proof (proj1 (fetchone_map_filter_none _ _ _) E s Hs) as H.
    simpl in H. apply String.eqb_neq in H. contradiction.
Qed.

Lemma suggestSubstitutes_not_found_iff_witness :
  snd (suggestSubstitutes.retrieveOutput Scenario.january
         (suggestSubstitutes.mk_instance "T999" (ymd 2025 1 5) (ymd 2025 1 8)))
  = suggestSubstitutes.StaffNotFound.
Proof.
  apply (proj1 (suggestSubstitutes_not_found_iff Scenario.january
                  (suggestSubstitutes.mk_instance "T999"
                     (ymd 2025 1 5) (ymd 2025 1 8)))).
  intros s Hs. simpl in Hs. destruct Hs as [<- | [<- | []]]; discriminate.
Defined.

(** ** addClass: what the class table keeps *)

Lemma timeOverlaps_sym startA durationA startB durationB :
  timeOverlaps startA durationA startB durationB =
  timeOverlaps startB durationB startA durationA.
Proof. unfold timeOverlaps. apply andb_comm. Qed.

Lemma ForallOrdPairs_snoc {A : Type} (R : A -> A -> Prop) (l : list A) (y : A) :
  ForallOrdPairs R l -> Forall (fun x => R x y) l ->
  ForallOrdPairs R (l ++ [y]).
Proof.
  induction 1 as [| x l Hx _ IH]; simpl; intros Hy.
  - repeat constructor.
  - inversion Hy as [| ? ? Hxy Hy']; subst. constructor.
    + apply Forall_app. split; [exact Hx | now constructor].
    + now apply IH.
Qed.

(** The two ways [addClass.retrieveOutput] ends. *)
Lemma addClass_cases db room class_type start duration :
  (addClass.retrieveOutput db room class_type start duration =
     (db, addClass.RoomUnavailable) /\
   exists c, In c (class db) /\ Class.RoomNumber c = room /\
     addClass.slot_condition c start duration = true)
  \/
  (let id := addClass.synchronized_nextval db in
   let r := Class.mk id ("C" ++ text_of_int id) class_type room start duration in
   addClass.retrieveOutput db room class_type start duration =
     (with_class db (class db ++ [r]),
      addClass.Created
        (addClass.mk_details (Class.Number r) room start duration)) /\
   forall c, In c (class db) -> Class.RoomNumber c = room ->
     addClass.slot_condition c start duration = false).
Proof.
  unfold addClass.retrieveOutput.
  destruct (fetchone (addClass.check_room_availability_plan db room start duration))
    as [one|] eqn:E.
  - left. split; [reflexivity |].
    apply fetchone_map_filter_some in E. destruct E as (c & Hin & Hc & _).
    apply andb_true_iff in Hc. destruct Hc as [Hroom Hov].
    apply String.eqb_eq in Hroom. exists c. auto.
  - right. split; [reflexivity |]. now apply room_check_none_iff.
Qed.

(** X10. Within the day no room is double-booked by [addClass]: when
    every stored class and the proposed slot end within the day they
    start, and the stored classes are pairwise free of a clash (same
    room and slots that overlap by [timeOverlaps]), then the classes
    after [createClass] still end within the day and are pairwise free
    of a clash, whether the class was created or rejected.  Past
    midnight this is lost: in the room that holds the class of 23:00
    for two hours, the slot 23:30 for a quarter of an hour is booked
    inside that class. *)
Theorem addClass_keeps_rooms_not_double_booked :
  (forall db room class_type start duration,
     classes_end_same_day db ->
     ends_same_day start duration ->
     rooms_not_double_booked db ->
     let db' := fst (addClass.retrieveOutput db room class_type start duration) in
     classes_end_same_day db' /\ rooms_not_double_booked db')
  /\ (rooms_not_double_booked Scenario.night_class /\
      ~ rooms_not_double_booked
          (fst (addClass.retrieveOutput Scenario.night_class "R100" "2HR"
                  (hms 23 30 0) (hms 0 15 0)))).
Proof.
  split.
  - intros db room class_type start duration Hday Hslot Hinv.
    destruct (addClass_cases db room class_type start duration)
      as [[-> _] | [-> Hfree]]; [split; assumption |].
    unfold classes_end_same_day, rooms_not_double_booked in *. simpl. split.
    + apply Forall_app. split; [exact Hday |]. constructor; [exact Hslot | constructor].
    + apply ForallOrdPairs_snoc; [exact Hinv |].
      apply Forall_forall. intros c Hin Hroom. simpl in *.
      rewrite timeOverlaps_sym, <- slot_condition_timeOverlaps.
      * now apply Hfree.
      * exact Hslot.
      * exact (proj1 (Forall_forall _ _) Hday c Hin).
  - assert (Hnight : class Scenario.night_class =
              [Class.mk 1 "C1" "1HR" "R100" (hms 23 0 0) (hms 2 0 0)])
      by (vm_compute; reflexivity).
    assert (Hafter :
      class (fst (addClass.retrieveOutput Scenario.night_class "R100" "2HR"
                    (hms 23 30 0) (hms 0 15 0))) =
      [Class.mk 1 "C1" "1HR" "R100" (hms 23 0 0) (hms 2 0 0);
       Class.mk 2 "C2" "2HR" "R100" (hms 23 30 0) (hms 0 15 0)])
      by (vm_compute; reflexivity).
    unfold rooms_not_double_booked. rewrite Hnight, Hafter. split.
    + repeat constructor.
    + intros H. inversion H as [| ? ? Hfirst _]; subst.
      inversion Hfirst as [| ? ? Hclash _]; subst.
      specialize (Hclash eq_refl). vm_compute in Hclash. discriminate Hclash.
Qed.

Lemma addClass_keeps_rooms_not_double_booked_witness :
  List.length
    (class (fst (addClass.retrieveOutput Scenario.two_classes "R100" "1HR"
                   (hms 10 30 0) (hms 1 0 0)))) = 3%nat
  /\ classes_end_same_day
       (fst (addClass.retrieveOutput Scenario.two_classes "R100" "1HR"
               (hms 10 30 0) (hms 1 0 0)))
  /\ rooms_not_double_booked
       (fst (addClass.retrieveOutput Scenario.two_classes "R100" "1HR"
               (hms 10 30 0) (hms 1 0 0))).
Proof.
  assert (Htwo : class Scenario.two_classes =
            [Class.mk 1 "C1" "1HR" "R100" (hms 9 0 0) (hms 1 0 0);
             Class.mk 2 "C2" "2HR" "R100" (hms 10 0 0) (hms 0 30 0)])
    by (vm_compute; reflexivity).
  split; [vm_compute; reflexivity |].
  apply (proj1 addClass_keeps_rooms_not_double_booked Scenario.two_classes
           "R100" "1HR" (hms 10 30 0) (hms 1 0 0)).
  - unfold classes_end_same_day. rewrite Htwo.
    repeat constructor; vm_compute; congruence.
  - split; vm_compute; congruence.
  - unfold rooms_not_double_booked. rewrite Htwo.
    repeat constructor.
Defined.

Lemma sql_max_bound (l : list Z) (x : Z) :
  In x l -> exists m, sql_max l = Some m /\ x <= m.
Proof.
  induction l as [|y l IH]; simpl; [intros [] |].
  intros [-> | Hin].
  - destruct (sql_max l) as [m|]; eexists; split; try reflexivity; lia.
  - destruct (IH Hin) as (m & -> & Hm). eexists. split; [reflexivity | lia].
Qed.

Lemma synchronized_nextval_fresh db c :
  In c (class db) -> Class.ID c < addClass.synchronized_nextval db.
Proof.
  intros Hin. unfold addClass.synchronized_nextval.
  destruct (sql_max_bound (map Class.ID (class db)) (Class.ID c))
    as (m & -> & Hm); [now apply in_map |].
  simpl. lia.
Qed.

Lemma text_of_int_inj (n m : Z) : text_of_int n = text_of_int m -> n = m.
Proof.
  unfold text_of_int. intros H.
  assert (Hnz : forall z, Z.to_int z <> Decimal.Pos Decimal.Nil /\
                          Z.to_int z <> Decimal.Neg Decimal.Nil).
  { intros [|p|p]; simpl; split; try discriminate;
      intros [= Hp]; exact (Unsigned.to_uint_nonnil p Hp). }
  apply DecimalZ.to_int_inj.
  assert (Some (Z.to_int n) = Some (Z.to_int m)) as [= ->]; [| reflexivity].
  rewrite <- (NilZero.isi (Z.to_int n)), <- (NilZero.isi (Z.to_int m));
    try apply Hnz.
  now rewrite H.
Qed.

(** X11. [addClass] keeps the classes identified: the id it assigns is
    above every stored id, so unique ids stay unique; every class
    keeps the number ['C' || id]; and the class numbers, by which the
    other APIs address a class, stay unique. *)
Theorem addClass_keeps_classes_identified :
  forall db room class_type start duration,
    NoDup (map Class.ID (class db)) ->
    numbered_by_id db ->
    let db' := fst (addClass.retrieveOutput db room class_type start duration) in
    (forall c, In c (class db) -> Class.ID c < addClass.synchronized_nextval db)
    /\ NoDup (map Class.ID (class db'))
    /\ numbered_by_id db'
    /\ NoDup (map Class.Number (class db')).
Proof.
  intros db room class_type start duration Hids Hnum db'.
  assert (Hnumbers : forall d, NoDup (map Class.ID (class d)) ->
            numbered_by_id d -> NoDup (map Class.Number (class d))).
  { intros d Hd Hn. unfold numbered_by_id in Hn.
    induction (class d) as [|c l IH]; simpl; [constructor |].
    inversion Hd as [| ? ? Hnotin Hd']; subst. constructor.
    - intros Hin. apply in_map_iff in Hin. destruct Hin as (c' & Heq & Hc').
      apply Hnotin. rewrite (Hn c (or_introl eq_refl)) in Heq.
      rewrite (Hn c' (or_intror Hc')) in Heq. injection Heq as Heq.
      apply text_of_int_inj in Heq. rewrite <- Heq. now apply in_map.
    - apply IH; auto. intros c' Hc'. apply Hn. now right. }
  split; [intros c; apply synchronized_nextval_fresh |].
  assert (NoDup (map Class.ID (class db')) /\ numbered_by_id db') as [H1 H2].
  { subst db'.
    destruct (addClass_cases db room class_type start duration)
      as [[-> _] | [-> _]]; [auto |].
    simpl. split.
    - rewrite map_app. simpl.
      apply (Permutation_NoDup (l := addClass.synchronized_nextval db ::
                                       map Class.ID (class db))).
      + apply Permutation_cons_append.
      + constructor; [| exact Hids]. intros Hin. apply in_map_iff in Hin.
        destruct Hin as (c & Hid & Hc).
        pose proof (synchronized_nextval_fresh db c Hc). lia.
    - intros c Hc. simpl in Hc. apply in_app_or in Hc.
      destruct Hc as [Hc | [<- | []]]; [now apply Hnum | reflexivity]. }
  auto.
Qed.

Lemma addClass_keeps_classes_identified_witness :
  (forall c, In c (class Scenario.sparse_ids) -> Class.ID c < 8)
  /\ map Class.ID
       (class (fst (addClass.retrieveOutput Scenario.sparse_ids "R100" "1HR"
                      (hms 9 0 0) (hms 1 0 0)))) = [3; 7; 8]
  /\ NoDup (map Class.ID
              (class (fst (addClass.retrieveOutput Scenario.sparse_ids "R100"
                             "1HR" (hms 9 0 0) (hms 1 0 0)))))
  /\ numbered_by_id
       (fst (addClass.retrieveOutput Scenario.sparse_ids "R100" "1HR"
               (hms 9 0 0) (hms 1 0 0)))
  /\ NoDup (map Class.Number
              (class (fst (addClass.retrieveOutput Scenario.sparse_ids "R100"
                             "1HR" (hms 9 0 0) (hms 1 0 0))))).
Proof.
  destruct (addClass_keeps_classes_identified Scenario.sparse_ids "R100" "1HR"
              (hms 9 0 0) (hms 1 0 0)) as (Hfresh & Hids & Hnum & Hnumbers).
  - simpl. repeat constructor; simpl; intuition discriminate.
  - intros c [<- | [<- | []]]; reflexivity.
  - split; [exact Hfresh |]. split; [vm_compute; reflexivity |].
    split; [exact Hids |]. split; [exact Hnum | exact Hnumbers].
Defined.

(** X12. Asking for the same slot again.  After [createClass] has
    created a class, the same room and slot are refused when the slot
    is a proper one ([start < start + duration]); a slot that is empty
    or runs past midnight, whose end as the statement computes it is
    not after its start, does not clash with itself and is created a
    second time. *)
Theorem addClass_same_slot_again :
  forall db room class_type class_type' start duration db' d,
    addClass.retrieveOutput db room class_type start duration =
      (db', addClass.Created d) ->
    (start < time_pl_interval start duration ->
     addClass.retrieveOutput db' room class_type' start duration =
       (db', addClass.RoomUnavailable))
    /\ (time_pl_interval start duration <= start ->
        exists d', snd (addClass.retrieveOutput db' room class_type' start duration)
                   = addClass.Created d').
Proof.
  intros db room class_type class_type' start duration db' d Hr.
  destruct (addClass_cases db room class_type start duration)
    as [[Hr' _] | [Hr' Hfree]]; rewrite Hr' in Hr; [discriminate Hr |].
  injection Hr as <- _. split.
  - intros Hproper. unfold addClass.retrieveOutput.
    destruct (fetchone (addClass.check_room_availability_plan _ room start duration))
      eqn:E; [reflexivity |].
    exfalso.
    pose proof (proj1 (room_check_none_iff _ _ _ _) E) as E'. simpl in E'.
    assert (Hnew : In (Class.mk (addClass.synchronized_nextval db)
                         ("C" ++ text_of_int (addClass.synchronized_nextval db))
                         class_type room start duration)
                     (class db ++
                      [Class.mk (addClass.synchronized_nextval db)
                         ("C" ++ text_of_int (addClass.synchronized_nextval db))
                         class_type room start duration]))
      by (apply in_or_app; right; now left).
    specialize (E' _ Hnew eq_refl).
    simpl in E'. unfold addClass.slot_condition in E'. simpl in E'.
    apply Z.ltb_lt in Hproper. rewrite Hproper in E'. discriminate E'.
  - intros Hdegenerate.
    match goal with
    | |- context [addClass.retrieveOutput ?D room class_type' start duration] =>
        destruct (addClass_cases D room class_type' start duration)
          as [[_ (c & Hin & Hroom & Hov)] | [-> _]]; [| simpl; eauto]
    end.
    exfalso. simpl in Hin. apply in_app_or in Hin.
    destruct Hin as [Hin | [<- | []]].
    + rewrite (Hfree c Hin Hroom) in Hov. discriminate Hov.
    + unfold addClass.slot_condition in Hov. simpl in Hov.
      apply andb_true_iff in Hov. destruct Hov as [Hov _].
      apply Z.ltb_lt in Hov. lia.
Qed.

Lemma addClass_same_slot_again_witness :
  addClass.retrieveOutput Scenario.room_R100 "R100" "2HR"
    (hms 9 0 0) (hms 1 0 0) = (Scenario.room_R100, addClass.RoomUnavailable).
Proof.
  apply (proj1 (addClass_same_slot_again empty_db "R100" "1HR" "2HR"
                  (hms 9 0 0) (hms 1 0 0) Scenario.room_R100
                  (addClass.mk_details "C1" "R100" (hms 9 0 0) (hms 1 0 0))
                  eq_refl)).
  vm_compute. reflexivity.
Defined.

(** X13. The number that [createClass] returns is the key of the new
    class: with ids unique and every class numbered ['C' || id], the
    class id lookup of [fillClass] on the returned number finds the new
    class and no other, so that [fillClass] on it never answers
    "class not found". *)
Theorem created_class_is_found_by_fillClass :
  forall db room class_type start duration db' d staff_number,
    NoDup (map Class.ID (class db)) ->
    numbered_by_id db ->
    addClass.retrieveOutput db room class_type start duration =
      (db', addClass.Created d) ->
    fillClass.get_class_id_plan db' (addClass.number d) =
      [addClass.synchronized_nextval db]
    /\ snd (fillClass.retrieveOutput db' (addClass.number d) staff_number)
       <> fillClass.ClassNotFound.
Proof.
  intros db room class_type start duration db' d staff_number Hids Hnum Hr.
  destruct (addClass_cases db room class_type start duration)
    as [[Hr' _] | [Hr' _]]; rewrite Hr' in Hr; [discriminate Hr |].
  injection Hr as <- <-.
  match goal with
  | |- fillClass.get_class_id_plan ?D ?N = _ /\ _ =>
      assert (Hplan : fillClass.get_class_id_plan D N =
                      [addClass.synchronized_nextval db])
  end.
  { unfold fillClass.get_class_id_plan. simpl. rewrite filter_app. simpl.
    rewrite String.eqb_refl.
    rewrite (proj2 (filter_nil_iff _ (class db))); [reflexivity |].
    intros c Hc. apply String.eqb_neq. rewrite (Hnum c Hc). intros [= Heq].
    apply text_of_int_inj in Heq.
    pose proof (synchronized_nextval_fresh db c Hc). lia. }
  split; [exact Hplan |].
  unfold fillClass.retrieveOutput. rewrite Hplan. simpl.
  destruct (fetchone (fillClass.get_staff_id_plan _ staff_number));
    [| discriminate].
  destruct (fetchone (fillClass.get_class_details_plan _ _)) as [[[? ?] ?]|];
    discriminate.
Qed.

Lemma created_class_is_found_by_fillClass_witness :
  fillClass.get_class_id_plan Scenario.room_R100 "C1" = [1].
Proof.
  apply (proj1 (created_class_is_found_by_fillClass empty_db "R100" "1HR"
                  (hms 9 0 0) (hms 1 0 0) Scenario.room_R100
                  (addClass.mk_details "C1" "R100" (hms 9 0 0) (hms 1 0 0))
                  "T001"
                  ltac:(constructor) ltac:(intros c []) eq_refl)).
Defined.

(** ** fillClass: outcomes and effects *)

Lemma class_details_none_iff db class_number :
  fetchone (fillClass.get_class_details_plan db class_number) = None <->
  forall c, In c (class db) -> Class.Number c = class_number ->
    forall ct, In ct (classtype db) -> Class.ClassTypeID c <> ClassType.ID ct.
Proof.
  rewrite fetchone_nil_iff. unfold fillClass.get_class_details_plan. split.
  - intros Hnil c Hc Hnum ct Hct Heq.
    assert (In (Class.StartTime c, Class.Duration c, LEFT1 (ClassType.ID ct))
              (flat_map
                 (fun c0 =>
                    map (fun ct0 => (Class.StartTime c0, Class.Duration c0,
                                     LEFT1 (ClassType.ID ct0)))
                      (filter (fun ct0 =>
                                 (Class.ClassTypeID c0 =? ClassType.ID ct0)%string)
                         (classtype db)))
                 (filter (fun c0 => (Class.Number c0 =? class_number)%string)
                    (class db)))) as Hin.
    { apply in_flat_map. exists c. split.
      - apply filter_In. split; [exact Hc | now apply String.eqb_eq].
      - apply in_map_iff. exists ct. split; [reflexivity |].
        apply filter_In. split; [exact Hct | now apply String.eqb_eq]. }
    rewrite Hnil in Hin. destruct Hin.
  - intros H.
    destruct (flat_map _ _) as [|x l] eqn:E; [reflexivity | exfalso].
    assert (In x (x :: l)) as Hin by now left. rewrite <- E in Hin.
    apply in_flat_map in Hin. destruct Hin as (c & Hc & Hx).
    apply filter_In in Hc. destruct Hc as [Hc Hnum]. apply String.eqb_eq in Hnum.
    apply in_map_iff in Hx. destruct Hx as (ct & _ & Hct).
    apply filter_In in Hct. destruct Hct as [Hct Heq].
    apply String.eqb_eq in Heq. exact (H c Hc Hnum ct Hct Heq).
Qed.

(** The four ways [fillClass.retrieveOutput] ends. *)
Lemma fillClass_cases db class_number staff_number :
  (fillClass.retrieveOutput db class_number staff_number =
     (db, fillClass.ClassNotFound) /\
   forall c, In c (class db) -> Class.Number c <> class_number)
  \/
  (exists C, In C (class db) /\ Class.Number C = class_number /\
     fetchone (fillClass.get_class_id_plan db class_number) = Some (Class.ID C) /\
     ((fillClass.retrieveOutput db class_number staff_number =
         (db, fillClass.StaffNotFound) /\
       forall st, In st (staff db) -> Staff.Number st <> staff_number)
      \/
      (exists st, In st (staff db) /\ Staff.Number st = staff_number /\
         ((fetchone (fillClass.get_class_details_plan db class_number) = None /\
           fillClass.retrieveOutput db class_number staff_number =
             (fillClass.insert_staff_plan db (Staff.ID st) (Class.ID C),
              fillClass.DetailsNotRetrieved))
          \/
          (exists start_time duration class_grade,
             fetchone (fillClass.get_class_details_plan db class_number) =
               Some (start_time, duration, class_grade) /\
             fillClass.retrieveOutput db class_number staff_number =
               (fold_left (fillClass.enroll (Class.ID C))
                  (fillClass.get_eligible_students_plan db class_grade class_number)
                  (fillClass.insert_staff_plan db (Staff.ID st) (Class.ID C)),
                fillClass.Assignments
                  (map (fun row => fillClass.mk_assignment (fst row) (snd row))
                     (fillClass.get_class_assignments_plan
                        (fold_left (fillClass.enroll (Class.ID C))
                           (fillClass.get_eligible_students_plan db class_grade
                              class_number)
                           (fillClass.insert_staff_plan db (Staff.ID st)
                              (Class.ID C)))
                        class_number)))))))).
Proof.
  unfold fillClass.retrieveOutput.
  destruct (fetchone (fillClass.get_class_id_plan db class_number))
    as [class_id|] eqn:Eclass.
  2:{ left. split; [reflexivity |]. intros c Hc Hn.
      pose proof (proj1 (fetchone_map_filter_none _ _ _) Eclass c Hc) as H.
      simpl in H. apply String.eqb_neq in H. contradiction. }
  right. apply fetchone_map_filter_some in Eclass.
  destruct Eclass as (C & HC & Hnum & ->). apply String.eqb_eq in Hnum.
  exists C. repeat split; auto.
  destruct (fetchone (fillClass.get_staff_id_plan db staff_number))
    as [staff_id|] eqn:Estaff.
  2:{ left. split; [reflexivity |]. intros st Hst Hn.
      pose proof (proj1 (fetchone_map_filter_none _ _ _) Estaff st Hst) as H.
      simpl in H. apply String.eqb_neq in H. contradiction. }
  right. apply fetchone_map_filter_some in Estaff.
  destruct Estaff as (st & Hst & Hsn & ->). apply String.eqb_eq in Hsn.
  exists st. repeat split; auto.
  destruct (insert_staff_plan_frame db (Staff.ID st) (Class.ID C))
    as (E1 & E2 & E3 & E4 & E5).
  assert (fillClass.get_class_details_plan
            (fillClass.insert_staff_plan db (Staff.ID st) (Class.ID C)) class_number =
          fillClass.get_class_details_plan db class_number) as ->
    by (unfold fillClass.get_class_details_plan; now rewrite E2, E3).
  destruct (fetchone (fillClass.get_class_details_plan db class_number))
    as [[[start_time duration] class_grade]|].
  - right. exists start_time, duration, class_grade. split; [reflexivity |].
    assert (fillClass.get_eligible_students_plan
              (fillClass.insert_staff_plan db (Staff.ID st) (Class.ID C))
              class_grade class_number =
            fillClass.get_eligible_students_plan db class_grade class_number) as ->
      by (unfold fillClass.get_eligible_students_plan,
            fillClass.has_other_homeroom; now rewrite E2, E4, E5).
    reflexivity.
  - left. split; reflexivity.
Qed.

(** X14. The two "not found" answers of [fillClass]: the class is
    reported missing exactly when no class row carries the number; the
    staff member is reported missing exactly when the class number
    resolves and no staff row carries the staff number; and in both
    cases nothing is stored. *)
Theorem fillClass_not_found_iff :
  forall db class_number staff_number,
    let r := fillClass.retrieveOutput db class_number staff_number in
    (snd r = fillClass.ClassNotFound <->
     forall c, In c (class db) -> Class.Number c <> class_number)
    /\ (snd r = fillClass.StaffNotFound <->
        (exists c, In c (class db) /\ Class.Number c = class_number) /\
        forall st, In st (staff db) -> Staff.Number st <> staff_number)
    /\ (snd r = fillClass.ClassNotFound \/ snd r = fillClass.StaffNotFound ->
        fst r = db).
Proof.
  intros db class_number staff_number r. subst r.
  destruct (fillClass_cases db class_number staff_number)
    as [[-> Hno] | (C & HC & Hnum & _ & [[-> Hnost] | (st & Hst & Hsn & [[_ ->] | (a & b & g & _ & ->)])])];
    simpl.
  - split; [tauto |]. split; [| reflexivity].
    split; [discriminate |]. intros [(c & Hc & Hn) _]. exfalso. exact (Hno c Hc Hn).
  - split; [| split; [| reflexivity]].
    + split; [discriminate |]. intros H. exfalso. exact (H C HC Hnum).
    + split; [| reflexivity]. intros _. split; eauto.
  - split; [| split].
    + split; [discriminate |]. intros H. exfalso. exact (H C HC Hnum).
    + split; [discriminate |]. intros [_ H]. exfalso. exact (H st Hst Hsn).
    + intros [H | H]; discriminate H.
  - split; [| split].
    + split; [discriminate |]. intros H. exfalso. exact (H C HC Hnum).
    + split; [discriminate |]. intros [_ H]. exfalso. exact (H st Hst Hsn).
    + intros [H | H]; discriminate H.
Qed.

Lemma fillClass_not_found_iff_witness :
  fst (fillClass.retrieveOutput Scenario.grade3 "C9" "T001") = Scenario.grade3.
Proof.
  apply (proj2 (proj2 (fillClass_not_found_iff Scenario.grade3 "C9" "T001"))).
  left. vm_compute. reflexivity.
Defined.

(** X15. A class whose class type is missing.  [fillClass] answers
    "could not retrieve details" exactly when the class number and the
    staff number resolve and no class of that number has its class type
    in the class type table; the staff member has then been assigned
    to the class all the same, and no student has been enrolled. *)
Theorem fillClass_details_missing_assigns_staff :
  forall db class_number staff_number,
    let r := fillClass.retrieveOutput db class_number staff_number in
    (snd r = fillClass.DetailsNotRetrieved <->
     (exists c, In c (class db) /\ Class.Number c = class_number) /\
     (exists st, In st (staff db) /\ Staff.Number st = staff_number) /\
     forall c, In c (class db) -> Class.Number c = class_number ->
       forall ct, In ct (classtype db) -> Class.ClassTypeID c <> ClassType.ID ct)
    /\ (snd r = fillClass.DetailsNotRetrieved ->
        studenttoclass (fst r) = studenttoclass db /\
        exists C st,
          In C (class db) /\ Class.Number C = class_number /\
          In st (staff db) /\ Staff.Number st = staff_number /\
          In (StaffToClass.mk (Staff.ID st) (Class.ID C)) (stafftoclass (fst r))).
Proof.
  intros db class_number staff_number r. subst r.
  destruct (fillClass_cases db class_number staff_number)
    as [[-> Hno] | (C & HC & Hnum & _ & [[-> Hnost] | (st & Hst & Hsn & [[Hdet ->] | (a & b & g & Hdet & ->)])])];
    simpl.
  - split; [| discriminate]. split; [discriminate |].
    intros [(c & Hc & Hn) _]. exfalso. exact (Hno c Hc Hn).
  - split; [| discriminate]. split; [discriminate |].
    intros (_ & (st & Hst & Hsn) & _). exfalso. exact (Hnost st Hst Hsn).
  - split.
    + split; [| reflexivity]. intros _. split; [eauto |]. split; [eauto |].
      now apply class_details_none_iff.
    + intros _. split.
      * now destruct (insert_staff_plan_frame db (Staff.ID st) (Class.ID C))
          as (_ & _ & _ & _ & ->).
      * exists C, st. repeat split; auto. apply insert_staff_plan_In.
  - split; [| discriminate]. split; [discriminate |].
    intros (_ & _ & H). apply class_details_none_iff in H. congruence.
Qed.

Lemma fillClass_details_missing_assigns_staff_witness :
  In (StaffToClass.mk 1 3)
     (stafftoclass (fst (fillClass.retrieveOutput Edge.untyped_class "C3" "T001"))).
Proof.
  destruct (proj2 (fillClass_details_missing_assigns_staff
                     Edge.untyped_class "C3" "T001")
              ltac:(vm_compute; reflexivity))
    as (_ & C & st & HC & HnC & Hst & Hnst & Hlink).
  simpl in HC, Hst.
  destruct HC as [<- | [<- | [<- | []]]]; try discriminate HnC.
  destruct Hst as [<- | [<- | []]]; try discriminate Hnst.
  exact Hlink.
Defined.

(** What [fillClass] leaves in the two link tables, whatever way it
    ends. *)
Lemma fillClass_effect db class_number staff_number :
  let db' := fst (fillClass.retrieveOutput db class_number staff_number) in
  db' = db \/
  exists C st,
    In C (class db) /\ Class.Number C = class_number /\
    fetchone (fillClass.get_class_id_plan db class_number) = Some (Class.ID C) /\
    In st (staff db) /\ Staff.Number st = staff_number /\
    exists ns,
      (forall n, In n ns -> exists grade,
         In n (fillClass.get_eligible_students_plan db grade class_number) /\
         exists c ct, In c (class db) /\ Class.Number c = class_number /\
           In ct (classtype db) /\ Class.ClassTypeID c = ClassType.ID ct /\
           grade = LEFT1 (ClassType.ID ct)) /\
      db' = fold_left (fillClass.enroll (Class.ID C)) ns
              (fillClass.insert_staff_plan db (Staff.ID st) (Class.ID C)).
Proof.
  intros db'. subst db'.
  destruct (fillClass_cases db class_number staff_number)
    as [[-> _] | (C & HC & Hnum & Hid & [[-> _] | (st & Hst & Hsn & [[_ ->] | (a & b & g & Hdet & ->)])])];
    simpl; try (left; reflexivity); right; exists C, st; repeat split; auto.
  - exists []. split; [intros n [] | reflexivity].
  - exists (fillClass.get_eligible_students_plan db g class_number).
    split; [| reflexivity]. intros n Hn. exists g. split; [exact Hn |].
    unfold fillClass.get_class_details_plan in Hdet.
    destruct (flat_map _ _) as [|x l] eqn:E; [discriminate Hdet |].
    injection Hdet as ->.
    assert (In (a, b, g) ((a, b, g) :: l)) as Hin by now left.
    rewrite <- E in Hin. apply in_flat_map in Hin. destruct Hin as (c & Hc & Hx).
    apply filter_In in Hc. destruct Hc as [Hc Hcn]. apply String.eqb_eq in Hcn.
    apply in_map_iff in Hx. destruct Hx as (ct & [= _ _ <-] & Hct).
    apply filter_In in Hct. destruct Hct as [Hct Heq]. apply String.eqb_eq in Heq.
    exists c, ct. auto.
Qed.

Lemma insert_staff_plan_links db a b r :
  In r (stafftoclass (fillClass.insert_staff_plan db a b)) <->
  In r (stafftoclass db) \/ r = StaffToClass.mk a b.
Proof.
  unfold fillClass.insert_staff_plan. simpl.
  destruct (existsb _ _) eqn:E; simpl.
  - apply staff_link_stored in E. split; [auto | intros [H | ->]; auto].
  - rewrite in_app_iff. simpl. intuition.
Qed.

Lemma insert_staff_plan_rest db a b :
  let db' := fillClass.insert_staff_plan db a b in
  substitute db' = substitute db /\ availability db' = availability db /\
  timeoffrequest db' = timeoffrequest db /\
  timeoffrequest_id_seq db' = timeoffrequest_id_seq db.
Proof.
  unfold fillClass.insert_staff_plan. simpl. destruct (existsb _ _); simpl; auto.
Qed.

Lemma fold_enroll_rest class_id ns db :
  let db' := fold_left (fillClass.enroll class_id) ns db in
  substitute db' = substitute db /\ availability db' = availability db /\
  timeoffrequest db' = timeoffrequest db /\
  timeoffrequest_id_seq db' = timeoffrequest_id_seq db.
Proof.
  revert db. induction ns as [|n ns IH]; intros db; simpl; [auto |].
  destruct (IH (fillClass.enroll class_id db n)) as (H1 & H2 & H3 & H4).
  simpl in *. rewrite H1, H2, H3, H4. unfold fillClass.enroll.
  destruct (fetchone _); [| auto].
  unfold fillClass.insert_student_plan. destruct (existsb _ _); simpl; auto.
Qed.

(** X16. [fillClass] only adds links.  Whatever way it ends, every
    table but the two link tables is as before, no link is removed,
    every student link it adds points to a class that carries the class
    number, and every staff link it adds joins a staff member carrying
    the staff number to such a class. *)
Theorem fillClass_only_adds_links :
  forall db class_number staff_number,
    let db' := fst (fillClass.retrieveOutput db class_number staff_number) in
    (staff db' = staff db /\ substitute db' = substitute db /\
     availability db' = availability db /\
     timeoffrequest db' = timeoffrequest db /\
     timeoffrequest_id_seq db' = timeoffrequest_id_seq db /\
     classtype db' = classtype db /\ class db' = class db /\
     student db' = student db)
    /\ (forall r, In r (studenttoclass db) -> In r (studenttoclass db'))
    /\ (forall r, In r (stafftoclass db) -> In r (stafftoclass db'))
    /\ (forall r, In r (studenttoclass db') -> ~ In r (studenttoclass db) ->
          exists C, In C (class db) /\ Class.Number C = class_number /\
            StudentToClass.ClassID r = Class.ID C)
    /\ (forall r, In r (stafftoclass db') -> ~ In r (stafftoclass db) ->
          exists C st, In C (class db) /\ Class.Number C = class_number /\
            In st (staff db) /\ Staff.Number st = staff_number /\
            r = StaffToClass.mk (Staff.ID st) (Class.ID C)).
Proof.
  intros db class_number staff_number db'.
  destruct (fillClass_effect db class_number staff_number)
    as [Hsame | (C & st & HC & Hnum & _ & Hst & Hsn & ns & _ & Hdb')];
    fold db' in Hsame || fold db' in Hdb'.
  - rewrite Hsame. repeat split; auto; intros r H Hn; contradiction.
  - rewrite Hdb'.
    destruct (fold_enroll_frame (Class.ID C) ns
                (fillClass.insert_staff_plan db (Staff.ID st) (Class.ID C)))
      as (F1 & F2 & F3 & F4 & F5).
    destruct (fold_enroll_rest (Class.ID C) ns
                (fillClass.insert_staff_plan db (Staff.ID st) (Class.ID C)))
      as (G1 & G2 & G3 & G4).
    destruct (insert_staff_plan_frame db (Staff.ID st) (Class.ID C))
      as (E1 & E2 & E3 & E4 & E5).
    destruct (insert_staff_plan_rest db (Staff.ID st) (Class.ID C))
      as (K1 & K2 & K3 & K4).
    simpl in *. split; [repeat split; congruence |]. split; [| split; [| split]].
    + intros r Hr. apply fold_enroll_In. left. now rewrite E5.
    + intros r Hr. rewrite F5. apply insert_staff_plan_links. now left.
    + intros r Hr Hnew. apply fold_enroll_In in Hr. rewrite E5 in Hr.
      destruct Hr as [Hr | (n & sid & _ & _ & ->)]; [contradiction |].
      exists C. auto.
    + intros r Hr Hnew. rewrite F5 in Hr. apply insert_staff_plan_links in Hr.
      destruct Hr as [Hr | ->]; [contradiction |].
      exists C, st. auto.
Qed.

Lemma fillClass_only_adds_links_witness :
  In (StudentToClass.mk 101 1)
     (studenttoclass (fst (fillClass.retrieveOutput Scenario.grade3 "C2" "T001"))).
Proof.
  apply (proj1 (proj2 (fillClass_only_adds_links Scenario.grade3 "C2" "T001"))).
  now left.
Defined.

(** ** fillClass: invariants of the link tables *)

(** The student links that [fillClass] adds are links of eligible
    students to the class of the number. *)
Lemma fillClass_new_links db class_number staff_number r :
  NoDup (map Class.Number (class db)) ->
  NoDup (map Student.Number (student db)) ->
  In r (studenttoclass
          (fst (fillClass.retrieveOutput db class_number staff_number))) ->
  In r (studenttoclass db) \/
  exists C s, In C (class db) /\ Class.Number C = class_number /\
    In s (student db) /\ eligible db C s /\
    r = StudentToClass.mk (Student.ID s) (Class.ID C).
Proof.
  intros Hcn Hsn Hr.
  destruct (fillClass_effect db class_number staff_number)
    as [Hsame | (C & st & HC & Hnum & _ & _ & _ & ns & Hns & Hdb')];
    simpl in *.
  - rewrite Hsame in Hr. now left.
  - rewrite Hdb' in Hr. apply fold_enroll_In in Hr.
    destruct (insert_staff_plan_frame db (Staff.ID st) (Class.ID C))
      as (_ & _ & _ & E4 & E5). simpl in E4, E5.
    rewrite E5 in Hr. destruct Hr as [Hr | (n & sid & Hn & Hsid & ->)];
      [now left | right].
    destruct (Hns n Hn) as (grade & Hel & c & ct & Hc & Hcnum & _ & Hty & ->).
    assert (c = C) as ->
      by (apply (NoDup_map_inj_In Class.Number (class db)); auto; congruence).
    unfold fillClass.get_eligible_students_plan in Hel.
    apply in_map_iff in Hel. destruct Hel as (s & <- & Hs).
    apply filter_In in Hs. destruct Hs as [Hs Hsel].
    rewrite <- Hty, <- Hnum in Hsel. fold (derived_grade C) in Hsel.
    apply eligible_selected in Hsel; auto.
    unfold fillClass.get_student_id_plan in Hsid. rewrite E4 in Hsid.
    fold (fillClass.get_student_id_plan db (Student.Number s)) in Hsid.
    rewrite (student_id_resolves db s Hs Hsn) in Hsid. injection Hsid as <-.
    exists C, s. auto.
Qed.

Lemma class_row_eq_dec (c1 c2 : Class.row) : c1 = c2 \/ c1 <> c2.
Proof.
  destruct c1 as [a1 b1 c1 d1 e1 f1], c2 as [a2 b2 c2 d2 e2 f2].
  destruct (Z.eq_dec a1 a2) as [-> | H]; [| right; congruence].
  destruct (string_dec b1 b2) as [-> | H]; [| right; congruence].
  destruct (string_dec c1 c2) as [-> | H]; [| right; congruence].
  destruct (string_dec d1 d2) as [-> | H]; [| right; congruence].
  destruct (Z.eq_dec e1 e2) as [-> | H]; [| right; congruence].
  destruct (Z.eq_dec f1 f2) as [-> | H]; [| right; congruence].
  now left.
Qed.

(** X18. Homeroom exclusivity is kept.  With class numbers, class ids
    and student numbers unique: when no student id is linked to two
    different homeroom classes before [fillClass], none is after it,
    whichever class is filled. *)
Theorem fillClass_keeps_one_homeroom_each :
  forall db class_number staff_number,
    NoDup (map Class.Number (class db)) ->
    NoDup (map Class.ID (class db)) ->
    NoDup (map Student.Number (student db)) ->
    one_homeroom_each db ->
    one_homeroom_each
      (fst (fillClass.retrieveOutput db class_number staff_number)).
Proof.
  intros db class_number staff_number Hcn Hci Hsn Hinv.
  assert (Hclass : class (fst (fillClass.retrieveOutput db class_number
                                 staff_number)) = class db).
  { destruct (fillClass_effect db class_number staff_number)
      as [-> | (C & st & _ & _ & _ & _ & _ & ns & _ & ->)]; [reflexivity |].
    destruct (fold_enroll_frame (Class.ID C) ns
                (fillClass.insert_staff_plan db (Staff.ID st) (Class.ID C)))
      as (_ & -> & _).
    now destruct (insert_staff_plan_frame db (Staff.ID st) (Class.ID C))
      as (_ & -> & _). }
  intros sid c1 c2 Hc1 Hc2 Hh1 Hh2 L1 L2. rewrite Hclass in Hc1, Hc2.
  apply (fillClass_new_links db class_number staff_number _ Hcn Hsn) in L1.
  apply (fillClass_new_links db class_number staff_number _ Hcn Hsn) in L2.
  assert (Hnew : forall c C s,
            In c (class db) -> In C (class db) ->
            StudentToClass.mk sid (Class.ID c) =
              StudentToClass.mk (Student.ID s) (Class.ID C) ->
            c = C /\ Student.ID s = sid).
  { intros c C s Hc HC [= -> Hid]. split; [| reflexivity].
    apply (NoDup_map_inj_In Class.ID (class db)); auto. }
  assert (Hold : forall c C s,
            In c (class db) -> homeroom c -> eligible db C s ->
            Student.ID s = sid ->
            In (StudentToClass.mk sid (Class.ID c)) (studenttoclass db) ->
            c = C).
  { intros c C s Hc Hh [_ Hel] <- Hlink.
    destruct (class_row_eq_dec c C) as [-> | Hne]; [reflexivity |].
    exfalso. apply Hel. exists c. auto. }
  destruct L1 as [L1 | (C & s & HC & HnC & _ & Hel & L1)],
           L2 as [L2 | (C' & s' & HC' & HnC' & _ & Hel' & L2)].
  - exact (Hinv sid c1 c2 Hc1 Hc2 Hh1 Hh2 L1 L2).
  - destruct (Hnew c2 C' s' Hc2 HC' L2) as [-> Hid].
    exact (Hold c1 C' s' Hc1 Hh1 Hel' Hid L1).
  - destruct (Hnew c1 C s Hc1 HC L1) as [-> Hid].
    symmetry. exact (Hold c2 C s Hc2 Hh2 Hel Hid L2).
  - destruct (Hnew c1 C s Hc1 HC L1) as [-> _].
    destruct (Hnew c2 C' s' Hc2 HC' L2) as [-> _].
    apply (NoDup_map_inj_In Class.Number (class db)); auto. congruence.
Qed.

Lemma fillClass_keeps_one_homeroom_each_witness :
  one_homeroom_each
    (fst (fillClass.retrieveOutput Scenario.grade3 "C2" "T001")).
Proof.
  apply (fillClass_keeps_one_homeroom_each Scenario.grade3 "C2" "T001").
  - repeat constructor; simpl; intuition discriminate.
  - repeat constructor; simpl; intuition discriminate.
  - repeat constructor; simpl; intuition discriminate.
  - intros sid c1 c2 Hc1 Hc2 _ _ L1 L2. simpl in *.
    destruct L1 as [L1 | []], L2 as [L2 | []].
    destruct Hc1 as [<- | [<- | []]], Hc2 as [<- | [<- | []]];
      try reflexivity; discriminate.
Defined.

(** ** fillClass: the roster *)

Lemma student_lookup_first db (s : Student.row) :
  In s (student db) ->
  exists s1, In s1 (student db) /\ Student.Number s1 = Student.Number s /\
    fetchone (fillClass.get_student_id_plan db (Student.Number s)) =
      Some (Student.ID s1).
Proof.
  intros Hs.
  destruct (fetchone_In (fillClass.get_student_id_plan db (Student.Number s))
              (Student.ID s)) as [y Hy].
  { unfold fillClass.get_student_id_plan. apply in_map, filter_In.
    split; [exact Hs | apply String.eqb_refl]. }
  destruct (fetchone_map_filter_some _ _ _ _ Hy) as (s1 & Hs1 & Hp & ->).
  apply String.eqb_eq in Hp. exists s1. auto.
Qed.

Lemma roster_student db class_number (s : Student.row) (c : Class.row) :
  In s (student db) -> In c (class db) -> Class.Number c = class_number ->
  In (StudentToClass.mk (Student.ID s) (Class.ID c)) (studenttoclass db) ->
  In (Student.Number s, "student"%string)
     (fillClass.get_class_assignments_plan db class_number).
Proof.
  intros Hs Hc Hn Hlink. unfold fillClass.get_class_assignments_plan.
  apply in_or_app. left. apply in_flat_map. exists s. split; [exact Hs |].
  apply in_flat_map. exists (StudentToClass.mk (Student.ID s) (Class.ID c)).
  split.
  - apply filter_In. split; [exact Hlink | simpl; apply Z.eqb_refl].
  - apply in_map_iff. exists c. split; [reflexivity |].
    apply filter_In. split; [exact Hc |]. simpl. rewrite Z.eqb_refl. simpl.
    now apply String.eqb_eq.
Qed.

Lemma roster_staff db class_number (st : Staff.row) (c : Class.row) :
  In st (staff db) -> In c (class db) -> Class.Number c = class_number ->
  In (StaffToClass.mk (Staff.ID st) (Class.ID c)) (stafftoclass db) ->
  In (Staff.Number st, "staff"%string)
     (fillClass.get_class_assignments_plan db class_number).
Proof.
  intros Hs Hc Hn Hlink. unfold fillClass.get_class_assignments_plan.
  apply in_or_app. right. apply in_flat_map. exists st. split; [exact Hs |].
  apply in_flat_map. exists (StaffToClass.mk (Staff.ID st) (Class.ID c)).
  split.
  - apply filter_In. split; [exact Hlink | simpl; apply Z.eqb_refl].
  - apply in_map_iff. exists c. split; [reflexivity |].
    apply filter_In. split; [exact Hc |]. simpl. rewrite Z.eqb_refl. simpl.
    now apply String.eqb_eq.
Qed.

Lemma roster_types db class_number row :
  In row (fillClass.get_class_assignments_plan db class_number) ->
  snd row = "student"%string \/ snd row = "staff"%string.
Proof.
  unfold fillClass.get_class_assignments_plan. intros H.
  apply in_app_or in H. destruct H as [H | H]; [left | right];
    apply in_flat_map in H; destruct H as (x & _ & H);
    apply in_flat_map in H; destruct H as (y & _ & H);
    apply in_map_iff in H; destruct H as (c & <- & _); reflexivity.
Qed.

(** X19. The roster that a successful [fillClass] returns: it lists the
    staff number that was given, as staff; it lists, as a student, the
    number of every student eligible for the class (class numbers being
    unique); and every entry is tagged "student" or "staff". *)
Theorem fillClass_roster_lists_staff_and_eligible :
  forall db class_number staff_number l,
    NoDup (map Class.Number (class db)) ->
    snd (fillClass.retrieveOutput db class_number staff_number) =
      fillClass.Assignments l ->
    In (fillClass.mk_assignment staff_number "staff") l
    /\ (forall C s, In C (class db) -> Class.Number C = class_number ->
          In s (student db) -> eligible db C s ->
          In (fillClass.mk_assignment (Student.Number s) "student") l)
    /\ (forall a, In a l ->
          fillClass.type a = "student"%string \/ fillClass.type a = "staff"%string).
Proof.
  intros db class_number staff_number l Hcn Hr.
  destruct (fillClass_cases db class_number staff_number)
    as [[Hr' _] | (C & HC & Hnum & _ & [[Hr' _] | (st & Hst & Hsn & [[_ Hr'] | (a & b & g & Hdet & Hr')])])];
    rewrite Hr' in Hr; try discriminate Hr.
  simpl in Hr. injection Hr as <-. clear Hr'. subst class_number.
  set (class_number := Class.Number C) in *.
  set (db1 := fillClass.insert_staff_plan db (Staff.ID st) (Class.ID C)) in *.
  set (ns := fillClass.get_eligible_students_plan db g class_number) in *.
  set (db2 := fold_left (fillClass.enroll (Class.ID C)) ns db1) in *.
  destruct (fold_enroll_frame (Class.ID C) ns db1) as (F1 & F2 & F3 & F4 & F5).
  destruct (insert_staff_plan_frame db (Staff.ID st) (Class.ID C))
    as (E1 & E2 & E3 & E4 & E5).
  fold db1 in E1, E2, E3, E4, E5. fold db2 in F1, F2, F3, F4, F5.
  assert (Hg : g = derived_grade C).
  { unfold class_number in Hdet.
    rewrite (class_details_resolve db C HC) in Hdet.
    - congruence.
    - exact Hcn.
    - destruct (fetchone (fillClass.get_class_details_plan db (Class.Number C)))
        eqn:E; [| discriminate Hdet].
      destruct (filter (fun ct => (Class.ClassTypeID C =? ClassType.ID ct)%string)
                  (classtype db)) as [|ct rest] eqn:Ect.
      + exfalso. unfold fillClass.get_class_details_plan in E.
        rewrite (filter_key_unique Class.Number _ C HC Hcn) in E.
        simpl in E. rewrite Ect in E. discriminate E.
      + exists ct.
        assert (In ct (filter (fun ct =>
                         (Class.ClassTypeID C =? ClassType.ID ct)%string)
                         (classtype db))) as Hin by (rewrite Ect; now left).
        apply filter_In in Hin. destruct Hin as [Hin Heq].
        apply String.eqb_eq in Heq. auto. }
  split; [| split].
  - apply in_map_iff. exists (Staff.Number st, "staff"%string).
    split; [simpl; now rewrite Hsn |].
    apply (roster_staff db2 class_number st C).
    + now rewrite F1, E1.
    + now rewrite F2, E2.
    + reflexivity.
    + rewrite F5. apply insert_staff_plan_In.
  - intros C' s HC' Hnum' Hs Hel.
    assert (C' = C) as ->
      by (apply (NoDup_map_inj_In Class.Number (class db)); auto; congruence).
    destruct (student_lookup_first db s Hs) as (s1 & Hs1 & Hn1 & Hlook).
    apply in_map_iff. exists (Student.Number s1, "student"%string).
    split; [simpl; now rewrite Hn1 |].
    apply (roster_student db2 class_number s1 C);
      [now rewrite F4, E4 | now rewrite F2, E2 | reflexivity |].
    apply (fold_enroll_In (Class.ID C) ns db1). right.
    exists (Student.Number s), (Student.ID s1). split; [| split; [| reflexivity]].
    + unfold ns, fillClass.get_eligible_students_plan. apply in_map, filter_In.
      split; [exact Hs |]. rewrite Hg. now apply eligible_selected.
    + unfold fillClass.get_student_id_plan in *. now rewrite E4.
  - intros x Hx. apply in_map_iff in Hx. destruct Hx as (row & <- & Hrow).
    simpl. exact (roster_types _ _ _ Hrow).
Qed.

Lemma fillClass_roster_lists_staff_and_eligible_witness :
  exists l,
    snd (fillClass.retrieveOutput Scenario.grade3 "C2" "T001") =
      fillClass.Assignments l
    /\ In (fillClass.mk_assignment "ST102" "student") l.
Proof.
  eexists. split; [vm_compute; reflexivity |].
  apply (proj1 (proj2 (fillClass_roster_lists_staff_and_eligible
                         Scenario.grade3 "C2" "T001" _
                         ltac:(repeat constructor; simpl; intuition discriminate)
                         ltac:(vm_compute; reflexivity)))
          Scenario.C2 Scenario.S2).
  - right. now left.
  - reflexivity.
  - right. now left.
  - split; [reflexivity |]. intros (c & Hc & _ & Hne & Henr).
    simpl in Henr. destruct Henr as [Henr | []].
    destruct Hc as [<- | [<- | []]]; discriminate Henr.
Defined.

(** * Properties of the other modules *)

(** ** listAllRooms *)

(** X20. [listAllRooms] returns the rooms in ascending order of their
    number; a room is listed exactly when it is in the table and, if a
    minimum capacity is given, its capacity is at least that; and no
    room is listed more often than it is stored. *)
Theorem listAllRooms_sorted_and_filtered :
  forall (room : list Room.row) (filter_capacity : option Z),
    let result := listAllRooms.retrieveOutput room filter_capacity in
    StronglySorted
      (fun x y => String.compare (listAllRooms.number x) (listAllRooms.number y)
                  <> Gt) result
    /\ (forall e, In e result <->
          exists r, In r room /\
            (forall n, filter_capacity = Some n -> Room.Capacity r >= n) /\
            e = listAllRooms.mk_room_entry (Room.Number r) (Room.Capacity r)
                  (Room.PhoneNumber r))
    /\ (filter_capacity = None ->
        Permutation result
          (map (fun r => listAllRooms.mk_room_entry (Room.Number r)
                           (Room.Capacity r) (Room.PhoneNumber r)) room)).
Proof.
  intros room filter_capacity result. subst result.
  unfold listAllRooms.retrieveOutput, listAllRooms.list_all_rooms_plan.
  rewrite map_map. simpl.
  set (p := fun r : Room.row => match filter_capacity with
                                | Some n => Room.Capacity r >=? n
                                | None => true
                                end).
  assert (Hp : forall r, p r = true <->
            forall n, filter_capacity = Some n -> Room.Capacity r >= n).
  { intros r. unfold p. destruct filter_capacity as [n|].
    - rewrite Z.geb_le. split.
      + intros H m [= <-]. lia.
      + intros H. specialize (H n eq_refl). lia.
    - split; [intros _ n H; discriminate H | reflexivity]. }
  split; [| split].
  - apply StronglySorted_map. simpl. apply Sorted_StronglySorted.
    + intros x y z. apply compare_not_Gt_trans.
    + eapply Sorted_weaken; [| apply (ORDER_BY_Sorted listAllRooms.room_leb)].
      * intros x y H. unfold listAllRooms.room_leb, String.leb in H.
        destruct (String.compare (Room.Number x) (Room.Number y));
          congruence.
      * intros x y. unfold listAllRooms.room_leb. intros H.
        destruct (String.leb_total (Room.Number x) (Room.Number y)); congruence.
  - intros e. rewrite in_map_iff. split.
    + intros (r & <- & Hr).
      apply (Permutation_in _ (ORDER_BY_perm _ _)) in Hr.
      apply filter_In in Hr. destruct Hr as [Hr Hc]. exists r.
      split; [exact Hr |]. split; [now apply Hp | reflexivity].
    + intros (r & Hr & Hc & ->). exists r. split; [reflexivity |].
      apply (Permutation_in _ (Permutation_sym (ORDER_BY_perm _ _))).
      apply filter_In. split; [exact Hr | now apply Hp].
  - intros Hnone. apply Permutation_map.
    eapply perm_trans; [apply ORDER_BY_perm |].
    rewrite filter_all; [apply Permutation_refl |].
    intros r _. unfold p. now rewrite Hnone.
Qed.

Lemma listAllRooms_sorted_and_filtered_witness :
  map listAllRooms.number
    (listAllRooms.retrieveOutput
       [Room.mk "R200" 30 None; Room.mk "R100" 20 (Some "555-0100"%string);
        Room.mk "R150" 12 None] (Some 20)) = ["R100"; "R200"]%string
  /\ Permutation
       (listAllRooms.retrieveOutput
          [Room.mk "R200" 30 None; Room.mk "R100" 20 (Some "555-0100"%string)]
          None)
       [listAllRooms.mk_room_entry "R200" 30 None;
        listAllRooms.mk_room_entry "R100" 20 (Some "555-0100"%string)].
Proof.
  split; [vm_compute; reflexivity |].
  apply (proj2 (proj2 (listAllRooms_sorted_and_filtered
                         [Room.mk "R200" 30 None;
                          Room.mk "R100" 20 (Some "555-0100"%string)] None))).
  reflexivity.
Defined.

(** ** The menu of the driver *)

(** X21. Every choice from 1 to 12 of the menu runs an API that
    [API_Interaction] knows, so that [execute_api] never answers "not
    found" for the driver; every other integer runs nothing; and each
    API of [API_Interaction] is run by some choice. *)
Theorem driver_menu_reaches_every_api :
  (forall choice, 1 <= choice <= 12 ->
     exists selected_api,
       nth_error driver.available_apis (Z.to_nat (choice - 1)) = Some selected_api /\
       driver.choose choice = Some selected_api /\
       In selected_api API_Interaction.api_classes)
  /\ (forall choice, choice < 1 \/ 12 < choice -> driver.choose choice = None)
  /\ (forall api_name, In api_name API_Interaction.api_classes ->
        exists choice, 1 <= choice <= 12 /\ driver.choose choice = Some api_name).
Proof.
  split; [| split].
  - intros choice Hc.
    assert (choice = 1 \/ choice = 2 \/ choice = 3 \/ choice = 4 \/
            choice = 5 \/ choice = 6 \/ choice = 7 \/ choice = 8 \/
            choice = 9 \/ choice = 10 \/ choice = 11 \/ choice = 12) as H by lia.
    repeat (destruct H as [-> | H]); try subst choice;
      eexists; (split; [reflexivity |]); (split; [reflexivity |]);
      simpl; tauto.
  - intros choice Hc. unfold driver.choose.
    destruct ((1 <=? choice) &&
              (choice <=? Z.of_nat (List.length driver.available_apis))) eqn:E;
      [| reflexivity].
    apply andb_true_iff in E. destruct E as [E1 E2].
    apply Z.leb_le in E1, E2. simpl in E2. lia.
  - intros api_name Hin. simpl in Hin.
    repeat (destruct Hin as [<- | Hin]); try contradiction.
    + exists 5. split; [lia | reflexivity].
    + exists 7. split; [lia | reflexivity].
    + exists 8. split; [lia | reflexivity].
    + exists 9. split; [lia | reflexivity].
    + exists 10. split; [lia | reflexivity].
    + exists 4. split; [lia | reflexivity].
    + exists 11. split; [lia | reflexivity].
    + exists 2. split; [lia | reflexivity].
    + exists 6. split; [lia | reflexivity].
    + exists 3. split; [lia | reflexivity].
    + exists 12. split; [lia | reflexivity].
    + exists 1. split; [lia | reflexivity].
Qed.

Lemma driver_menu_reaches_every_api_witness :
  driver.choose 10 = Some "addClass"%string /\ driver.choose 13 = None.
Proof.
  split.
  - destruct (proj1 driver_menu_reaches_every_api 10 ltac:(lia))
      as (a & Hn & Hc & _).
    vm_compute in Hn. injection Hn as <-. exact Hc.
  - apply (proj1 (proj2 driver_menu_reaches_every_api)). right. lia.
Defined.

(** ** extract_schema *)

Lemma length_substring (s : string) (n m : nat) :
  String.length (String.substring n m s) =
  Nat.min m (String.length s - n).
Proof.
  revert n m. induction s as [|a s IH]; intros n m.
  - destruct n, m; reflexivity.
  - destruct n as [|n].
    + destruct m as [|m]; simpl; [reflexivity |].
      rewrite IH, Nat.sub_0_r. reflexivity.
    + simpl. apply IH.
Qed.

Lemma substring_zero (s : string) (n : nat) : String.substring n 0 s = EmptyString.
Proof.
  revert n. induction s as [|a s IH]; intros [|n]; simpl; auto.
Qed.

Lemma substring_substring (s : string) (n m p k : nat) :
  (p + k <= m)%nat ->
  String.substring p k (String.substring n m s) = String.substring (n + p) k s.
Proof.
  revert n m p k. induction s as [|a s IH]; intros n m p k H.
  - destruct n, m, p, k; reflexivity.
  - destruct n as [|n]; simpl.
    + destruct m as [|m].
      * assert (p = 0 /\ k = 0)%nat as [-> ->] by lia. reflexivity.
      * destruct p as [|p].
        -- destruct k as [|k]; simpl; [reflexivity |].
           f_equal. apply (IH 0%nat m 0%nat k). lia.
        -- simpl. apply (IH 0%nat m p k). lia.
    + apply IH. exact H.
Qed.

Lemma occurrence_fits (sub s : string) (p : nat) :
  occurs_at sub s p -> sub <> EmptyString ->
  (p + String.length sub <= String.length s)%nat.
Proof.
  intros Hocc Hne. unfold occurs_at in Hocc.
  assert (String.length sub = Nat.min (String.length sub) (String.length s - p))
    as Hlen by (rewrite <- length_substring; now rewrite Hocc).
  assert (0 < String.length sub)%nat as Hpos
    by (destruct sub; [congruence | simpl; lia]).
  lia.
Qed.

Lemma index_ge (n m : nat) (s1 s2 : string) :
  String.index n s1 s2 = Some m -> (n <= m)%nat.
Proof.
  revert n m. induction s2 as [|b s2 IH]; intros n m; simpl.
  - destruct n; [| discriminate]. intros _. lia.
  - destruct n as [|n]; [intros _; lia |].
    destruct (String.index n s1 s2) as [k|] eqn:E; [| discriminate].
    intros [= <-]. apply IH in E. lia.
Qed.

Lemma index_first (sub s : string) (n p : nat) :
  sub <> EmptyString -> first_at_or_after sub s n p ->
  String.index n sub s = Some p.
Proof.
  intros Hne (Hnp & Hocc & Hfirst).
  destruct (String.index n sub s) as [m|] eqn:E.
  - f_equal. pose proof (index_ge _ _ _ _ E) as Hnm.
    pose proof (String.index_correct1 _ _ _ _ E) as Hm.
    pose proof (String.index_correct2 _ _ _ _ E) as Hbefore.
    destruct (Nat.lt_trichotomy m p) as [Hlt | [Heq | Hgt]]; [| exact Heq |].
    + exfalso. exact (Hfirst m Hnm Hlt Hm).
    + exfalso. exact (Hbefore p Hnp Hgt Hocc).
  - exfalso. exact (String.index_correct3 n p sub s E Hne Hnp Hocc).
Qed.

Lemma find_first (s sub : string) (n p : nat) :
  sub <> EmptyString -> first_at_or_after sub s n p ->
  extract_schema.find s sub (Z.of_nat n) = Z.of_nat p.
Proof.
  intros Hne Hfirst. pose proof Hfirst as (Hnp & Hocc & _).
  pose proof (occurrence_fits sub s p Hocc Hne) as Hfit.
  unfold extract_schema.find, extract_schema.adjust_start, extract_schema.len.
  destruct (Z.ltb_spec (Z.of_nat n) 0) as [Hneg | _]; [lia |].
  destruct (Z.ltb_spec (Z.of_nat (String.length s) - Z.of_nat n)
              (Z.of_nat (String.length sub))) as [Hshort | _]; [lia |].
  rewrite Nat2Z.id, (index_first sub s n p Hne Hfirst). reflexivity.
Qed.

Lemma find_none (s sub : string) (n : nat) :
  (forall p, (n <= p)%nat -> ~ occurs_at sub s p) ->
  extract_schema.find s sub (Z.of_nat n) = -1.
Proof.
  intros Hnone.
  unfold extract_schema.find, extract_schema.adjust_start.
  destruct (Z.ltb_spec (Z.of_nat n) 0) as [Hneg | _]; [lia |].
  destruct (_ <? _); [reflexivity |].
  rewrite Nat2Z.id.
  destruct (String.index n sub s) as [m|] eqn:E; [| reflexivity].
  exfalso. apply (Hnone m (index_ge _ _ _ _ E)).
  exact (String.index_correct1 _ _ _ _ E).
Qed.

Lemma find_from_minus_one (s sub : string) :
  (2 <= String.length sub)%nat -> extract_schema.find s sub (-1) = -1.
Proof.
  intros Hlen. unfold extract_schema.find, extract_schema.adjust_start,
    extract_schema.len.
  change (-1 <? 0) with true. cbv iota.
  destruct (Z.ltb_spec
              (Z.of_nat (String.length s) -
               Z.max (-1 + Z.of_nat (String.length s)) 0)
              (Z.of_nat (String.length sub))) as [_ | H]; [reflexivity | lia].
Qed.

(** X22. The schema found.  When ['BEGIN;'] first occurs in the content
    at position [b] and ['COMMIT;'] first occurs at or after [b] at
    position [c], the text written is the part of the content from [b]
    to the end of that ['COMMIT;']: it has [c + 7 - b] characters,
    begins with ['BEGIN;'] and ends with ['COMMIT;']. *)
Theorem extract_schema_begin_to_commit :
  forall (content : string) (b c : nat),
    first_at_or_after "BEGIN;" content 0 b ->
    first_at_or_after "COMMIT;" content b c ->
    let text := extract_schema.schema_sql content in
    text = String.substring b (c + 7 - b) content
    /\ String.length text = (c + 7 - b)%nat
    /\ String.substring 0 6 text = "BEGIN;"%string
    /\ String.substring (c - b) 7 text = "COMMIT;"%string.
Proof.
  intros content b c Hb Hc text.
  pose proof Hb as (_ & Hob & _). pose proof Hc as (Hbc & Hoc & _).
  pose proof (occurrence_fits _ _ _ Hoc ltac:(discriminate)) as Hfit.
  simpl in Hfit.
  assert (Htext : text = String.substring b (c + 7 - b) content).
  { subst text. unfold extract_schema.schema_sql.
    pose proof (find_first content "BEGIN;" 0 b ltac:(discriminate) Hb) as Hfb.
    change (Z.of_nat 0) with 0 in Hfb. rewrite Hfb.
    rewrite (find_first content "COMMIT;" b c ltac:(discriminate) Hc).
    unfold extract_schema.slice, extract_schema.adjust_slice, extract_schema.len.
    simpl String.length.
    destruct (Z.ltb_spec (Z.of_nat b) 0) as [H | _]; [lia |].
    destruct (Z.ltb_spec (Z.of_nat c + Z.of_nat 7) 0) as [H | _]; [lia |].
    rewrite !Z.min_l by lia. rewrite Nat2Z.id. f_equal. lia. }
  split; [exact Htext |]. rewrite Htext. split; [| split].
  - rewrite length_substring. lia.
  - rewrite substring_substring by lia. rewrite Nat.add_0_r. exact Hob.
  - rewrite substring_substring by lia.
    replace (b + (c - b))%nat with c by lia. exact Hoc.
Qed.

Lemma extract_schema_begin_to_commit_witness :
  extract_schema.schema_sql "-- dump BEGIN; CREATE TABLE t(); COMMIT; COPY t"
  = "BEGIN; CREATE TABLE t(); COMMIT;"%string.
Proof.
  destruct (extract_schema_begin_to_commit
              "-- dump BEGIN; CREATE TABLE t(); COMMIT; COPY t" 8 33) as [H _].
  - split; [lia |]. split; [reflexivity |].
    intros q _ Hq.
    do 8 (destruct q as [|q]; [vm_compute; discriminate |]). lia.
  - split; [lia |]. split; [reflexivity |].
    intros q Hq1 Hq2.
    do 33 (destruct q as [|q]; [try lia; vm_compute; discriminate |]). lia.
  - rewrite H. reflexivity.
Defined.

(** X23. No ['BEGIN;'] in the content.  Both searches then answer
    [-1], the slice taken is [content[-1:6]], and the text written is
    empty for an empty content and for a content of more than six
    characters, and is the last character of a content of one to six
    characters. *)
Theorem extract_schema_without_begin :
  forall content : string,
    (forall p, ~ occurs_at "BEGIN;" content p) ->
    extract_schema.schema_sql content = extract_schema.slice content (-1) 6
    /\ extract_schema.schema_sql content =
       if ((0 <? String.length content) && (String.length content <=? 6))%nat
       then String.substring (String.length content - 1) 1 content
       else EmptyString.
Proof.
  intros content Hnone.
  assert (Hsql : extract_schema.schema_sql content =
                 extract_schema.slice content (-1) 6).
  { unfold extract_schema.schema_sql.
    pose proof (find_none content "BEGIN;" 0 (fun p _ => Hnone p)) as H.
    change (Z.of_nat 0) with 0 in H. rewrite H.
    rewrite find_from_minus_one by (simpl; lia). reflexivity. }
  split; [exact Hsql |]. rewrite Hsql.
  unfold extract_schema.slice, extract_schema.adjust_slice, extract_schema.len.
  change (-1 <? 0) with true. change (6 <? 0) with false. cbv iota.
  destruct (Nat.ltb_spec 0 (String.length content)) as [Hpos | Hzero];
    [destruct (Nat.leb_spec (String.length content) 6) as [Hshort | Hlong] |];
    simpl andb; cbv iota.
  - rewrite Z.max_l, Z.min_r by lia. f_equal; lia.
  - rewrite Z.max_l, Z.min_l by lia.
    replace (Z.to_nat (6 - (-1 + Z.of_nat (String.length content)))) with 0%nat
      by lia.
    apply substring_zero.
  - assert (String.length content = 0)%nat as Hlen by lia.
    destruct content; [reflexivity | discriminate Hlen].
Qed.

Lemma extract_schema_without_begin_witness :
  extract_schema.schema_sql "CREATE TABLE t();" = EmptyString
  /\ extract_schema.schema_sql "abc" = "c"%string.
Proof.
  assert (Hnone : forall (s : string) (n : nat),
            (forall p, (p <= n)%nat -> String.substring p 6 s <> "BEGIN;"%string) ->
            (String.length s <= n + 6)%nat ->
            forall p, ~ occurs_at "BEGIN;" s p).
  { intros s n Hsmall Hlen p Hocc.
    destruct (Nat.le_gt_cases p n) as [Hp | Hp]; [exact (Hsmall p Hp Hocc) |].
    pose proof (occurrence_fits _ _ _ Hocc ltac:(discriminate)). simpl in *. lia. }
  split.
  - assert (H1 : forall p, ~ occurs_at "BEGIN;" "CREATE TABLE t();" p).
    { apply (Hnone "CREATE TABLE t();"%string 11%nat); [| simpl; lia].
      intros p Hp.
      do 12 (destruct p as [|p]; [vm_compute; discriminate |]). lia. }
    rewrite (proj2 (extract_schema_without_begin "CREATE TABLE t();" H1)).
    reflexivity.
  - assert (H2 : forall p, ~ occurs_at "BEGIN;" "abc" p).
    { apply (Hnone "abc"%string 0%nat); [| simpl; lia].
      intros p Hp. destruct p as [|p]; [vm_compute; discriminate | lia]. }
    rewrite (proj2 (extract_schema_without_begin "abc" H2)).
    reflexivity.
Defined.

(** X24. ['BEGIN;'] without a ['COMMIT;'] after it.  When ['BEGIN;']
    first occurs at position [b] and ['COMMIT;'] occurs nowhere at or
    after [b], the end of the slice is [-1 + 7 = 6]: the text written
    is [content[b:6]], which is ['BEGIN;'] itself when the content
    begins with it and is empty as soon as [b] is six or more. *)
Theorem extract_schema_without_commit :
  forall (content : string) (b : nat),
    first_at_or_after "BEGIN;" content 0 b ->
    (forall p, (b <= p)%nat -> ~ occurs_at "COMMIT;" content p) ->
    extract_schema.schema_sql content = String.substring b (6 - b) content
    /\ (b = 0%nat -> extract_schema.schema_sql content = "BEGIN;"%string)
    /\ ((6 <= b)%nat -> extract_schema.schema_sql content = EmptyString).
Proof.
  intros content b Hb Hnone. pose proof Hb as (_ & Hob & _).
  pose proof (occurrence_fits _ _ _ Hob ltac:(discriminate)) as Hfit.
  simpl in Hfit.
  assert (Hsql : extract_schema.schema_sql content =
                 String.substring b (6 - b) content).
  { unfold extract_schema.schema_sql.
    pose proof (find_first content "BEGIN;" 0 b ltac:(discriminate) Hb) as Hfb.
    change (Z.of_nat 0) with 0 in Hfb. rewrite Hfb.
    rewrite (find_none content "COMMIT;" b Hnone).
    unfold extract_schema.slice, extract_schema.adjust_slice, extract_schema.len.
    simpl String.length. change (-1 + Z.of_nat 7 <? 0) with false. cbv iota.
    destruct (Z.ltb_spec (Z.of_nat b) 0) as [H | _]; [lia |].
    rewrite !Z.min_l by lia. rewrite Nat2Z.id. f_equal. lia. }
  split; [exact Hsql |]. rewrite Hsql. split.
  - intros ->. exact Hob.
  - intros Hge. replace (6 - b)%nat with 0%nat by lia. apply substring_zero.
Qed.

Lemma extract_schema_without_commit_witness :
  extract_schema.schema_sql "BEGIN; CREATE TABLE t();" = "BEGIN;"%string.
Proof.
  assert (Hnone : forall p, (0 <= p)%nat ->
            ~ occurs_at "COMMIT;" "BEGIN; CREATE TABLE t();" p).
  { intros p _ Hocc.
    destruct (Nat.le_gt_cases p 17) as [Hp | Hp].
    - do 18 (destruct p as [|p]; [vm_compute in Hocc; discriminate Hocc |]). lia.
    - pose proof (occurrence_fits _ _ _ Hocc ltac:(discriminate)) as Hfit.
      simpl in Hfit. lia. }
  apply (proj1 (proj2 (extract_schema_without_commit
                         "BEGIN; CREATE TABLE t();" 0
                         ltac:(split; [lia | split; [reflexivity | intros q _ Hq; lia]])
                         Hnone))).
  reflexivity.
Defined.
